(** * vMAX capacity dashboard: data model, collector and query layer

    A shallow embedding of [data_models.py], [vmax_collector.py] and the
    collection and query parts of [api_server.py], with the properties of
    the specification proved (or refuted) over it.

    Python's [float] is IEEE 754 binary64: it is embedded as Rocq's
    primitive [float], whose operations are the same binary64 operations.
    Python's [int] is unbounded: it is embedded as [Z].  Exceptions are
    values: code that may raise returns a sum, and code that also reads
    the wall clock or the server's globals threads a state. *)

From Stdlib Require Import ZArith List String Ascii Bool Lia Floats.
From Stdlib Require Import DecimalString Permutation Sorted.
Import ListNotations.

Local Open Scope string_scope.
Local Open Scope list_scope.

(* ================================================================== *)
(** ** The fragment of Python the sources rely on *)
(* ================================================================== *)

Module Py.

(** Exception classes that the sources name or that the built-ins used
    here raise.  Every one of them derives from [Exception]. *)
Inductive exn_class : Type :=
| VolumeBackendAPIException
| KeyError
| ValueError
| TypeError
| OverflowError
| AttributeError
| FileNotFoundError
| RequestsConnectionError
| HTTPError (status_code : Z)
| ConnectionError
| AuthenticationError
| DataCollectionError
| OtherException.

(** An exception: its class and [str(e)]. *)
Record exn : Type := Exn { class : exn_class; str : string }.

Definition is_DataCollectionError (e : exn) : bool :=
  match class e with DataCollectionError => true | _ => false end.

(** The outcome of code that may raise. *)
Definition result (A : Type) : Type := (exn + A)%type.

(** Scalars of a decoded JSON document. *)
Inductive pyval : Type :=
| PNone
| PBool (b : bool)
| PInt (z : Z)
| PFloat (f : float)
| PStr (s : string).

(** A dict from keys to scalars, as an association list. *)
Definition pydict : Type := list (string * pyval).

Fixpoint dict_get (d : pydict) (k : string) (default : pyval) : pyval :=
  match d with
  | [] => default
  | (k', v) :: d' => if String.eqb k' k then v else dict_get d' k default
  end.

(** Truth value of a string and of a list. *)
Definition truthy_str (s : string) : bool :=
  match s with EmptyString => false | _ => true end.

Definition truthy_list {A : Type} (l : list A) : bool :=
  match l with [] => false | _ => true end.

(** [float(int)]: the nearest binary64, ties to even; [OverflowError] when
    it is out of range. *)
Definition float_of_int (z : Z) : result float :=
  match binary_normalize prec emax z 0 false with
  | S754_infinity _ => inl (Exn OverflowError "int too large to convert to float")
  | sf => inr (SF2Prim sf)
  end.

(** [int(float)]: truncation toward zero. *)
Definition int_of_float (f : float) : result Z :=
  match Prim2SF f with
  | S754_nan => inl (Exn ValueError "cannot convert float NaN to integer")
  | S754_infinity _ =>
      inl (Exn OverflowError "cannot convert float infinity to integer")
  | S754_zero _ => inr 0%Z
  | S754_finite s m e =>
      let v := Z.shiftl (Zpos m) e in
      inr (if s then (- v)%Z else v)
  end.

Section Builtins.

(** Parsing of text as a number is Python's own and is a parameter:
    [None] stands for the [ValueError] of a text that is not a number. *)
Variable float_of_str : string -> option float.
Variable int_of_str : string -> option Z.

(** [float(v)] *)
Definition float (v : pyval) : result PrimFloat.float :=
  match v with
  | PFloat f => inr f
  | PInt z => float_of_int z
  | PBool b => inr (if b then 1%float else 0%float)
  | PStr s =>
      match float_of_str s with
      | Some f => inr f
      | None =>
          inl (Exn ValueError ("could not convert string to float: '" ++ s ++ "'"))
      end
  | PNone =>
      inl (Exn TypeError
             "float() argument must be a string or a real number, not 'NoneType'")
  end.

(** [int(v)] *)
Definition int (v : pyval) : result Z :=
  match v with
  | PInt z => inr z
  | PBool b => inr (if b then 1%Z else 0%Z)
  | PFloat f => int_of_float f
  | PStr s =>
      match int_of_str s with
      | Some z => inr z
      | None =>
          inl (Exn ValueError
                 ("invalid literal for int() with base 10: '" ++ s ++ "'"))
      end
  | PNone =>
      inl (Exn TypeError
             "int() argument must be a string, a bytes-like object or a real number, not 'NoneType'")
  end.

End Builtins.

(** [str(z)] for an int. *)
Definition str_of_int (z : Z) : string := NilZero.string_of_int (Z.to_int z).

(** [repr] of a list of strings, for strings free of quotes and
    backslashes (array serial numbers). *)
Definition repr_str (s : string) : string := "'" ++ s ++ "'".

Definition repr_list (l : list string) : string :=
  "[" ++ String.concat ", " (map repr_str l) ++ "]".

(** [x in l] for a list of strings. *)
Definition str_in (x : string) (l : list string) : bool :=
  existsb (String.eqb x) l.

(** [l[start:stop]] for ints [start] and [stop]: a negative index counts
    from the end, and both are clipped to the list. *)
Definition slice_index (len i : Z) : Z :=
  if (i <? 0)%Z then Z.max 0 (i + len) else Z.min i len.

Definition slice {A : Type} (l : list A) (start stop : Z) : list A :=
  let len := Z.of_nat (List.length l) in
  let lo := slice_index len start in
  let hi := slice_index len stop in
  firstn (Z.to_nat (hi - lo)) (skipn (Z.to_nat lo) l).

(** [sorted(l, key=key, reverse=True)] with float keys.  [sorted] is a
    stable sort that compares with [<] only, and with [reverse=True]
    elements of equal key keep their order: on keys that [<] orders (no
    NaN among them) its result is the list built here, where each element
    goes after the elements of strictly greater key and before the rest. *)
Section Sorted.
Context {A : Type} (key : A -> PrimFloat.float).

Fixpoint insert_desc (x : A) (l : list A) : list A :=
  match l with
  | [] => [x]
  | y :: l' =>
      if (key x <? key y)%float then y :: insert_desc x l' else x :: l
  end.

Definition sorted_desc (l : list A) : list A :=
  fold_right insert_desc [] l.

End Sorted.

(** State and exceptions together: a computation over a state [S] that
    returns or raises. *)
Definition M (S A : Type) : Type := S -> result A * S.

Definition ret {S A : Type} (a : A) : M S A := fun s => (inr a, s).

Definition raise {S A : Type} (e : exn) : M S A := fun s => (inl e, s).

Definition bind {S A B : Type} (m : M S A) (f : A -> M S B) : M S B :=
  fun s =>
    match m s with
    | (inr a, s') => f a s'
    | (inl e, s') => (inl e, s')
    end.

(** A pure outcome in the monad. *)
Definition lift {S A : Type} (r : result A) : M S A := fun s => (r, s).

(** [try: m  except Exception as e: handler e] *)
Definition try_except {S A : Type} (m : M S A) (handler : exn -> M S A) : M S A :=
  fun s =>
    match m s with
    | (inr a, s') => (inr a, s')
    | (inl e, s') => handler e s'
    end.

(** The outcome of [m] as a value: never raises. *)
Definition attempt {S A : Type} (m : M S A) : M S (result A) :=
  fun s => let (r, s') := m s in (inr r, s').

End Py.

Notation "x <- m ;; k" := (Py.bind m (fun x => k))
  (at level 61, m at next level, right associativity).
Notation "m ;;; k" := (Py.bind m (fun _ => k))
  (at level 61, right associativity).

(* ================================================================== *)
(** ** data_models.py *)
(* ================================================================== *)

(** Each dataclass is a record in a module of its own name.  [init] is the
  generated [__init__]: it stores its arguments and then runs
  [__post_init__].  The derived fields of [SystemCapacity] and
  [SrpCapacity] are dataclass fields with default [0.0]; [construct] is
  [init] with those defaults, which is how every call site builds them. *)

Module SystemCapacity.
Local Open Scope float_scope.

Record t := mk {
  array_id : string;
  timestamp : string;
  effective_used_capacity_gb : float;
  max_effective_capacity_gb : float;
  subscribed_capacity_gb : float;
  total_usable_capacity_gb : float;
  free_capacity_gb : float;
  utilization_percent : float
}.

Definition post_init (self : t) : t :=
  if 0 <? max_effective_capacity_gb self then
    mk (array_id self) (timestamp self)
       (effective_used_capacity_gb self) (max_effective_capacity_gb self)
       (subscribed_capacity_gb self) (total_usable_capacity_gb self)
       (max_effective_capacity_gb self - effective_used_capacity_gb self)
       ((effective_used_capacity_gb self / max_effective_capacity_gb self) * 100)
  else self.

Definition init (array_id timestamp : string)
    (effective_used max_effective subscribed total_usable : float)
    (free utilization : float) : t :=
  post_init (mk array_id timestamp effective_used max_effective
                subscribed total_usable free utilization).

Definition construct (array_id timestamp : string)
    (effective_used max_effective subscribed total_usable : float) : t :=
  init array_id timestamp effective_used max_effective
       subscribed total_usable 0 0.
End SystemCapacity.

Module SrpCapacity.
Local Open Scope float_scope.

Record t := mk {
  array_id : string;
  srp_id : string;
  timestamp : string;
  used_capacity_gb : float;
  subscribed_capacity_gb : float;
  total_managed_space_gb : float;
  free_capacity_gb : float;
  utilization_percent : float;
  subscription_percent : float
}.

Definition post_init (self : t) : t :=
  if 0 <? total_managed_space_gb self then
    mk (array_id self) (srp_id self) (timestamp self)
       (used_capacity_gb self) (subscribed_capacity_gb self)
       (total_managed_space_gb self)
       (total_managed_space_gb self - used_capacity_gb self)
       ((used_capacity_gb self / total_managed_space_gb self) * 100)
       ((subscribed_capacity_gb self / total_managed_space_gb self) * 100)
  else self.

Definition init (array_id srp_id timestamp : string)
    (used subscribed total_managed : float)
    (free utilization subscription : float) : t :=
  post_init (mk array_id srp_id timestamp used subscribed total_managed
                free utilization subscription).

Definition construct (array_id srp_id timestamp : string)
    (used subscribed total_managed : float) : t :=
  init array_id srp_id timestamp used subscribed total_managed 0 0 0.
End SrpCapacity.

Module StorageGroupCapacity.
Local Open Scope float_scope.

Record t := mk {
  array_id : string;
  storage_group_id : string;
  timestamp : string;
  capacity_gb : float;
  num_volumes : Z;
  service_level : option string;
  srp_name : option string;
  compression_enabled : bool
}.

Definition post_init (self : t) : t :=
  if capacity_gb self <? 0 then
    mk (array_id self) (storage_group_id self) (timestamp self)
       0 (num_volumes self) (service_level self) (srp_name self)
       (compression_enabled self)
  else self.

Definition init (array_id storage_group_id timestamp : string)
    (capacity_gb : float) (num_volumes : Z)
    (service_level srp_name : option string) (compression_enabled : bool) : t :=
  post_init (mk array_id storage_group_id timestamp capacity_gb num_volumes
                service_level srp_name compression_enabled).
End StorageGroupCapacity.

Module VolumeCapacity.
Local Open Scope float_scope.

Record t := mk {
  array_id : string;
  volume_id : string;
  volume_identifier : string;
  timestamp : string;
  capacity_gb : float;
  allocated_percent : float;
  storage_groups : list string;
  wwn : option string;
  emulation_type : option string
}.

Definition set_capacity_gb (self : t) (v : float) : t :=
  mk (array_id self) (volume_id self) (volume_identifier self)
     (timestamp self) v (allocated_percent self) (storage_groups self)
     (wwn self) (emulation_type self).

Definition set_allocated_percent (self : t) (v : float) : t :=
  mk (array_id self) (volume_id self) (volume_identifier self)
     (timestamp self) (capacity_gb self) v (storage_groups self)
     (wwn self) (emulation_type self).

(** [0 <= x <= 100] is Python's chained comparison. *)
Definition post_init (self : t) : t :=
  let self := if capacity_gb self <? 0 then set_capacity_gb self 0 else self in
  if negb ((0 <=? allocated_percent self) && (allocated_percent self <=? 100))
  then set_allocated_percent self 0
  else self.

Definition init (array_id volume_id volume_identifier timestamp : string)
    (capacity_gb allocated_percent : float) (storage_groups : list string)
    (wwn emulation_type : option string) : t :=
  post_init (mk array_id volume_id volume_identifier timestamp capacity_gb
                allocated_percent storage_groups wwn emulation_type).
End VolumeCapacity.

Module CapacitySnapshot.
Record t := mk {
  array_id : string;
  collection_timestamp : string;
  system_capacity : SystemCapacity.t;
  srp_capacities : list SrpCapacity.t;
  storage_group_capacities : list StorageGroupCapacity.t;
  volume_capacities : list VolumeCapacity.t
}.

Definition total_srps (self : t) : nat := List.length (srp_capacities self).
Definition total_storage_groups (self : t) : nat :=
  List.length (storage_group_capacities self).
Definition total_volumes (self : t) : nat := List.length (volume_capacities self).
End CapacitySnapshot.
(* ================================================================== *)
(** ** vmax_collector.py *)
(* ================================================================== *)

(** The Unisphere client (PyU4V) is outside the repository.  A connection
    is the table of what each of its calls answers: a decoded response or
    a raised exception.  Responses are typed as the collector reads them:
    identifiers and labels are strings, metric values are any scalar. *)

(** A performance response: [None], or a dict whose ['result'] key, when
    it is there, holds a list of rows. *)
Inductive stats_response : Type :=
| StatsNone
| StatsDict (result : option (list Py.pydict)).

(** An entry of ['storageResourcePoolInfo']. *)
Record srp_info : Type := SrpInfo { storageResourcePoolId : option string }.

(** The keys of a storage group's details that the collector reads. *)
Module SgDetails.
Record t : Type := mk {
  cap_gb : option Py.pyval;
  num_of_vols : option Py.pyval;
  slo : option string;
  srp : option string;
  compression : option bool
}.
End SgDetails.

(** The keys of a volume's details that the collector reads. *)
Module VolDetails.
Record t : Type := mk {
  volume_identifier : option string;
  cap_gb : option Py.pyval;
  allocated_percent : option Py.pyval;
  storageGroupId : option (list string);
  wwn : option string;
  type : option string
}.
End VolDetails.

(** [conn]: for the keys and details calls, [None] is a response that is
    [None] or empty, and for the pool keys also one without the
    ['storageResourcePoolInfo'] key.  Arguments come in the order of the
    call in the source: [get_storage_resource_pool_stats array_id srp_id],
    [get_storage_group storage_group_id array_id],
    [get_volume device_id array_id]. *)
Record U4VConn : Type := {
  get_array_list : Py.result (list string);
  get_array_keys : Py.result (list string);
  get_array_stats : string -> Py.result stats_response;
  get_storage_resource_pool_keys : string -> Py.result (option (list srp_info));
  get_storage_resource_pool_stats : string -> string -> Py.result stats_response;
  get_storage_group_list : string -> Py.result (list string);
  get_storage_group : string -> string -> Py.result (option SgDetails.t);
  get_volume_list : string -> Py.result (list string);
  get_volume : string -> string -> Py.result (option VolDetails.t)
}.

(** What the process finds outside itself: the wall clock as the sequence
    of its readings ([clock n] is the text of the [n]-th
    [datetime.now().isoformat()]), Python's parsing of numbers, and the
    client library's constructor. *)
Record Env : Type := {
  clock : nat -> string;
  float_of_str : string -> option float;
  int_of_str : string -> option Z;
  connect : Py.result U4VConn
}.

Module Collector.

Import Py.

(** Inside the collector the only state is the number of clock readings
    taken so far. *)
Definition C (A : Type) : Type := M nat A.

Section WithEnv.
Variable env : Env.

(** [datetime.now().isoformat()] *)
Definition now : C string := fun n => (inr (clock env n), S n).

Definition to_float (v : pyval) : C PrimFloat.float :=
  lift (Py.float (float_of_str env) v).

Definition to_int (v : pyval) : C Z :=
  lift (Py.int (int_of_str env) v).

(** [d.get(k, 0)] on an optional key of a details record. *)
Definition get0 (o : option pyval) : pyval :=
  match o with Some v => v | None => PInt 0 end.

Record VmaxCapacityCollector : Type := {
  conn : U4VConn;
  array_id : option string
}.

(** [__init__] *)
Definition init (host : string) (port : Z) (array_id : option string)
  : result VmaxCapacityCollector :=
  let body : result VmaxCapacityCollector :=
    match connect env with
    | inl e => inl e
    | inr c =>
        match get_array_list c with
        | inl e => inl e
        | inr arrays =>
            match array_id with
            | None | Some EmptyString =>
                match arrays with
                | a :: _ => inr {| conn := c; array_id := Some a |}
                | [] => inr {| conn := c; array_id := array_id |}
                end
            | Some a =>
                if str_in a arrays then inr {| conn := c; array_id := array_id |}
                else inl (Exn ValueError
                            ("Specified array '" ++ a ++ "' not found. "
                             ++ "Available: " ++ repr_list arrays))
            end
        end
    end in
  match body with
  | inr self => inr self
  | inl e =>
      match class e with
      | RequestsConnectionError =>
          inl (Exn ConnectionError
                 ("Cannot connect to Unisphere at " ++ host ++ ":"
                  ++ str_of_int port ++ ". "
                  ++ "Verify network connectivity and that Unisphere is running."))
      | HTTPError status_code =>
          if (status_code =? 401)%Z
          then inl (Exn AuthenticationError
                      "Invalid credentials. Verify username and password.")
          else inl (Exn ConnectionError ("HTTP error: " ++ str e))
      | _ => inl (Exn ConnectionError ("Initialization failed: " ++ str e))
      end
  end.

Section WithSelf.
Variable self : VmaxCapacityCollector.

(** The three [except] clauses that close each collector method. *)
Definition wrap_errors (api_msg key_msg other_msg : string) (has_key_clause : bool)
    (e : exn) : exn :=
  match class e with
  | VolumeBackendAPIException => Exn DataCollectionError (api_msg ++ str e)
  | KeyError =>
      if has_key_clause then Exn DataCollectionError (key_msg ++ str e)
      else Exn DataCollectionError (other_msg ++ str e)
  | _ => Exn DataCollectionError (other_msg ++ str e)
  end.

(** The first row of a performance response, [{}] without one. *)
Definition first_row (rows : list pydict) : pydict :=
  match rows with r :: _ => r | [] => [] end.

Definition get_system_summary (array_id : string) : C SystemCapacity.t :=
  try_except
    (array_keys <- lift (get_array_keys (conn self)) ;;
     if negb (truthy_list array_keys)
     then raise (Exn DataCollectionError "No array keys found")
     else
       stats <- lift (get_array_stats (conn self) array_id) ;;
       match stats with
       | StatsNone | StatsDict None =>
           raise (Exn DataCollectionError
                    "Invalid response format from performance API")
       | StatsDict (Some rows) =>
           let result := first_row rows in
           timestamp <- now ;;
           effective_used <- to_float (dict_get result "EffectiveUsedCapacity" (PInt 0)) ;;
           max_effective <- to_float (dict_get result "MaxEffectiveCapacity" (PInt 0)) ;;
           subscribed <- to_float (dict_get result "SubscribedCapacity" (PInt 0)) ;;
           total_usable <- to_float (dict_get result "TotalUsableCapacity" (PInt 0)) ;;
           ret (SystemCapacity.construct array_id timestamp effective_used
                  max_effective subscribed total_usable)
       end)
    (fun e =>
       raise (wrap_errors "Failed to retrieve system summary: "
                "API response missing required field: "
                "System summary collection failed: " true e)).

(** The body of the inner [try] of the pool loop. *)
Definition srp_item (array_id srp_id : string) : C SrpCapacity.t :=
  stats <- lift (get_storage_resource_pool_stats (conn self) array_id srp_id) ;;
  match stats with
  | StatsNone =>
      raise (Exn AttributeError "'NoneType' object has no attribute 'get'")
  | StatsDict result =>
      let result := match result with Some rows => first_row rows | None => [] end in
      timestamp <- now ;;
      used <- to_float (dict_get result "UsedCapacity" (PInt 0)) ;;
      subscribed <- to_float (dict_get result "SubscribedCapacity" (PInt 0)) ;;
      total_managed <- to_float (dict_get result "TotalManagedSpace" (PInt 0)) ;;
      ret (SrpCapacity.construct array_id srp_id timestamp used subscribed
             total_managed)
  end.

(** The pool loop: [srp_capacities] is the list built so far. *)
Fixpoint srp_loop (array_id : string) (srp_list : list srp_info)
    (srp_capacities : list SrpCapacity.t) : C (list SrpCapacity.t) :=
  match srp_list with
  | [] => ret srp_capacities
  | srp_info :: rest =>
      match storageResourcePoolId srp_info with
      | None | Some EmptyString => srp_loop array_id rest srp_capacities
      | Some srp_id =>
          r <- attempt (srp_item array_id srp_id) ;;
          match r with
          | inr srp_capacity =>
              srp_loop array_id rest (srp_capacities ++ [srp_capacity])
          | inl _ => srp_loop array_id rest srp_capacities
          end
      end
  end.

Definition get_srp_capacity (array_id : string) : C (list SrpCapacity.t) :=
  try_except
    (srp_keys <- lift (get_storage_resource_pool_keys (conn self) array_id) ;;
     match srp_keys with
     | None => ret []
     | Some srp_list => srp_loop array_id srp_list []
     end)
    (fun e =>
       raise (wrap_errors "Failed to retrieve SRP capacity: " ""
                "SRP capacity collection failed: " false e)).

(** The body of the inner [try] of the storage group loop: [None] when
    the group has no details and the loop goes on without an entry. *)
Definition sg_item (array_id sg_id : string) : C (option StorageGroupCapacity.t) :=
  sg_details <- lift (get_storage_group (conn self) sg_id array_id) ;;
  match sg_details with
  | None => ret None
  | Some d =>
      timestamp <- now ;;
      capacity_gb <- to_float (get0 (SgDetails.cap_gb d)) ;;
      num_volumes <- to_int (get0 (SgDetails.num_of_vols d)) ;;
      ret (Some (StorageGroupCapacity.init array_id sg_id timestamp capacity_gb
                   num_volumes (SgDetails.slo d) (SgDetails.srp d)
                   (match SgDetails.compression d with Some b => b | None => false end)))
  end.

Fixpoint sg_loop (array_id : string) (sg_list : list string)
    (storage_group_capacities : list StorageGroupCapacity.t)
  : C (list StorageGroupCapacity.t) :=
  match sg_list with
  | [] => ret storage_group_capacities
  | sg_id :: rest =>
      r <- attempt (sg_item array_id sg_id) ;;
      match r with
      | inr (Some storage_group_capacity) =>
          sg_loop array_id rest (storage_group_capacities ++ [storage_group_capacity])
      | inr None | inl _ => sg_loop array_id rest storage_group_capacities
      end
  end.

Definition get_all_storage_groups (array_id : string)
  : C (list StorageGroupCapacity.t) :=
  try_except
    (sg_list <- lift (get_storage_group_list (conn self) array_id) ;;
     if negb (truthy_list sg_list) then ret []
     else sg_loop array_id sg_list [])
    (fun e =>
       raise (wrap_errors "Failed to retrieve storage groups: " ""
                "Storage group collection failed: " false e)).

(** The body of the inner [try] of the volume loop. *)
Definition volume_item (array_id volume_id : string) : C (option VolumeCapacity.t) :=
  vol_details <- lift (get_volume (conn self) volume_id array_id) ;;
  match vol_details with
  | None => ret None
  | Some d =>
      timestamp <- now ;;
      capacity_gb <- to_float (get0 (VolDetails.cap_gb d)) ;;
      allocated_percent <- to_float (get0 (VolDetails.allocated_percent d)) ;;
      ret (Some (VolumeCapacity.init array_id volume_id
                   (match VolDetails.volume_identifier d with
                    | Some s => s | None => "" end)
                   timestamp capacity_gb allocated_percent
                   (match VolDetails.storageGroupId d with
                    | Some l => l | None => [] end)
                   (VolDetails.wwn d) (VolDetails.type d)))
  end.

Fixpoint volume_loop (array_id : string) (volume_list : list string)
    (volume_capacities : list VolumeCapacity.t) : C (list VolumeCapacity.t) :=
  match volume_list with
  | [] => ret volume_capacities
  | volume_id :: rest =>
      r <- attempt (volume_item array_id volume_id) ;;
      match r with
      | inr (Some volume_capacity) =>
          volume_loop array_id rest (volume_capacities ++ [volume_capacity])
      | inr None | inl _ => volume_loop array_id rest volume_capacities
      end
  end.

Definition get_all_volumes (array_id : string) : C (list VolumeCapacity.t) :=
  try_except
    (volume_list <- lift (get_volume_list (conn self) array_id) ;;
     if negb (truthy_list volume_list) then ret []
     else volume_loop array_id volume_list [])
    (fun e =>
       raise (wrap_errors "Failed to retrieve volumes: " ""
                "Volume collection failed: " false e)).

Definition get_all_capacity_data (array_id : string) : C CapacitySnapshot.t :=
  try_except
    (collection_start <- now ;;
     system_capacity <- get_system_summary array_id ;;
     srp_capacities <- get_srp_capacity array_id ;;
     storage_group_capacities <- get_all_storage_groups array_id ;;
     volume_capacities <- get_all_volumes array_id ;;
     let snapshot :=
       CapacitySnapshot.mk array_id collection_start system_capacity
         srp_capacities storage_group_capacities volume_capacities in
     now ;;;
     ret snapshot)
    (fun e =>
       if is_DataCollectionError e then raise e
       else raise (Exn DataCollectionError
                     ("Complete capacity collection failed: " ++ str e))).

End WithSelf.
End WithEnv.
End Collector.

(* ================================================================== *)
(** ** config.py and api_server.py *)
(* ================================================================== *)

Module UnisphereConfig.
Record t : Type := mk {
  host : string;
  port : Z;
  username : string;
  password : string;
  array_id : string;
  verify_ssl : bool
}.
End UnisphereConfig.

Module ApiServer.

Import Py.

(** A message handed to [manager.broadcast]. *)
Inductive message : Type :=
| CollectionStarted (timestamp : string)
| CollectionProgress (step text : string)
| CollectionCompleted (timestamp : string) (array_id : string)
    (total_srps total_storage_groups total_volumes : nat)
    (system_utilization_percent : PrimFloat.float)
| CollectionError (error timestamp : string).

(** The module's globals, the messages broadcast so far (oldest first)
    and the number of clock readings taken so far. *)
Record state : Type := mkState {
  current_snapshot : option CapacitySnapshot.t;
  collection_in_progress : bool;
  last_collection_time : option string;
  collection_error : option string;
  broadcasts : list message;
  clock_reads : nat
}.

Definition set_current_snapshot (v : option CapacitySnapshot.t) (s : state) : state :=
  mkState v (collection_in_progress s) (last_collection_time s)
    (collection_error s) (broadcasts s) (clock_reads s).

Definition set_collection_in_progress (v : bool) (s : state) : state :=
  mkState (current_snapshot s) v (last_collection_time s)
    (collection_error s) (broadcasts s) (clock_reads s).

Definition set_last_collection_time (v : option string) (s : state) : state :=
  mkState (current_snapshot s) (collection_in_progress s) v
    (collection_error s) (broadcasts s) (clock_reads s).

Definition set_collection_error (v : option string) (s : state) : state :=
  mkState (current_snapshot s) (collection_in_progress s)
    (last_collection_time s) v (broadcasts s) (clock_reads s).

Definition set_broadcasts (v : list message) (s : state) : state :=
  mkState (current_snapshot s) (collection_in_progress s)
    (last_collection_time s) (collection_error s) v (clock_reads s).

Definition set_clock_reads (v : nat) (s : state) : state :=
  mkState (current_snapshot s) (collection_in_progress s)
    (last_collection_time s) (collection_error s) (broadcasts s) v.

Definition Handler (A : Type) : Type := M state A.

Definition modify (f : state -> state) : Handler unit := fun s => (inr tt, f s).

(** [manager.broadcast(message)]: a failed send to one client is caught
    inside [broadcast], so it returns; the message is recorded. *)
Definition broadcast (m : message) : Handler unit :=
  modify (fun s => set_broadcasts (broadcasts s ++ [m]) s).

(** A collector computation run on the server's clock. *)
Definition on_clock {A : Type} (c : Collector.C A) : Handler A :=
  fun s => let (r, n) := c (clock_reads s) in (r, set_clock_reads n s).

(** What an endpoint answers: a body, an [HTTPException], or an exception
    that escapes the handler. *)
Inductive response (A : Type) : Type :=
| Body (a : A)
| HTTPException (status_code : Z) (detail : string)
| Unhandled (e : exn).
Arguments Body {A} a.
Arguments HTTPException {A} status_code detail.
Arguments Unhandled {A} e.

Section WithEnv.
Variable env : Env.

(** [load_config("config.json")]: the file system is outside. *)
Variable load_config : result UnisphereConfig.t.

Definition now : Handler string := on_clock (Collector.now env).

(** The [try] block of [collect_capacity_data]. *)
Definition collect_body : Handler unit :=
  config <- lift load_config ;;
  collector <- lift (Collector.init env (UnisphereConfig.host config)
                       (UnisphereConfig.port config)
                       (Some (UnisphereConfig.array_id config))) ;;
  broadcast (CollectionProgress "system" "Collecting system capacity...") ;;;
  snapshot <- on_clock (Collector.get_all_capacity_data env collector
                          (UnisphereConfig.array_id config)) ;;
  modify (set_current_snapshot (Some snapshot)) ;;;
  t <- now ;;
  modify (set_last_collection_time (Some t)) ;;;
  modify (set_collection_error None) ;;;
  broadcast (CollectionCompleted t (CapacitySnapshot.array_id snapshot)
               (CapacitySnapshot.total_srps snapshot)
               (CapacitySnapshot.total_storage_groups snapshot)
               (CapacitySnapshot.total_volumes snapshot)
               (SystemCapacity.utilization_percent
                  (CapacitySnapshot.system_capacity snapshot))).

(** [collect_capacity_data]: the background task.  It catches every
    exception of its body, so it returns a state. *)
Definition collect_capacity_task : Handler unit :=
  modify (set_collection_in_progress true) ;;;
  modify (set_collection_error None) ;;;
  t <- now ;;
  broadcast (CollectionStarted t) ;;;
  try_except collect_body
    (fun e =>
       let error_msg := str e in
       modify (set_collection_error (Some error_msg)) ;;;
       t <- now ;;
       broadcast (CollectionError error_msg t)).

Definition collect_capacity_data (s : state) : state :=
  set_collection_in_progress false (snd (collect_capacity_task s)).

(** How a run ended, read off the last message it broadcast. *)
Inductive outcome : Type := Completed | Failed.

Definition run_outcome (s : state) : option outcome :=
  match last (map Some (broadcasts s)) None with
  | Some (CollectionCompleted _ _ _ _ _ _) => Some Completed
  | Some (CollectionError _ _) => Some Failed
  | _ => None
  end.

Record started : Type := Started { started_timestamp : string }.

(** [trigger_collection]: the answer, and whether the background task
    was added (it runs once the answer is sent). *)
Definition trigger_collection (force_refresh : bool) (s : state)
  : response started * bool * state :=
  if collection_in_progress s && negb force_refresh
  then (HTTPException 409%Z "Collection already in progress", false, s)
  else
    let n := clock_reads s in
    (Body (Started (clock env n)), true, set_clock_reads (S n) s).

(** One request to [/api/collect] with its background task. *)
Definition post_api_collect (force_refresh : bool) (s : state)
  : response started * state :=
  match trigger_collection force_refresh s with
  | (r, true, s') => (r, collect_capacity_data s')
  | (r, false, s') => (r, s')
  end.

End WithEnv.

Definition no_data {A : Type} : response A :=
  HTTPException 404%Z "No data available. Run collection first.".

Record volumes_page : Type := mkPage {
  total : nat;
  offset : option Z;
  limit : option Z;
  items : list VolumeCapacity.t
}.

(** Truth value of an optional string and of an optional int. *)
Definition truthy_opt_str (o : option string) : bool :=
  match o with Some s => truthy_str s | None => false end.

Definition truthy_opt_int (o : option Z) : bool :=
  match o with Some z => negb (z =? 0)%Z | None => false end.

(** The volumes of [get_volumes] after the filter and the sort. *)
Definition filtered_volumes (snapshot : CapacitySnapshot.t)
    (storage_group : option string) : list VolumeCapacity.t :=
  match storage_group with
  | Some g =>
      if truthy_str g
      then filter (fun v => str_in g (VolumeCapacity.storage_groups v))
             (CapacitySnapshot.volume_capacities snapshot)
      else CapacitySnapshot.volume_capacities snapshot
  | None => CapacitySnapshot.volume_capacities snapshot
  end.

Definition sorted_volumes (snapshot : CapacitySnapshot.t)
    (storage_group : option string) : list VolumeCapacity.t :=
  sorted_desc VolumeCapacity.capacity_gb (filtered_volumes snapshot storage_group).

(** [get_volumes]; [offset + limit] with [offset] [None] is a
    [TypeError]. *)
Definition get_volumes (s : state) (storage_group : option string)
    (limit offset : option Z) : response volumes_page :=
  match current_snapshot s with
  | None => no_data
  | Some snapshot =>
      let volumes := sorted_volumes snapshot storage_group in
      let total_count := List.length volumes in
      if truthy_opt_int limit then
        match limit, offset with
        | Some l, Some o =>
            Body (mkPage total_count offset limit (slice volumes o (o + l)))
        | _, _ =>
            Unhandled (Exn TypeError
              "unsupported operand type(s) for +: 'NoneType' and 'int'")
        end
      else Body (mkPage total_count offset limit volumes)
  end.

(** An entry of the service level breakdown.  [total_capacity_gb] starts
    as the int [0] and is a float from the first addition on; an entry is
    added to as soon as it is made, so the total is kept as a float. *)
Record sl_entry : Type := mkEntry {
  service_level : string;
  count : Z;
  total_capacity_gb : PrimFloat.float;
  num_volumes : Z
}.

(** [sg.service_level or "None"] *)
Definition slo_of (sg : StorageGroupCapacity.t) : string :=
  match StorageGroupCapacity.service_level sg with
  | Some s => if truthy_str s then s else "None"
  | None => "None"
  end.

(** The dict [breakdown], in insertion order. *)
Definition breakdown_dict : Type := list (string * sl_entry).

Fixpoint dict_contains (d : breakdown_dict) (k : string) : bool :=
  match d with
  | [] => false
  | (k', _) :: d' => String.eqb k' k || dict_contains d' k
  end.

(** [d[k] = f(d[k])] for a key that is in [d]. *)
Fixpoint dict_update (d : breakdown_dict) (k : string) (f : sl_entry -> sl_entry)
  : breakdown_dict :=
  match d with
  | [] => []
  | (k', e) :: d' =>
      if String.eqb k' k then (k', f e) :: d' else (k', e) :: dict_update d' k f
  end.

Definition add_group (sg : StorageGroupCapacity.t) (e : sl_entry) : sl_entry :=
  mkEntry (service_level e) (count e + 1)
    (total_capacity_gb e + StorageGroupCapacity.capacity_gb sg)%float
    (num_volumes e + StorageGroupCapacity.num_volumes sg).

(** One turn of the loop of [get_service_level_breakdown]. *)
Definition breakdown_step (breakdown : breakdown_dict) (sg : StorageGroupCapacity.t)
  : breakdown_dict :=
  let slo := slo_of sg in
  let breakdown :=
    if dict_contains breakdown slo then breakdown
    else breakdown ++ [(slo, mkEntry slo 0 0 0)] in
  dict_update breakdown slo (add_group sg).

Definition service_level_breakdown (sgs : list StorageGroupCapacity.t)
  : list sl_entry :=
  map snd (fold_left breakdown_step sgs []).

Definition get_service_level_breakdown (s : state) : response (list sl_entry) :=
  match current_snapshot s with
  | None => no_data
  | Some snapshot =>
      Body (service_level_breakdown
              (CapacitySnapshot.storage_group_capacities snapshot))
  end.

End ApiServer.

(* ================================================================== *)
(** ** The words of the specification *)
(* ================================================================== *)

(** Definitions that follow the specification's wording, to be compared
    with what the functions above compute. *)
Module SpecWords.

Section Ranks.
Context {A : Type}.

(** The elements at the 1-based ranks [lo..hi] of a list, the first
    element of the list having rank [r]. *)
Fixpoint at_ranks_from (r lo hi : Z) (l : list A) : list A :=
  match l with
  | [] => []
  | x :: l' =>
      if ((lo <=? r) && (r <=? hi))%Z
      then x :: at_ranks_from (r + 1) lo hi l'
      else at_ranks_from (r + 1) lo hi l'
  end.

Definition at_ranks (lo hi : Z) (l : list A) : list A := at_ranks_from 1 lo hi l.

End Ranks.

Section Descending.
Context {A : Type} (key : A -> PrimFloat.float).

(** Descending order: [b] after [a] has [key b <= key a]. *)
Definition desc (a b : A) : Prop := (key b <=? key a)%float = true.

Definition no_nan (l : list A) : Prop :=
  Forall (fun a => is_nan (key a) = false) l.

End Descending.

(** The category of a storage group as the specification words it: its
    service level label, and "None" when it has none. *)
Definition label_category (sg : StorageGroupCapacity.t) : string :=
  match StorageGroupCapacity.service_level sg with
  | Some s => s
  | None => "None"
  end.

Section Pools.
Variable env : Env.
Variable self : Collector.VmaxCapacityCollector.
Variable array_id : string.

(** A failing pool: the body of the pool loop raises on it (the fetch of
    its metrics raises, or what it answers cannot be read). *)
Definition pool_fails (srp_id : string) : bool :=
  match fst (Collector.srp_item env self array_id srp_id 0) with
  | inl _ => true
  | inr _ => false
  end.

Definition has_id (i : srp_info) : bool :=
  match storageResourcePoolId i with
  | Some s => Py.truthy_str s
  | None => false
  end.

Definition pool_id (i : srp_info) : string :=
  match storageResourcePoolId i with Some s => s | None => "" end.

(** The pools of a list that are not failing, in list order. *)
Definition non_failing (l : list srp_info) : list srp_info :=
  filter (fun i => has_id i && negb (pool_fails (pool_id i))) l.

End Pools.

End SpecWords.

(* ================================================================== *)
(** ** Sample arrays, for the examples below *)
(* ================================================================== *)

Module Fixtures.

Import Py.

Definition serial : string := "000197900123".

(** A clock whose readings are all different. *)
Definition clock0 (n : nat) : string :=
  "2024-05-01T10:00:00." ++ NilZero.string_of_uint (Nat.to_uint n).

Definition system_row : pydict :=
  [("EffectiveUsedCapacity", PFloat 750); ("MaxEffectiveCapacity", PInt 1000);
   ("SubscribedCapacity", PFloat 900); ("TotalUsableCapacity", PFloat 1200)].

Definition pool_row : pydict :=
  [("UsedCapacity", PFloat 40); ("SubscribedCapacity", PFloat 60);
   ("TotalManagedSpace", PFloat 100)].

Definition five_pools : list srp_info :=
  map (fun s => SrpInfo (Some s)) ["SRP_1"; "SRP_2"; "SRP_3"; "SRP_4"; "SRP_5"].

Definition pool_error : exn :=
  Exn VolumeBackendAPIException "Error GET StorageResourcePool SRP_3: 500".

(** An array of five pools where the metrics of the third cannot be
    fetched, two storage groups and one volume; [array_keys] and
    [pool_keys] are what the two key calls answer. *)
Definition array_conn (array_keys : result (list string))
    (pool_keys : result (option (list srp_info))) : U4VConn :=
  {| get_array_list := inr [serial];
     get_array_keys := array_keys;
     get_array_stats := fun _ => inr (StatsDict (Some [system_row]));
     get_storage_resource_pool_keys := fun _ => pool_keys;
     get_storage_resource_pool_stats := fun _ srp_id =>
       if String.eqb srp_id "SRP_3" then inl pool_error
       else inr (StatsDict (Some [pool_row]));
     get_storage_group_list := fun _ => inr ["SG_APP1"; "SG_APP2"];
     get_storage_group := fun _ _ =>
       inr (Some (SgDetails.mk (Some (PFloat 100)) (Some (PInt 4))
                    (Some "Diamond") (Some "SRP_1") (Some true)));
     get_volume_list := fun _ => inr ["00A1F"];
     get_volume := fun _ _ =>
       inr (Some (VolDetails.mk (Some "app1_data") (Some (PFloat 25))
                    (Some (PFloat 50)) (Some ["SG_APP1"]) None (Some "FBA"))) |}.

Definition env_of (c : U4VConn) : Env :=
  {| clock := clock0;
     float_of_str := fun _ => None;
     int_of_str := fun _ => None;
     connect := inr c |}.

(** The array answering every call but the third pool's. *)
Definition conn_up : U4VConn := array_conn (inr [serial]) (inr (Some five_pools)).
Definition env_up : Env := env_of conn_up.

(** The array keys cannot be fetched: the connection dropped. *)
Definition conn_system_down : U4VConn :=
  array_conn (inl (Exn RequestsConnectionError "Connection refused"))
    (inr (Some five_pools)).
Definition env_system_down : Env := env_of conn_system_down.

(** The list of pools cannot be fetched. *)
Definition conn_pool_keys_down : U4VConn :=
  array_conn (inr [serial])
    (inl (Exn VolumeBackendAPIException "Error GET StorageResourcePool keys: 500")).
Definition env_pool_keys_down : Env := env_of conn_pool_keys_down.

(** The array has no pool. *)
Definition conn_no_pool : U4VConn := array_conn (inr [serial]) (inr None).
Definition env_no_pool : Env := env_of conn_no_pool.

Definition config : UnisphereConfig.t :=
  UnisphereConfig.mk "unisphere.example.com" 8443 "monitor" "secret" serial false.

Definition collector_of (c : U4VConn) : Collector.VmaxCapacityCollector :=
  {| Collector.conn := c; Collector.array_id := Some serial |}.

(** The server before any collection, and after one that succeeded. *)
Definition fresh : ApiServer.state :=
  ApiServer.mkState None false None None [] 0.

Definition after_one_run : ApiServer.state :=
  ApiServer.collect_capacity_data env_up (inr config) fresh.

(** Storage groups of the specification's example, and one whose label
    is the empty string. *)
Definition group (id : string) (label : option string) (capacity : PrimFloat.float)
  : StorageGroupCapacity.t :=
  StorageGroupCapacity.init serial id "2024-05-01T10:00:00" capacity 2 label
    (Some "SRP_1") false.

Definition example_groups : list StorageGroupCapacity.t :=
  [group "SG_A" (Some "Diamond") 100; group "SG_B" (Some "Diamond") 50;
   group "SG_C" None 10].

Definition unlabelled_group : StorageGroupCapacity.t := group "SG_D" (Some "") 5.

(** Volumes of the given capacities, in the given order. *)
Definition volume (capacity : PrimFloat.float) : VolumeCapacity.t :=
  VolumeCapacity.init serial "00A1F" "app1_data" "2024-05-01T10:00:00"
    capacity 50 ["SG_APP1"] None None.

Definition snapshot_of (capacities : list PrimFloat.float) : CapacitySnapshot.t :=
  CapacitySnapshot.mk serial "2024-05-01T10:00:00"
    (SystemCapacity.construct serial "2024-05-01T10:00:00" 750 1000 900 1200)
    [] [] (map volume capacities).

Definition state_of (capacities : list PrimFloat.float) : ApiServer.state :=
  ApiServer.mkState (Some (snapshot_of capacities)) false
    (Some "2024-05-01T10:00:05") None [] 0.

Definition twenty_five : list PrimFloat.float :=
  [7; 21; 3; 14; 25; 1; 18; 10; 5; 23; 12; 16; 2; 20; 9; 24; 6; 13; 19; 4; 11;
   22; 8; 17; 15]%float.

Definition four : list PrimFloat.float := [40; 10; 30; 20]%float.

End Fixtures.

(* ================================================================== *)
(** ** config.py: validation and the environment *)
(* ================================================================== *)

Module Config.

Import Py.

(** [UnisphereConfig.validate]; [port] is an int here, so the
    [isinstance] test of the source holds. *)
Definition validate (self : UnisphereConfig.t) : result unit :=
  if negb (truthy_str (UnisphereConfig.host self))
  then inl (Exn ValueError "Unisphere host is required")
  else if negb (truthy_str (UnisphereConfig.username self))
  then inl (Exn ValueError "Username is required")
  else if negb (truthy_str (UnisphereConfig.password self))
  then inl (Exn ValueError "Password is required")
  else if negb (truthy_str (UnisphereConfig.array_id self))
  then inl (Exn ValueError "Array ID is required")
  else if (UnisphereConfig.port self <=? 0)%Z
  then inl (Exn ValueError "Port must be a positive integer")
  else inr tt.

Section FromEnv.

(** [os.environ], and the two string operations of Python that
    [load_config_from_env] uses: [int(s)] ([None] for a text that is not
    an int) and [s.lower()]. *)
Variable environ : string -> option string.
Variable int_of_str : string -> option Z.
Variable lower : string -> string.

(** [os.environ.get(k, default)] *)
Definition environ_get (k default : string) : string :=
  match environ k with Some v => v | None => default end.

(** [load_config_from_env]: the arguments of the constructor are
    evaluated in order, [int(...)] among them, before [validate] runs.
    [int('8443')], the default, is [8443]. *)
Definition load_config_from_env : result UnisphereConfig.t :=
  let host := environ_get "UNISPHERE_HOST" "" in
  match
    match environ "UNISPHERE_PORT" with
    | None => inr 8443%Z
    | Some v => Py.int int_of_str (PStr v)
    end
  with
  | inl e => inl e
  | inr port =>
      let config :=
        UnisphereConfig.mk host port
          (environ_get "UNISPHERE_USER" "")
          (environ_get "UNISPHERE_PASSWORD" "")
          (environ_get "VMAX_ARRAY_ID" "")
          (String.eqb (lower (environ_get "UNISPHERE_VERIFY_SSL" "false")) "true") in
      match validate config with
      | inl e => inl e
      | inr _ => inr config
      end
  end.

End FromEnv.

End Config.

(* ================================================================== *)
(** ** api_server.py: the connection manager and the other endpoints *)
(* ================================================================== *)

Module ConnectionManager.

Import Py.

(** A web socket is known by its identity. *)
Definition WebSocket : Type := nat.

(** [l.remove(x)]: the first occurrence goes; [ValueError] without one. *)
Fixpoint list_remove (x : WebSocket) (l : list WebSocket) : result (list WebSocket) :=
  match l with
  | [] => inl (Exn ValueError "list.remove(x): x not in list")
  | y :: l' =>
      if Nat.eqb y x then inr l'
      else match list_remove x l' with
           | inl e => inl e
           | inr r => inr (y :: r)
           end
  end.

(** [connect], once the socket is accepted. *)
Definition connect (websocket : WebSocket) (active_connections : list WebSocket)
  : list WebSocket :=
  active_connections ++ [websocket].

Definition disconnect (websocket : WebSocket) (active_connections : list WebSocket)
  : result (list WebSocket) :=
  list_remove websocket active_connections.

Section Broadcast.
Context {Message : Type}.

(** What [connection.send_json(message)] does: it returns or raises. *)
Variable send_json : WebSocket -> Message -> result unit.

(** The first loop of [broadcast]: the connections that got the message
    and the list [disconnected], both in the order of the sends. *)
Fixpoint send_all (connections : list WebSocket) (message : Message)
  : list WebSocket * list WebSocket :=
  match connections with
  | [] => ([], [])
  | connection :: rest =>
      let (delivered, disconnected) := send_all rest message in
      match send_json connection message with
      | inr _ => (connection :: delivered, disconnected)
      | inl _ => (delivered, connection :: disconnected)
      end
  end.

(** The second loop of [broadcast]: [self.disconnect(conn)] for each. *)
Fixpoint disconnect_all (disconnected : list WebSocket)
    (active_connections : list WebSocket) : result (list WebSocket) :=
  match disconnected with
  | [] => inr active_connections
  | conn :: rest =>
      match disconnect conn active_connections with
      | inl e => inl e
      | inr active => disconnect_all rest active
      end
  end.

(** [broadcast]: the connections that got the message, and the
    connections that stay registered (or the exception of a
    [disconnect]). *)
Definition broadcast (active_connections : list WebSocket) (message : Message)
  : list WebSocket * result (list WebSocket) :=
  let (delivered, disconnected) := send_all active_connections message in
  (delivered, disconnect_all disconnected active_connections).

End Broadcast.

End ConnectionManager.

Module Endpoints.

Import Py ApiServer.

Record StatusResponse : Type := mkStatus {
  status_collection_in_progress : bool;
  status_last_collection_time : option string;
  has_data : bool;
  error : option string;
  status_array_id : option string
}.

Definition get_status (s : state) : StatusResponse :=
  mkStatus (collection_in_progress s) (last_collection_time s)
    (match current_snapshot s with Some _ => true | None => false end)
    (collection_error s)
    (match current_snapshot s with
     | Some snapshot => Some (CapacitySnapshot.array_id snapshot)
     | None => None
     end).

Definition get_system_capacity (s : state) : response SystemCapacity.t :=
  match current_snapshot s with
  | None => no_data
  | Some snapshot => Body (CapacitySnapshot.system_capacity snapshot)
  end.

Definition get_srp_capacities (s : state) : response (list SrpCapacity.t) :=
  match current_snapshot s with
  | None => no_data
  | Some snapshot => Body (CapacitySnapshot.srp_capacities snapshot)
  end.

(** [x == wanted] for an optional label [x] and a string [wanted]. *)
Definition label_is (wanted : string) (x : option string) : bool :=
  match x with Some l => String.eqb l wanted | None => false end.

(** The storage groups of [get_storage_groups] after the two filters. *)
Definition filtered_groups (snapshot : CapacitySnapshot.t)
    (service_level srp_name : option string) : list StorageGroupCapacity.t :=
  let storage_groups := CapacitySnapshot.storage_group_capacities snapshot in
  let storage_groups :=
    match service_level with
    | Some wanted =>
        if truthy_str wanted
        then filter (fun sg => label_is wanted (StorageGroupCapacity.service_level sg))
               storage_groups
        else storage_groups
    | None => storage_groups
    end in
  match srp_name with
  | Some wanted =>
      if truthy_str wanted
      then filter (fun sg => label_is wanted (StorageGroupCapacity.srp_name sg))
             storage_groups
      else storage_groups
  | None => storage_groups
  end.

(** [get_storage_groups]; [storage_groups[:limit]] is the slice from the
    start. *)
Definition get_storage_groups (s : state) (service_level srp_name : option string)
    (limit : option Z) : response (list StorageGroupCapacity.t) :=
  match current_snapshot s with
  | None => no_data
  | Some snapshot =>
      let storage_groups :=
        sorted_desc StorageGroupCapacity.capacity_gb
          (filtered_groups snapshot service_level srp_name) in
      match limit with
      | Some l =>
          if negb (l =? 0)%Z then Body (slice storage_groups 0 l)
          else Body storage_groups
      | None => Body storage_groups
      end
  end.

(** [get_top_consumers]: [limit] is an int (10 when the query has
    none). *)
Definition get_top_consumers (s : state) (limit : Z)
  : response (list StorageGroupCapacity.t) :=
  match current_snapshot s with
  | None => no_data
  | Some snapshot =>
      Body (slice (sorted_desc StorageGroupCapacity.capacity_gb
                     (CapacitySnapshot.storage_group_capacities snapshot))
              0 limit)
  end.

Definition default_top_limit : Z := 10.

(** A sequence of collection runs, each in the environment and with the
    configuration file it finds. *)
Definition run_all (runs : list (Env * result UnisphereConfig.t)) (s : state)
  : state :=
  fold_left (fun s r => collect_capacity_data (fst r) (snd r) s) runs s.

End Endpoints.

(** [r] keeps some of the elements of [l], in the order of [l]. *)
Inductive Subseq {A : Type} : list A -> list A -> Prop :=
| Subseq_nil : Subseq [] []
| Subseq_skip : forall x r l, Subseq r l -> Subseq r (x :: l)
| Subseq_keep : forall x r l, Subseq r l -> Subseq (x :: r) (x :: l).

(** A server whose snapshot holds the four storage groups below. *)
Module MoreFixtures.

Definition four_groups : list StorageGroupCapacity.t :=
  Fixtures.example_groups ++ [Fixtures.group "SG_E" (Some "Gold") 70].

Definition groups_state : ApiServer.state :=
  ApiServer.mkState
    (Some (CapacitySnapshot.mk Fixtures.serial "2024-05-01T10:00:00"
             (SystemCapacity.construct Fixtures.serial "2024-05-01T10:00:00"
                750 1000 900 1200)
             [] four_groups []))
    false (Some "2024-05-01T10:00:05") None [] 0.

Definition groups_snapshot : CapacitySnapshot.t :=
  CapacitySnapshot.mk Fixtures.serial "2024-05-01T10:00:00"
    (SystemCapacity.construct Fixtures.serial "2024-05-01T10:00:00"
       750 1000 900 1200)
    [] four_groups [].

(** The array of [Fixtures.conn_up], answering the system metrics with
    no row, and the pool metrics without a ['result'] key. *)
Definition conn_no_rows : U4VConn :=
  {| get_array_list := get_array_list Fixtures.conn_up;
     get_array_keys := get_array_keys Fixtures.conn_up;
     get_array_stats := fun _ => inr (StatsDict (Some []));
     get_storage_resource_pool_keys :=
       get_storage_resource_pool_keys Fixtures.conn_up;
     get_storage_resource_pool_stats := fun _ _ => inr (StatsDict None);
     get_storage_group_list := get_storage_group_list Fixtures.conn_up;
     get_storage_group := get_storage_group Fixtures.conn_up;
     get_volume_list := get_volume_list Fixtures.conn_up;
     get_volume := get_volume Fixtures.conn_up |}.

End MoreFixtures.

(* ================================================================== *)
(** ** Facts on the order of binary64 floats *)
(* ================================================================== *)

Module PyFloat.

Local Open Scope float_scope.

(** The comparison of two floats as the specification of binary64 gives
    it: [None] exactly when one side is a NaN. *)
Definition cmp (x y : float) : option comparison :=
  SFcompare (Prim2SF x) (Prim2SF y).

Lemma ltb_cmp x y : (x <? y) = match cmp x y with Some Lt => true | _ => false end.
Proof. unfold cmp. rewrite ltb_spec. reflexivity. Qed.

Lemma leb_cmp x y :
  (x <=? y) = match cmp x y with Some (Lt | Eq) => true | _ => false end.
Proof. unfold cmp. rewrite leb_spec. reflexivity. Qed.

Lemma eqb_cmp x y : (x =? y) = match cmp x y with Some Eq => true | _ => false end.
Proof. unfold cmp. rewrite eqb_spec. reflexivity. Qed.

Ltac fold_pos_compare :=
  repeat match goal with
         | |- context [Pos.compare_cont Eq ?m ?n] =>
             change (Pos.compare_cont Eq m n) with (Pos.compare m n)
         end.

Lemma SFcompare_antisym a b :
  SFcompare b a = option_map CompOpp (SFcompare a b).
Proof.
  destruct a as [sa|sa| |sa ma ea], b as [sb|sb| |sb mb eb]; simpl;
    try reflexivity;
    try (destruct sa; reflexivity); try (destruct sb; reflexivity);
    try (destruct sa, sb; reflexivity).
  fold_pos_compare.
  rewrite (Z.compare_antisym ea eb), (Pos.compare_antisym ma mb).
  destruct sa, sb; simpl; try reflexivity;
    destruct (ea ?= eb)%Z; simpl; try reflexivity;
    destruct (ma ?= mb)%positive; reflexivity.
Qed.

Lemma cmp_antisym x y : cmp y x = option_map CompOpp (cmp x y).
Proof. apply SFcompare_antisym. Qed.

(** [x < y] excludes [y <= x] and [y < x]. *)
Lemma ltb_not_leb x y : (x <? y) = true -> (y <=? x) = false.
Proof.
  rewrite ltb_cmp, leb_cmp, (cmp_antisym x y).
  destruct (cmp x y) as [[ | | ]|]; simpl; congruence.
Qed.

Lemma ltb_asym x y : (x <? y) = true -> (y <? x) = false.
Proof.
  rewrite !ltb_cmp, (cmp_antisym x y).
  destruct (cmp x y) as [[ | | ]|]; simpl; congruence.
Qed.

Lemma leb_not_ltb x y : (x <=? y) = true -> (y <? x) = false.
Proof.
  rewrite ltb_cmp, leb_cmp, (cmp_antisym x y).
  destruct (cmp x y) as [[ | | ]|]; simpl; congruence.
Qed.

Lemma is_nan_cmp x : is_nan x = false -> cmp x x = Some Eq.
Proof.
  unfold is_nan. rewrite eqb_cmp.
  destruct (cmp x x) as [[ | | ]|]; simpl; congruence.
Qed.

Lemma cmp_None x y : cmp x y = None -> is_nan x = true \/ is_nan y = true.
Proof.
  unfold is_nan. rewrite !eqb_cmp. unfold cmp.
  destruct (Prim2SF x) as [sa|sa| |sa ma ea], (Prim2SF y) as [sb|sb| |sb mb eb];
    simpl; try discriminate; auto.
Qed.

(** Without NaN the order is total: [not (x < y)] is [y <= x]. *)
Lemma not_ltb_leb x y :
  is_nan x = false -> is_nan y = false -> (x <? y) = false -> (y <=? x) = true.
Proof.
  intros Hx Hy. rewrite ltb_cmp, leb_cmp, (cmp_antisym x y).
  destruct (cmp x y) as [[ | | ]|] eqn:E; simpl; try congruence.
  destruct (cmp_None _ _ E); congruence.
Qed.

Lemma SFcompare_le_trans a b c :
  (match SFcompare a b with Some (Lt | Eq) => true | _ => false end) = true ->
  (match SFcompare b c with Some (Lt | Eq) => true | _ => false end) = true ->
  (match SFcompare a c with Some (Lt | Eq) => true | _ => false end) = true.
Proof.
  destruct a as [sa|sa| |sa ma ea], b as [sb|sb| |sb mb eb],
           c as [sc|sc| |sc mc ec]; simpl;
    try discriminate; try reflexivity;
    try (destruct sa; simpl; try discriminate; try reflexivity);
    try (destruct sb; simpl; try discriminate; try reflexivity);
    try (destruct sc; simpl; try discriminate; try reflexivity).
  all: fold_pos_compare.
  all: destruct (Z.compare_spec ea eb), (Z.compare_spec eb ec),
         (Z.compare_spec ea ec); simpl;
       try discriminate; try reflexivity; try lia.
  all: destruct (Pos.compare_spec ma mb), (Pos.compare_spec mb mc),
         (Pos.compare_spec ma mc); simpl;
       try discriminate; try reflexivity; try lia.
Qed.

Lemma leb_trans x y z : (x <=? y) = true -> (y <=? z) = true -> (x <=? z) = true.
Proof. rewrite !leb_spec. apply SFcompare_le_trans. Qed.

(** A float that differs from itself is the NaN of the specification. *)
Lemma is_nan_Prim2SF x : is_nan x = true -> Prim2SF x = S754_nan.
Proof.
  unfold is_nan. rewrite eqb_cmp. unfold cmp.
  destruct (Prim2SF x) as [s|s| |s m e]; simpl; try discriminate; try reflexivity.
  - destruct s; discriminate.
  - fold_pos_compare. rewrite Z.compare_refl, Pos.compare_refl.
    destruct s; discriminate.
Qed.

Lemma nan_not_leb_r x y : is_nan y = true -> (x <=? y) = false.
Proof.
  intros H. rewrite leb_cmp. unfold cmp. rewrite (is_nan_Prim2SF _ H).
  destruct (Prim2SF x); reflexivity.
Qed.

Lemma nan_not_ltb_l x y : is_nan x = true -> (x <? y) = false.
Proof.
  intros H. rewrite ltb_cmp. unfold cmp. rewrite (is_nan_Prim2SF _ H).
  reflexivity.
Qed.

End PyFloat.

(* ================================================================== *)
(** ** Properties of the data model *)
(* ================================================================== *)

Module DataModelProps.

Local Open Scope float_scope.

Lemma system_post_init_pos (self : SystemCapacity.t) :
  (0 <? SystemCapacity.max_effective_capacity_gb self) = true ->
  SystemCapacity.free_capacity_gb (SystemCapacity.post_init self)
  = SystemCapacity.max_effective_capacity_gb self
    - SystemCapacity.effective_used_capacity_gb self
  /\ SystemCapacity.utilization_percent (SystemCapacity.post_init self)
     = SystemCapacity.effective_used_capacity_gb self
       / SystemCapacity.max_effective_capacity_gb self * 100.
Proof.
  intros H. unfold SystemCapacity.post_init. rewrite H. split; reflexivity.
Qed.

Lemma system_post_init_nonpos (self : SystemCapacity.t) :
  (SystemCapacity.max_effective_capacity_gb self <=? 0) = true ->
  SystemCapacity.post_init self = self.
Proof.
  intros H. unfold SystemCapacity.post_init.
  rewrite (PyFloat.leb_not_ltb _ _ H). reflexivity.
Qed.

Lemma srp_post_init_pos (self : SrpCapacity.t) :
  (0 <? SrpCapacity.total_managed_space_gb self) = true ->
  SrpCapacity.free_capacity_gb (SrpCapacity.post_init self)
  = SrpCapacity.total_managed_space_gb self - SrpCapacity.used_capacity_gb self
  /\ SrpCapacity.utilization_percent (SrpCapacity.post_init self)
     = SrpCapacity.used_capacity_gb self
       / SrpCapacity.total_managed_space_gb self * 100
  /\ SrpCapacity.subscription_percent (SrpCapacity.post_init self)
     = SrpCapacity.subscribed_capacity_gb self
       / SrpCapacity.total_managed_space_gb self * 100.
Proof.
  intros H. unfold SrpCapacity.post_init. rewrite H. repeat split; reflexivity.
Qed.

Lemma srp_post_init_nonpos (self : SrpCapacity.t) :
  (SrpCapacity.total_managed_space_gb self <=? 0) = true ->
  SrpCapacity.post_init self = self.
Proof.
  intros H. unfold SrpCapacity.post_init.
  rewrite (PyFloat.leb_not_ltb _ _ H). reflexivity.
Qed.

(** C1.  A [SystemCapacity] built with [max_effective_capacity_gb > 0]
    has [free_capacity_gb = max_effective_capacity_gb -
    effective_used_capacity_gb] and [utilization_percent =
    effective_used_capacity_gb / max_effective_capacity_gb * 100]
    (whatever was passed for the two derived fields); one built with
    [max_effective_capacity_gb <= 0] has both derived fields equal to [0];
    an [SrpCapacity] built with [total_managed_space_gb <= 0] has its
    free, utilization and subscription fields equal to [0], and with
    [total_managed_space_gb > 0] the three quotients of the source. *)
Theorem derived_capacity_fields :
  forall (array_id timestamp srp_id : string)
         (used max subscribed total_usable free0 util0 sub0 : float),
    ((0 <? max) = true ->
     let s := SystemCapacity.init array_id timestamp used max subscribed
                total_usable free0 util0 in
     SystemCapacity.free_capacity_gb s = max - used
     /\ SystemCapacity.utilization_percent s = used / max * 100)
    /\ ((max <=? 0) = true ->
        let s := SystemCapacity.construct array_id timestamp used max
                   subscribed total_usable in
        SystemCapacity.free_capacity_gb s = 0
        /\ SystemCapacity.utilization_percent s = 0)
    /\ ((max <=? 0) = true ->
        let p := SrpCapacity.construct array_id srp_id timestamp used
                   subscribed max in
        SrpCapacity.free_capacity_gb p = 0
        /\ SrpCapacity.utilization_percent p = 0
        /\ SrpCapacity.subscription_percent p = 0)
    /\ ((0 <? max) = true ->
        let p := SrpCapacity.init array_id srp_id timestamp used subscribed
                   max free0 util0 sub0 in
        SrpCapacity.free_capacity_gb p = max - used
        /\ SrpCapacity.utilization_percent p = used / max * 100
        /\ SrpCapacity.subscription_percent p = subscribed / max * 100).
Proof.
  intros array_id timestamp srp_id used max subscribed total_usable
         free0 util0 sub0.
  split; [|split; [|split]]; intros H; cbv zeta.
  - unfold SystemCapacity.init. now apply system_post_init_pos.
  - unfold SystemCapacity.construct, SystemCapacity.init.
    rewrite system_post_init_nonpos by exact H. split; reflexivity.
  - unfold SrpCapacity.construct, SrpCapacity.init.
    rewrite srp_post_init_nonpos by exact H. repeat split; reflexivity.
  - unfold SrpCapacity.init. now apply srp_post_init_pos.
Qed.

(** The fixture of the specification: 750 used of 1000 gives 250 free and
    75 percent; and a system of capacity 0 has both derived fields 0. *)
Lemma derived_capacity_fields_witness :
  (SystemCapacity.free_capacity_gb
     (SystemCapacity.init "000197900123" "2024-05-01T10:00:00" 750 1000 900 1200 0 0)
   = 250
   /\ SystemCapacity.utilization_percent
        (SystemCapacity.init "000197900123" "2024-05-01T10:00:00" 750 1000 900 1200 0 0)
      = 75)
  /\ (SystemCapacity.free_capacity_gb
        (SystemCapacity.construct "000197900123" "2024-05-01T10:00:00" 5 0 0 0) = 0
      /\ SystemCapacity.utilization_percent
           (SystemCapacity.construct "000197900123" "2024-05-01T10:00:00" 5 0 0 0) = 0)
  /\ (SrpCapacity.free_capacity_gb
        (SrpCapacity.construct "000197900123" "SRP_1" "2024-05-01T10:00:00" 5 7 (-1)) = 0
      /\ SrpCapacity.utilization_percent
           (SrpCapacity.construct "000197900123" "SRP_1" "2024-05-01T10:00:00" 5 7 (-1)) = 0
      /\ SrpCapacity.subscription_percent
           (SrpCapacity.construct "000197900123" "SRP_1" "2024-05-01T10:00:00" 5 7 (-1)) = 0).
Proof.
  split; [|split].
  - exact (proj1 (derived_capacity_fields "000197900123" "2024-05-01T10:00:00"
                    "SRP_1" 750 1000 900 1200 0 0 0) eq_refl).
  - exact (proj1 (proj2 (derived_capacity_fields "000197900123"
                           "2024-05-01T10:00:00" "SRP_1" 5 0 0 0 0 0 0)) eq_refl).
  - exact (proj1 (proj2 (proj2 (derived_capacity_fields "000197900123"
                                  "2024-05-01T10:00:00" "SRP_1" 5 (-1) 7 0 0 0 0)))
             eq_refl).
Defined.

(** C9.  A [StorageGroupCapacity] or a [VolumeCapacity] built with a
    negative [capacity_gb] stores [0]; a [VolumeCapacity] built with an
    [allocated_percent] outside [0, 100] (below 0, above 100, or not a
    number) stores [0]. *)
Theorem negative_and_out_of_range_are_zeroed :
  forall (array_id id identifier timestamp : string) (capacity percent : float)
         (num_volumes : Z) (service_level srp_name wwn emulation : option string)
         (compression : bool) (groups : list string),
    ((capacity <? 0) = true ->
     StorageGroupCapacity.capacity_gb
       (StorageGroupCapacity.init array_id id timestamp capacity num_volumes
          service_level srp_name compression) = 0)
    /\ ((capacity <? 0) = true ->
        VolumeCapacity.capacity_gb
          (VolumeCapacity.init array_id id identifier timestamp capacity
             percent groups wwn emulation) = 0)
    /\ ((percent <? 0) = true \/ (100 <? percent) = true \/ is_nan percent = true ->
        VolumeCapacity.allocated_percent
          (VolumeCapacity.init array_id id identifier timestamp capacity
             percent groups wwn emulation) = 0).
Proof.
  intros. split; [|split].
  - intros H. unfold StorageGroupCapacity.init, StorageGroupCapacity.post_init.
    simpl. rewrite H. reflexivity.
  - intros H. unfold VolumeCapacity.init, VolumeCapacity.post_init.
    simpl. rewrite H. simpl.
    destruct (negb _); reflexivity.
  - intros H. unfold VolumeCapacity.init, VolumeCapacity.post_init. simpl.
    assert (E : ((0 <=? percent) && (percent <=? 100))%bool = false).
    { destruct H as [H|[H|H]].
      - rewrite (PyFloat.ltb_not_leb _ _ H). reflexivity.
      - rewrite (PyFloat.ltb_not_leb _ _ H). apply andb_false_r.
      - rewrite (PyFloat.nan_not_leb_r 0 _ H). reflexivity. }
    destruct (capacity <? 0); simpl; rewrite E; reflexivity.
Qed.

Lemma negative_and_out_of_range_are_zeroed_witness :
  StorageGroupCapacity.capacity_gb
    (StorageGroupCapacity.init "000197900123" "SG_APP1" "2024-05-01T10:00:00"
       (-12.5) 4 (Some "Diamond") (Some "SRP_1") true) = 0
  /\ VolumeCapacity.capacity_gb
       (VolumeCapacity.init "000197900123" "00A1F" "app1_data"
          "2024-05-01T10:00:00" (-12.5) 150 ["SG_APP1"] None (Some "FBA")) = 0
  /\ VolumeCapacity.allocated_percent
       (VolumeCapacity.init "000197900123" "00A1F" "app1_data"
          "2024-05-01T10:00:00" (-12.5) 150 ["SG_APP1"] None (Some "FBA")) = 0.
Proof.
  split; [|split].
  - exact (proj1 (negative_and_out_of_range_are_zeroed "000197900123" "SG_APP1"
                    "" "2024-05-01T10:00:00" (-12.5) 0 4 (Some "Diamond")
                    (Some "SRP_1") None None true []) eq_refl).
  - exact (proj1 (proj2 (negative_and_out_of_range_are_zeroed "000197900123"
                           "00A1F" "app1_data" "2024-05-01T10:00:00" (-12.5) 150
                           0 None None None (Some "FBA") false ["SG_APP1"]))
             eq_refl).
  - exact (proj2 (proj2 (negative_and_out_of_range_are_zeroed "000197900123"
                           "00A1F" "app1_data" "2024-05-01T10:00:00" (-12.5) 150
                           0 None None None (Some "FBA") false ["SG_APP1"]))
             (or_intror (or_introl eq_refl))).
Defined.

End DataModelProps.

(* ================================================================== *)
(** ** Properties of Python's slices and of the descending sort *)
(* ================================================================== *)

Module PyProps.

Import Py SpecWords.

Section SortedDesc.
Context {A : Type} (key : A -> PrimFloat.float).

Lemma insert_desc_perm x l : Permutation (insert_desc key x l) (x :: l).
Proof.
  induction l as [|y l IH]; simpl.
  - apply Permutation_refl.
  - destruct (key x <? key y)%float.
    + apply perm_trans with (y :: x :: l).
      * apply perm_skip. exact IH.
      * apply perm_swap.
    + apply Permutation_refl.
Qed.

Lemma sorted_desc_perm l : Permutation (sorted_desc key l) l.
Proof.
  induction l as [|x l IH]; simpl.
  - apply perm_nil.
  - apply perm_trans with (x :: sorted_desc key l).
    + apply insert_desc_perm.
    + apply perm_skip. exact IH.
Qed.

Lemma sorted_desc_length l : List.length (sorted_desc key l) = List.length l.
Proof. apply Permutation_length, sorted_desc_perm. Qed.

Lemma desc_trans a b c : desc key a b -> desc key b c -> desc key a c.
Proof. unfold desc. intros H1 H2. exact (PyFloat.leb_trans _ _ _ H2 H1). Qed.

Lemma insert_desc_sorted x l :
  is_nan (key x) = false -> no_nan key l ->
  StronglySorted (desc key) l -> StronglySorted (desc key) (insert_desc key x l).
Proof.
  intros Hx Hl Hs. induction Hs as [|y l Hs IH Hy]; simpl.
  - constructor; constructor.
  - inversion Hl as [|? ? Hny Hnl]; subst.
    destruct (key x <? key y)%float eqn:E.
    + constructor.
      * apply IH. exact Hnl.
      * apply (Permutation_Forall (Permutation_sym (insert_desc_perm x l))).
        constructor; [|exact Hy].
        unfold desc. rewrite PyFloat.leb_cmp, PyFloat.ltb_cmp in *.
        destruct (PyFloat.cmp (key x) (key y)) as [[ | | ]|]; congruence.
    + assert (Hxy : desc key x y) by (apply PyFloat.not_ltb_leb; assumption).
      constructor.
      * constructor; assumption.
      * constructor; [exact Hxy|].
        eapply Forall_impl; [|exact Hy].
        intros c Hc. exact (desc_trans _ _ _ Hxy Hc).
Qed.

Lemma no_nan_perm l l' : Permutation l l' -> no_nan key l -> no_nan key l'.
Proof. intros P H. exact (Permutation_Forall P H). Qed.

(** On keys without NaN the result is in descending order. *)
Lemma sorted_desc_sorted l :
  no_nan key l -> StronglySorted (desc key) (sorted_desc key l).
Proof.
  induction l as [|x l IH]; intros H; simpl.
  - constructor.
  - inversion H as [|? ? Hx Hl]; subst.
    apply insert_desc_sorted.
    + exact Hx.
    + apply (no_nan_perm l); [apply Permutation_sym, sorted_desc_perm|exact Hl].
    + apply IH. exact Hl.
Qed.

End SortedDesc.

Section Slices.
Context {A : Type}.

Lemma firstn_min_length (n : nat) (l : list A) :
  firstn (Nat.min n (List.length l)) l = firstn n l.
Proof.
  destruct (Nat.le_ge_cases n (List.length l)) as [H|H].
  - rewrite Nat.min_l by exact H. reflexivity.
  - rewrite Nat.min_r by exact H.
    rewrite firstn_all, firstn_all2 by exact H. reflexivity.
Qed.

(** With a start that is not negative and a positive length, the slice
    [l[o:o+n]] is the [n] elements after the first [o]. *)
Lemma slice_window (l : list A) (o n : Z) :
  (0 <= o)%Z -> (0 < n)%Z ->
  slice l o (o + n) = firstn (Z.to_nat n) (skipn (Z.to_nat o) l).
Proof.
  intros Ho Hn. unfold slice, slice_index.
  destruct (Z.ltb_spec o 0) as [?|_]; [lia|].
  destruct (Z.ltb_spec (o + n) 0) as [?|_]; [lia|].
  destruct (Z.le_gt_cases (Z.of_nat (List.length l)) o) as [H|H].
  - rewrite !(skipn_all2 l) by lia. rewrite !firstn_nil. reflexivity.
  - rewrite (Z.min_l o) by lia.
    rewrite <- (firstn_min_length (Z.to_nat n)).
    rewrite length_skipn. f_equal. lia.
Qed.

Lemma at_ranks_from_reached (l : list A) : forall r lo hi,
  (lo <= r)%Z -> at_ranks_from r lo hi l = firstn (Z.to_nat (hi - r + 1)) l.
Proof.
  induction l as [|x l IH]; intros r lo hi H; simpl.
  - symmetry. apply firstn_nil.
  - rewrite IH by lia.
    destruct (Z.leb_spec lo r) as [_|?]; [|lia].
    destruct (Z.leb_spec r hi) as [Hr|Hr]; simpl.
    + replace (Z.to_nat (hi - r + 1)) with (S (Z.to_nat (hi - (r + 1) + 1))) by lia.
      reflexivity.
    + replace (Z.to_nat (hi - (r + 1) + 1)) with 0%nat by lia.
      replace (Z.to_nat (hi - r + 1)) with 0%nat by lia.
      reflexivity.
Qed.

Lemma at_ranks_from_window (l : list A) : forall r lo hi,
  (r <= lo)%Z ->
  at_ranks_from r lo hi l
  = firstn (Z.to_nat (hi - lo + 1)) (skipn (Z.to_nat (lo - r)) l).
Proof.
  induction l as [|x l IH]; intros r lo hi H.
  - simpl. rewrite skipn_nil, firstn_nil. reflexivity.
  - destruct (Z.eq_dec r lo) as [->|Hne].
    + rewrite at_ranks_from_reached by lia.
      replace (Z.to_nat (lo - lo)) with 0%nat by lia. reflexivity.
    + simpl. destruct (Z.leb_spec lo r) as [?|_]; [lia|]. simpl.
      rewrite IH by lia.
      replace (Z.to_nat (lo - r)) with (S (Z.to_nat (lo - (r + 1)))) by lia.
      reflexivity.
Qed.

(** Ranks [o+1..o+n] are the [n] elements after the first [o]. *)
Lemma at_ranks_window (l : list A) (o n : Z) :
  (0 <= o)%Z ->
  at_ranks (o + 1) (o + n) l = firstn (Z.to_nat n) (skipn (Z.to_nat o) l).
Proof.
  intros Ho. unfold at_ranks. rewrite at_ranks_from_window by lia.
  f_equal; [lia | f_equal; lia].
Qed.

(** No element has a rank below 1. *)
Lemma at_ranks_below_one (l : list A) : forall r lo hi,
  (hi < r)%Z -> at_ranks_from r lo hi l = [].
Proof.
  induction l as [|x l IH]; intros r lo hi H; simpl; [reflexivity|].
  rewrite IH by lia.
  destruct (Z.leb_spec r hi) as [?|_]; [lia|].
  rewrite andb_false_r. reflexivity.
Qed.

End Slices.

End PyProps.

(* ================================================================== *)
(** ** Properties of the trigger and of the volume query *)
(* ================================================================== *)

Module QueryProps.

Import ApiServer SpecWords.

(** C6.  In every state, [trigger_collection] answers 409 "Collection
    already in progress" exactly when a collection is in progress and the
    request does not force a refresh; it then adds no task and changes
    nothing.  Otherwise (forced, or idle) it answers "started" and adds
    the collection task. *)
Theorem trigger_rejects_iff_busy_and_not_forced :
  forall (env : Env) (s : state) (force_refresh : bool),
    (trigger_collection env force_refresh s
     = (HTTPException 409 "Collection already in progress", false, s)
     <-> collection_in_progress s = true /\ force_refresh = false)
    /\ ((exists t s', trigger_collection env force_refresh s
                      = (Body (Started t), true, s'))
        <-> collection_in_progress s = false \/ force_refresh = true).
Proof.
  intros env s force_refresh. unfold trigger_collection.
  destruct (collection_in_progress s), force_refresh; simpl; split; split;
    try (intros [H1 H2]; discriminate);
    try (intros [t [s' H]]; discriminate);
    try (intros [H|H]; discriminate);
    try discriminate; auto;
    try (intros _; eexists; eexists; reflexivity).
Qed.

(** C7 (amended).  With a snapshot, an offset that is not negative and a
    positive limit, [get_volumes] answers a page whose items are the
    volumes at ranks [offset+1 .. offset+limit] of the filtered volumes
    sorted by [capacity_gb], that is the [limit] volumes after the first
    [offset]; its total is the number of filtered volumes, whatever the
    offset and the limit.  The sorted list is a permutation of the
    filtered one, and it is in descending order of [capacity_gb] when no
    capacity is a NaN. *)
Theorem volumes_page_is_rank_window :
  forall (s : state) (snapshot : CapacitySnapshot.t)
         (storage_group : option string) (limit offset : Z),
    current_snapshot s = Some snapshot ->
    (0 <= offset)%Z -> (0 < limit)%Z ->
    let sorted := sorted_volumes snapshot storage_group in
    let filtered := filtered_volumes snapshot storage_group in
    exists page,
      get_volumes s storage_group (Some limit) (Some offset) = Body page
      /\ items page = at_ranks (offset + 1) (offset + limit) sorted
      /\ items page = firstn (Z.to_nat limit) (skipn (Z.to_nat offset) sorted)
      /\ total page = List.length filtered
      /\ Permutation sorted filtered
      /\ (no_nan VolumeCapacity.capacity_gb filtered
          -> StronglySorted (desc VolumeCapacity.capacity_gb) sorted).
Proof.
  intros s snapshot storage_group limit offset Hs Ho Hl sorted filtered.
  unfold get_volumes. rewrite Hs. unfold truthy_opt_int.
  destruct (Z.eqb_spec limit 0) as [?|_]; [lia|]. simpl.
  eexists. split; [reflexivity|]. simpl.
  fold sorted.
  split; [|split; [|split; [|split]]].
  - rewrite PyProps.at_ranks_window by exact Ho.
    apply PyProps.slice_window; assumption.
  - apply PyProps.slice_window; assumption.
  - apply PyProps.sorted_desc_length.
  - apply PyProps.sorted_desc_perm.
  - apply PyProps.sorted_desc_sorted.
Qed.

(** The example of the specification: of 25 volumes, offset 10 and
    limit 5 give the volumes ranked 11 to 15 by capacity, and total 25. *)
Lemma volumes_page_is_rank_window_witness :
  exists page,
    get_volumes (Fixtures.state_of Fixtures.twenty_five) None (Some 5%Z)
      (Some 10%Z) = Body page
    /\ map VolumeCapacity.capacity_gb (items page) = [15; 14; 13; 12; 11]%float
    /\ total page = 25.
Proof.
  destruct (volumes_page_is_rank_window (Fixtures.state_of Fixtures.twenty_five)
              (Fixtures.snapshot_of Fixtures.twenty_five) None 5 10
              eq_refl ltac:(lia) ltac:(lia))
    as (page & H1 & H2 & _ & H4 & _).
  exists page. split; [exact H1|]. split.
  - rewrite H2. reflexivity.
  - rewrite H4. reflexivity.
Defined.

(** C7 as it is stated fails for a negative offset: of four volumes,
    offset -3 and limit 2 give the volumes ranked 2 and 3 (Python counts a
    negative index from the end), while no volume has a rank from -2
    to -1. *)
Lemma negative_offset_counts_from_the_end :
  (exists page,
      get_volumes (Fixtures.state_of Fixtures.four) None (Some 2%Z)
        (Some (-3)%Z) = Body page
      /\ map VolumeCapacity.capacity_gb (items page) = [30; 20]%float)
  /\ at_ranks (-3 + 1) (-3 + 2)
       (sorted_volumes (Fixtures.snapshot_of Fixtures.four) None) = [].
Proof.
  split.
  - eexists. split; reflexivity.
  - reflexivity.
Qed.

(** C10.  With a snapshot and a limit that is absent or [0],
    [get_volumes] answers the whole filtered and sorted list, whatever
    the offset (absent included), and the total is the number of filtered
    volumes. *)
Theorem volumes_without_limit_are_not_paginated :
  forall (s : state) (snapshot : CapacitySnapshot.t)
         (storage_group : option string) (limit offset : option Z),
    current_snapshot s = Some snapshot ->
    limit = None \/ limit = Some 0%Z ->
    get_volumes s storage_group limit offset
    = Body (mkPage (List.length (filtered_volumes snapshot storage_group))
              offset limit (sorted_volumes snapshot storage_group)).
Proof.
  intros s snapshot storage_group limit offset Hs Hl.
  unfold get_volumes. rewrite Hs.
  assert (E : truthy_opt_int limit = false) by (destruct Hl; subst; reflexivity).
  rewrite E. unfold sorted_volumes at 1.
  rewrite PyProps.sorted_desc_length. reflexivity.
Qed.

Lemma volumes_without_limit_are_not_paginated_witness :
  get_volumes (Fixtures.state_of Fixtures.four) None (Some 0%Z) (Some 3%Z)
  = Body (mkPage 4 (Some 3%Z) (Some 0%Z)
            (map Fixtures.volume [40; 30; 20; 10]%float))
  /\ get_volumes (Fixtures.state_of Fixtures.four) None None None
     = Body (mkPage 4 None None (map Fixtures.volume [40; 30; 20; 10]%float)).
Proof.
  split.
  - exact (volumes_without_limit_are_not_paginated
             (Fixtures.state_of Fixtures.four)
             (Fixtures.snapshot_of Fixtures.four) None (Some 0%Z) (Some 3%Z)
             eq_refl (or_intror eq_refl)).
  - exact (volumes_without_limit_are_not_paginated
             (Fixtures.state_of Fixtures.four)
             (Fixtures.snapshot_of Fixtures.four) None None None
             eq_refl (or_introl eq_refl)).
Defined.

End QueryProps.

(* ================================================================== *)
(** ** Properties of the service level breakdown *)
(* ================================================================== *)

Module BreakdownProps.

Import ApiServer SpecWords.

(** [breakdown[k]], when [k] is a key. *)
Fixpoint lookup (d : breakdown_dict) (k : string) : option sl_entry :=
  match d with
  | [] => None
  | (k', e) :: d' => if String.eqb k' k then Some e else lookup d' k
  end.

Definition entry_or_new (k : string) (o : option sl_entry) : sl_entry :=
  match o with Some e => e | None => mkEntry k 0 0 0 end.

(** The storage groups of category [k]. *)
Definition members (k : string) (sgs : list StorageGroupCapacity.t)
  : list StorageGroupCapacity.t :=
  filter (fun sg => String.eqb (slo_of sg) k) sgs.

Definition add_groups (ms : list StorageGroupCapacity.t) (e : sl_entry) : sl_entry :=
  fold_left (fun e sg => add_group sg e) ms e.

Lemma contains_lookup d k :
  dict_contains d k = match lookup d k with Some _ => true | None => false end.
Proof.
  induction d as [|[k' e] d IH]; simpl; [reflexivity|].
  destruct (String.eqb k' k); simpl; [reflexivity|exact IH].
Qed.

Lemma contains_In d k : dict_contains d k = true <-> In k (map fst d).
Proof.
  induction d as [|[k' e] d IH]; simpl.
  - split; [discriminate|tauto].
  - rewrite orb_true_iff, IH. destruct (String.eqb_spec k' k); intuition congruence.
Qed.

Lemma lookup_app d k' e k :
  lookup (d ++ [(k', e)]) k
  = match lookup d k with
    | Some x => Some x
    | None => if String.eqb k' k then Some e else None
    end.
Proof.
  induction d as [|[k1 e1] d IH]; simpl; [reflexivity|].
  destruct (String.eqb k1 k); [reflexivity|exact IH].
Qed.

Lemma lookup_update d k' f k :
  lookup (dict_update d k' f) k
  = if String.eqb k' k then option_map f (lookup d k) else lookup d k.
Proof.
  induction d as [|[k1 e1] d IH]; simpl.
  - destruct (String.eqb k' k); reflexivity.
  - destruct (String.eqb_spec k1 k') as [->|N1]; simpl.
    + destruct (String.eqb_spec k' k); reflexivity.
    + rewrite IH.
      destruct (String.eqb_spec k1 k) as [->|N2].
      * destruct (String.eqb_spec k' k); [congruence|reflexivity].
      * reflexivity.
Qed.

Lemma keys_update d k f : map fst (dict_update d k f) = map fst d.
Proof.
  induction d as [|[k1 e1] d IH]; simpl; [reflexivity|].
  destruct (String.eqb k1 k); simpl; [reflexivity|]. now rewrite IH.
Qed.

(** What one turn of the loop does to the entry of each key. *)
Lemma lookup_step d sg k :
  lookup (breakdown_step d sg) k
  = if String.eqb (slo_of sg) k
    then Some (add_group sg (entry_or_new k (lookup d k)))
    else lookup d k.
Proof.
  unfold breakdown_step. rewrite lookup_update.
  destruct (String.eqb_spec (slo_of sg) k) as [E|N].
  - rewrite contains_lookup, E.
    destruct (lookup d k) as [e|] eqn:L.
    + rewrite L. reflexivity.
    + rewrite lookup_app, L, String.eqb_refl. reflexivity.
  - destruct (dict_contains d (slo_of sg)); [reflexivity|].
    rewrite lookup_app.
    destruct (lookup d k); [reflexivity|].
    destruct (String.eqb_spec (slo_of sg) k); [contradiction|reflexivity].
Qed.

Lemma keys_step d sg :
  map fst (breakdown_step d sg)
  = if dict_contains d (slo_of sg) then map fst d else map fst d ++ [slo_of sg].
Proof.
  unfold breakdown_step. rewrite keys_update.
  destruct (dict_contains d (slo_of sg)); [reflexivity|].
  rewrite map_app. reflexivity.
Qed.

(** Keys are not repeated, and each entry carries its key. *)
Definition wf (d : breakdown_dict) : Prop :=
  NoDup (map fst d) /\ Forall (fun p => service_level (snd p) = fst p) d.

Lemma update_labels d k f :
  (forall e, service_level (f e) = service_level e) ->
  Forall (fun p => service_level (snd p) = fst p) d ->
  Forall (fun p => service_level (snd p) = fst p) (dict_update d k f).
Proof.
  intros Hf H. induction H as [|[k1 e1] d H1 H IH]; simpl; [constructor|].
  destruct (String.eqb k1 k); constructor; simpl in *; auto.
  now rewrite Hf.
Qed.

Lemma wf_step d sg : wf d -> wf (breakdown_step d sg).
Proof.
  intros [Hn Hl]. split.
  - rewrite keys_step.
    destruct (dict_contains d (slo_of sg)) eqn:E; [exact Hn|].
    apply NoDup_app; [exact Hn | repeat constructor; simpl; tauto |].
    intros k Hk [<-|[]].
    apply contains_In in Hk. congruence.
  - unfold breakdown_step. apply update_labels; [reflexivity|].
    destruct (dict_contains d (slo_of sg)); [exact Hl|].
    apply Forall_app. split; [exact Hl|]. repeat constructor.
Qed.

Lemma wf_fold sgs : forall d, wf d -> wf (fold_left breakdown_step sgs d).
Proof.
  induction sgs as [|sg sgs IH]; intros d H; simpl; [exact H|].
  apply IH, wf_step, H.
Qed.

Lemma keys_fold sgs : forall d k,
  In k (map fst (fold_left breakdown_step sgs d))
  <-> In k (map fst d) \/ In k (map slo_of sgs).
Proof.
  induction sgs as [|sg sgs IH]; intros d k; simpl; [tauto|].
  rewrite IH, keys_step.
  destruct (dict_contains d (slo_of sg)) eqn:E.
  - apply contains_In in E. intuition (subst; auto).
  - rewrite in_app_iff. simpl. tauto.
Qed.

Lemma lookup_In d k e : wf d -> In (k, e) d -> lookup d k = Some e.
Proof.
  intros [Hn _]. induction d as [|[k1 e1] d IH]; simpl; [tauto|].
  inversion Hn as [|? ? Hk Hd]; subst.
  intros [H|H].
  - inversion H; subst. now rewrite String.eqb_refl.
  - destruct (String.eqb_spec k1 k) as [->|N].
    + exfalso. apply Hk. change k with (fst (k, e)). now apply in_map.
    + now apply IH.
Qed.

(** The entry of [k] after the loop over [sgs]. *)
Lemma lookup_fold sgs : forall d k,
  lookup (fold_left breakdown_step sgs d) k
  = match members k sgs with
    | [] => lookup d k
    | ms => Some (add_groups ms (entry_or_new k (lookup d k)))
    end.
Proof.
  induction sgs as [|sg sgs IH]; intros d k; simpl; [reflexivity|].
  rewrite IH, lookup_step. unfold members. simpl.
  destruct (String.eqb (slo_of sg) k); simpl.
  - fold (members k sgs). destruct (members k sgs); reflexivity.
  - reflexivity.
Qed.

Lemma add_groups_spec ms : forall e,
  service_level (add_groups ms e) = service_level e
  /\ count (add_groups ms e) = (count e + Z.of_nat (List.length ms))%Z
  /\ total_capacity_gb (add_groups ms e)
     = fold_left PrimFloat.add (map StorageGroupCapacity.capacity_gb ms)
         (total_capacity_gb e)
  /\ num_volumes (add_groups ms e)
     = fold_left Z.add (map StorageGroupCapacity.num_volumes ms) (num_volumes e).
Proof.
  induction ms as [|sg ms IH]; intros e; simpl.
  - repeat split. lia.
  - destruct (IH (add_group sg e)) as (H1 & H2 & H3 & H4).
    unfold add_groups in *. simpl in *.
    rewrite H1, H2, H3, H4. repeat split. lia.
Qed.

Lemma breakdown_entry sgs e :
  In e (service_level_breakdown sgs) ->
  members (service_level e) sgs <> []
  /\ e = add_groups (members (service_level e) sgs)
           (mkEntry (service_level e) 0 0 0).
Proof.
  unfold service_level_breakdown. intros H.
  apply in_map_iff in H. destruct H as [[k e'] [E H]]. simpl in E. subst e'.
  assert (W : wf (fold_left breakdown_step sgs [])).
  { apply wf_fold. split; constructor. }
  assert (K : service_level e = k).
  { destruct W as [_ W]. rewrite Forall_forall in W. exact (W _ H). }
  pose proof (lookup_In _ _ _ W H) as L.
  rewrite lookup_fold in L. simpl in L. rewrite K.
  destruct (members k sgs) as [|m ms]; [discriminate|].
  split; [discriminate|]. now inversion L.
Qed.

(** C8 (amended).  The breakdown has one entry per category, the category
    of a storage group being its service level label, or "None" when the
    label is absent or empty.  The categories are those of the groups,
    without repetition, and the entry of a category holds the number of
    its groups, the sum of their [capacity_gb] (added in list order from
    0) and the sum of their [num_volumes]. *)
Theorem breakdown_groups_by_service_level :
  forall sgs : list StorageGroupCapacity.t,
    NoDup (map service_level (service_level_breakdown sgs))
    /\ (forall k, In k (map service_level (service_level_breakdown sgs))
                  <-> exists sg, In sg sgs /\ slo_of sg = k)
    /\ (forall e, In e (service_level_breakdown sgs) ->
          count e = Z.of_nat (List.length (members (service_level e) sgs))
          /\ total_capacity_gb e
             = fold_left PrimFloat.add
                 (map StorageGroupCapacity.capacity_gb
                    (members (service_level e) sgs)) 0%float
          /\ num_volumes e
             = fold_left Z.add
                 (map StorageGroupCapacity.num_volumes
                    (members (service_level e) sgs)) 0%Z)
    /\ (forall sg, slo_of sg
                   = match StorageGroupCapacity.service_level sg with
                     | None | Some EmptyString => "None"
                     | Some label => label
                     end).
Proof.
  intros sgs.
  assert (W : wf (fold_left breakdown_step sgs [])).
  { apply wf_fold. split; constructor. }
  assert (K : map service_level (service_level_breakdown sgs)
              = map fst (fold_left breakdown_step sgs [])).
  { unfold service_level_breakdown. rewrite map_map.
    destruct W as [_ W]. induction W as [|p d Hp W IH]; simpl; [reflexivity|].
    now rewrite Hp, IH. }
  split; [|split; [|split]].
  - rewrite K. exact (proj1 W).
  - intros k. rewrite K, keys_fold. simpl. rewrite in_map_iff.
    split.
    + intros [[]|[sg [E H]]]. exists sg. auto.
    + intros [sg [H E]]. right. exists sg. auto.
  - intros e H. destruct (breakdown_entry sgs e H) as [_ E].
    destruct (add_groups_spec (members (service_level e) sgs)
                (mkEntry (service_level e) 0 0 0)) as (_ & H2 & H3 & H4).
    rewrite <- E in H2, H3, H4. simpl in *. auto.
  - intros sg. unfold slo_of.
    destruct (StorageGroupCapacity.service_level sg) as [[|c l]|]; reflexivity.
Qed.

(** The example of the specification: two Diamond groups of 100 and 50
    and a group without label of 10. *)
Example breakdown_of_example_groups :
  service_level_breakdown Fixtures.example_groups
  = [mkEntry "Diamond" 2 150 4; mkEntry "None" 1 10 2].
Proof. reflexivity. Qed.

(** C8 as it is stated fails for a label that is the empty string: the
    group is counted under "None", although its label is not absent and
    no group has the category "None" of the specification. *)
Lemma empty_label_is_counted_as_none :
  service_level_breakdown [Fixtures.unlabelled_group] = [mkEntry "None" 1 5 2]
  /\ StorageGroupCapacity.service_level Fixtures.unlabelled_group = Some ""
  /\ label_category Fixtures.unlabelled_group = ""
  /\ filter (fun sg => String.eqb (label_category sg) "None")
        [Fixtures.unlabelled_group] = [].
Proof. repeat split. Qed.

End BreakdownProps.

(* ================================================================== *)
(** ** Properties of the collector *)
(* ================================================================== *)

Module CollectorProps.

Import Py Collector SpecWords.

(** The constructors store the timestamp they are given. *)
Lemma system_timestamp a t u m s tu :
  SystemCapacity.timestamp (SystemCapacity.construct a t u m s tu) = t.
Proof.
  unfold SystemCapacity.construct, SystemCapacity.init, SystemCapacity.post_init.
  simpl. destruct (0 <? m)%float; reflexivity.
Qed.

Lemma srp_timestamp a i t u s m :
  SrpCapacity.timestamp (SrpCapacity.construct a i t u s m) = t
  /\ SrpCapacity.srp_id (SrpCapacity.construct a i t u s m) = i.
Proof.
  unfold SrpCapacity.construct, SrpCapacity.init, SrpCapacity.post_init.
  simpl. destruct (0 <? m)%float; split; reflexivity.
Qed.

Lemma sg_timestamp a i t c n sl sr co :
  StorageGroupCapacity.timestamp (StorageGroupCapacity.init a i t c n sl sr co) = t.
Proof.
  unfold StorageGroupCapacity.init, StorageGroupCapacity.post_init.
  simpl. destruct (c <? 0)%float; reflexivity.
Qed.

Lemma volume_timestamp a i vi t c p g w e :
  VolumeCapacity.timestamp (VolumeCapacity.init a i vi t c p g w e) = t.
Proof.
  unfold VolumeCapacity.init, VolumeCapacity.post_init. simpl.
  destruct (c <? 0)%float; simpl; destruct (negb _); reflexivity.
Qed.

Lemma wrap_errors_class a b c k e :
  class (wrap_errors a b c k e) = DataCollectionError.
Proof. unfold wrap_errors. destruct (class e), k; reflexivity. Qed.

Section WithCollector.
Variable env : Env.
Variable self : VmaxCapacityCollector.
Variable array_id : string.

(** A timestamp read from the clock at some reading [k] with
    [n <= k < n']. *)
Definition stamped (n n' : nat) (t : string) : Prop :=
  exists k, n <= k < n' /\ t = clock env k.

Lemma stamped_weaken n1 n2 m1 m2 t :
  stamped n1 n2 t -> m1 <= n1 -> n2 <= m2 -> stamped m1 m2 t.
Proof. intros [k [H E]] H1 H2. exists k. split; [lia|exact E]. Qed.

Ltac run :=
  unfold get_system_summary, get_srp_capacity, get_all_storage_groups,
    get_all_volumes, srp_item, sg_item, volume_item, to_float, to_int,
    try_except, attempt, bind, lift, raise, ret, now in *.

Ltac split_match :=
  match goal with
  | |- context [match ?x with _ => _ end] =>
      lazymatch x with
      | context [match _ with _ => _ end] => fail
      | _ => idtac
      end;
      match type of x with
      | result _ => destruct x as [?e|?a] eqn:?E
      | option _ => destruct x as [?a|] eqn:?E
      | stats_response => destruct x as [|?r] eqn:?E
      | bool => destruct x eqn:?E
      | list _ => destruct x as [|?a ?l] eqn:?E
      end
  end.

(** [get_system_summary] returns a system stamped with the reading it
    took, or raises a [DataCollectionError]. *)
Lemma system_summary_cases n :
  (exists sc, get_system_summary env self array_id n = (inr sc, S n)
              /\ SystemCapacity.timestamp sc = clock env n)
  \/ (exists e n', get_system_summary env self array_id n = (inl e, n')
                   /\ class e = DataCollectionError /\ n <= n' <= S n).
Proof.
  run.
  repeat (split_match; simpl);
    try (left; eexists; split; [reflexivity|apply system_timestamp]);
    right; eexists; eexists; (split; [reflexivity|]);
    (split; [apply wrap_errors_class|lia]).
Qed.

(** Whether the body of the pool loop raises does not depend on the clock. *)
Lemma srp_item_cases srp_id n :
  (pool_fails env self array_id srp_id = false
   /\ exists c, srp_item env self array_id srp_id n = (inr c, S n)
                /\ SrpCapacity.srp_id c = srp_id
                /\ SrpCapacity.timestamp c = clock env n)
  \/ (pool_fails env self array_id srp_id = true
      /\ exists e n', srp_item env self array_id srp_id n = (inl e, n')
                      /\ n <= n' <= S n).
Proof.
  unfold pool_fails. run.
  repeat (split_match; simpl);
    try (left; split; [reflexivity|]; eexists; split; [reflexivity|];
         split; apply srp_timestamp);
    right; (split; [reflexivity|]); eexists; eexists;
    (split; [reflexivity|lia]).
Qed.

Lemma fetch_raises_pool_fails srp_id e :
  get_storage_resource_pool_stats (conn self) array_id srp_id = inl e ->
  pool_fails env self array_id srp_id = true.
Proof. intros H. unfold pool_fails. run. rewrite H. reflexivity. Qed.

Lemma non_failing_cons i l :
  non_failing env self array_id (i :: l)
  = if has_id i && negb (pool_fails env self array_id (pool_id i))
    then i :: non_failing env self array_id l
    else non_failing env self array_id l.
Proof. reflexivity. Qed.

(** The pool loop never raises: it appends one entry per pool that is
    not failing, in list order, each stamped with a reading of its own. *)
Lemma srp_loop_spec l : forall acc n,
  exists r n',
    srp_loop env self array_id l acc n = (inr (acc ++ r), n')
    /\ n <= n'
    /\ map SrpCapacity.srp_id r = map pool_id (non_failing env self array_id l)
    /\ Forall (fun c => stamped n n' (SrpCapacity.timestamp c)) r.
Proof.
  induction l as [|i l IH]; intros acc n.
  - exists [], n. simpl. rewrite app_nil_r. repeat split; auto.
  - rewrite non_failing_cons. unfold has_id, pool_id. simpl.
    destruct (storageResourcePoolId i) as [[|ch s]|] eqn:Ei; simpl.
    + apply IH.
    + unfold bind, attempt.
      destruct (srp_item_cases (String ch s) n)
        as [[F [c (E & Hid & Ht)]]|[F [e [n1 [E Hn]]]]]; rewrite E, F; simpl.
      * destruct (IH (acc ++ [c]) (S n)) as (r & n' & E' & Hn' & Hids & Hst).
        exists (c :: r), n'. rewrite E', <- app_assoc. simpl.
        split; [reflexivity|]. split; [lia|]. split.
        -- rewrite Ei, Hid. f_equal. exact Hids.
        -- constructor.
           ++ exists n. split; [lia|exact Ht].
           ++ eapply Forall_impl; [|exact Hst].
              intros a Ha. eapply stamped_weaken; [exact Ha|lia|lia].
      * destruct (IH acc n1) as (r & n' & E' & Hn' & Hids & Hst).
        exists r, n'. rewrite E'.
        split; [reflexivity|]. split; [lia|]. split; [exact Hids|].
        eapply Forall_impl; [|exact Hst].
        intros a Ha. eapply stamped_weaken; [exact Ha|lia|lia].
    + apply IH.
Qed.

(** The storage group loop and the volume loop never raise either. *)
Lemma sg_item_cases id n :
  exists r n1,
    sg_item env self array_id id n = (r, n1)
    /\ n <= n1 <= S n
    /\ (forall c, r = inr (Some c) ->
                  StorageGroupCapacity.timestamp c = clock env n /\ n1 = S n).
Proof.
  run.
  repeat (split_match; simpl); eexists; eexists;
    (split; [reflexivity|]); (split; [lia|]);
    intros c H; inversion H; (split; [apply sg_timestamp|reflexivity]).
Qed.

Lemma sg_loop_spec l : forall acc n,
  exists r n',
    sg_loop env self array_id l acc n = (inr (acc ++ r), n')
    /\ n <= n'
    /\ Forall (fun c => stamped n n' (StorageGroupCapacity.timestamp c)) r.
Proof.
  induction l as [|i l IH]; intros acc n.
  - exists [], n. simpl. rewrite app_nil_r. repeat split; auto.
  - simpl. unfold bind, attempt.
    destruct (sg_item_cases i n) as (r0 & n1 & E & Hn & Hc). rewrite E.
    destruct r0 as [e|[c|]]; simpl.
    + destruct (IH acc n1) as (r & n' & E' & Hn' & Hst).
      exists r, n'. rewrite E'. split; [reflexivity|]. split; [lia|].
      eapply Forall_impl; [|exact Hst].
      intros a Ha. eapply stamped_weaken; [exact Ha|lia|lia].
    + destruct (Hc c eq_refl) as [Ht ->].
      destruct (IH (acc ++ [c]) (S n)) as (r & n' & E' & Hn' & Hst).
      exists (c :: r), n'. rewrite E', <- app_assoc. simpl.
      split; [reflexivity|]. split; [lia|].
      constructor.
      * exists n. split; [lia|exact Ht].
      * eapply Forall_impl; [|exact Hst].
        intros a Ha. eapply stamped_weaken; [exact Ha|lia|lia].
    + destruct (IH acc n1) as (r & n' & E' & Hn' & Hst).
      exists r, n'. rewrite E'. split; [reflexivity|]. split; [lia|].
      eapply Forall_impl; [|exact Hst].
      intros a Ha. eapply stamped_weaken; [exact Ha|lia|lia].
Qed.

Lemma volume_item_cases id n :
  exists r n1,
    volume_item env self array_id id n = (r, n1)
    /\ n <= n1 <= S n
    /\ (forall c, r = inr (Some c) ->
                  VolumeCapacity.timestamp c = clock env n /\ n1 = S n).
Proof.
  run.
  repeat (split_match; simpl); eexists; eexists;
    (split; [reflexivity|]); (split; [lia|]);
    intros c H; inversion H; (split; [apply volume_timestamp|reflexivity]).
Qed.

Lemma volume_loop_spec l : forall acc n,
  exists r n',
    volume_loop env self array_id l acc n = (inr (acc ++ r), n')
    /\ n <= n'
    /\ Forall (fun c => stamped n n' (VolumeCapacity.timestamp c)) r.
Proof.
  induction l as [|i l IH]; intros acc n.
  - exists [], n. simpl. rewrite app_nil_r. repeat split; auto.
  - simpl. unfold bind, attempt.
    destruct (volume_item_cases i n) as (r0 & n1 & E & Hn & Hc). rewrite E.
    destruct r0 as [e|[c|]]; simpl.
    + destruct (IH acc n1) as (r & n' & E' & Hn' & Hst).
      exists r, n'. rewrite E'. split; [reflexivity|]. split; [lia|].
      eapply Forall_impl; [|exact Hst].
      intros a Ha. eapply stamped_weaken; [exact Ha|lia|lia].
    + destruct (Hc c eq_refl) as [Ht ->].
      destruct (IH (acc ++ [c]) (S n)) as (r & n' & E' & Hn' & Hst).
      exists (c :: r), n'. rewrite E', <- app_assoc. simpl.
      split; [reflexivity|]. split; [lia|].
      constructor.
      * exists n. split; [lia|exact Ht].
      * eapply Forall_impl; [|exact Hst].
        intros a Ha. eapply stamped_weaken; [exact Ha|lia|lia].
    + destruct (IH acc n1) as (r & n' & E' & Hn' & Hst).
      exists r, n'. rewrite E'. split; [reflexivity|]. split; [lia|].
      eapply Forall_impl; [|exact Hst].
      intros a Ha. eapply stamped_weaken; [exact Ha|lia|lia].
Qed.

(** *** The three list collectors *)

Lemma get_srp_capacity_raises e n :
  get_storage_resource_pool_keys (conn self) array_id = inl e ->
  get_srp_capacity env self array_id n
  = (inl (Exn DataCollectionError
            ((match class e with
              | VolumeBackendAPIException => "Failed to retrieve SRP capacity: "
              | _ => "SRP capacity collection failed: "
              end) ++ str e)), n).
Proof.
  intros H. run. rewrite H. simpl. unfold wrap_errors.
  destruct (class e); reflexivity.
Qed.

Lemma get_srp_capacity_absent n :
  get_storage_resource_pool_keys (conn self) array_id = inr None ->
  get_srp_capacity env self array_id n = (inr [], n).
Proof. intros H. run. rewrite H. reflexivity. Qed.

Lemma get_srp_capacity_list l n :
  get_storage_resource_pool_keys (conn self) array_id = inr (Some l) ->
  exists r n',
    get_srp_capacity env self array_id n = (inr r, n')
    /\ n <= n'
    /\ map SrpCapacity.srp_id r = map pool_id (non_failing env self array_id l)
    /\ Forall (fun c => stamped n n' (SrpCapacity.timestamp c)) r.
Proof.
  intros H. unfold get_srp_capacity, try_except, bind, lift. rewrite H.
  destruct (srp_loop_spec l [] n) as (r & n' & E & Hn & Hids & Hst).
  exists r, n'. rewrite E. auto.
Qed.

Lemma get_all_storage_groups_raises e n :
  get_storage_group_list (conn self) array_id = inl e ->
  get_all_storage_groups env self array_id n
  = (inl (Exn DataCollectionError
            ((match class e with
              | VolumeBackendAPIException => "Failed to retrieve storage groups: "
              | _ => "Storage group collection failed: "
              end) ++ str e)), n).
Proof.
  intros H. run. rewrite H. simpl. unfold wrap_errors.
  destruct (class e); reflexivity.
Qed.

Lemma get_all_storage_groups_list l n :
  get_storage_group_list (conn self) array_id = inr l ->
  exists r n',
    get_all_storage_groups env self array_id n = (inr r, n')
    /\ n <= n'
    /\ Forall (fun c => stamped n n' (StorageGroupCapacity.timestamp c)) r
    /\ (l = [] -> r = [] /\ n' = n).
Proof.
  intros H. unfold get_all_storage_groups, try_except, bind, lift. rewrite H.
  destruct l as [|i l].
  - simpl. exists [], n. repeat split; auto.
  - cbn [truthy_list negb].
    destruct (sg_loop_spec (i :: l) [] n) as (r & n' & E & Hn & Hst).
    exists r, n'. rewrite E. repeat split; auto; discriminate.
Qed.

Lemma get_all_volumes_raises e n :
  get_volume_list (conn self) array_id = inl e ->
  get_all_volumes env self array_id n
  = (inl (Exn DataCollectionError
            ((match class e with
              | VolumeBackendAPIException => "Failed to retrieve volumes: "
              | _ => "Volume collection failed: "
              end) ++ str e)), n).
Proof.
  intros H. run. rewrite H. simpl. unfold wrap_errors.
  destruct (class e); reflexivity.
Qed.

Lemma get_all_volumes_list l n :
  get_volume_list (conn self) array_id = inr l ->
  exists r n',
    get_all_volumes env self array_id n = (inr r, n')
    /\ n <= n'
    /\ Forall (fun c => stamped n n' (VolumeCapacity.timestamp c)) r
    /\ (l = [] -> r = [] /\ n' = n).
Proof.
  intros H. unfold get_all_volumes, try_except, bind, lift. rewrite H.
  destruct l as [|i l].
  - simpl. exists [], n. repeat split; auto.
  - cbn [truthy_list negb].
    destruct (volume_loop_spec (i :: l) [] n) as (r & n' & E & Hn & Hst).
    exists r, n'. rewrite E. repeat split; auto; discriminate.
Qed.

(** Each list collector returns a list stamped with its own readings or
    raises a [DataCollectionError], leaving the clock where it was. *)
Lemma get_srp_capacity_cases n :
  (exists r n', get_srp_capacity env self array_id n = (inr r, n') /\ n <= n'
                /\ Forall (fun c => stamped n n' (SrpCapacity.timestamp c)) r)
  \/ (exists e, get_srp_capacity env self array_id n = (inl e, n)
                /\ class e = DataCollectionError).
Proof.
  destruct (get_storage_resource_pool_keys (conn self) array_id)
    as [e|[l|]] eqn:E.
  - right. rewrite (get_srp_capacity_raises e n E). eexists. split; reflexivity.
  - left. destruct (get_srp_capacity_list l n E) as (r & n' & H & Hn & _ & Hst).
    exists r, n'. auto.
  - left. rewrite (get_srp_capacity_absent n E). exists [], n. auto.
Qed.

Lemma get_all_storage_groups_cases n :
  (exists r n', get_all_storage_groups env self array_id n = (inr r, n') /\ n <= n'
                /\ Forall (fun c => stamped n n' (StorageGroupCapacity.timestamp c)) r)
  \/ (exists e, get_all_storage_groups env self array_id n = (inl e, n)
                /\ class e = DataCollectionError).
Proof.
  destruct (get_storage_group_list (conn self) array_id) as [e|l] eqn:E.
  - right. rewrite (get_all_storage_groups_raises e n E).
    eexists. split; reflexivity.
  - left. destruct (get_all_storage_groups_list l n E) as (r & n' & H & Hn & Hst & _).
    exists r, n'. auto.
Qed.

Lemma get_all_volumes_cases n :
  (exists r n', get_all_volumes env self array_id n = (inr r, n') /\ n <= n'
                /\ Forall (fun c => stamped n n' (VolumeCapacity.timestamp c)) r)
  \/ (exists e, get_all_volumes env self array_id n = (inl e, n)
                /\ class e = DataCollectionError).
Proof.
  destruct (get_volume_list (conn self) array_id) as [e|l] eqn:E.
  - right. rewrite (get_all_volumes_raises e n E). eexists. split; reflexivity.
  - left. destruct (get_all_volumes_list l n E) as (r & n' & H & Hn & Hst & _).
    exists r, n'. auto.
Qed.

(** *** The whole collection *)

(** [get_all_capacity_data] runs the four collectors in order; the first
    that raises ends it with that very exception. *)
Lemma get_all_capacity_data_steps n :
  get_all_capacity_data env self array_id n
  = match get_system_summary env self array_id (S n) with
    | (inl e, n1) => (inl e, n1)
    | (inr system_capacity, n1) =>
        match get_srp_capacity env self array_id n1 with
        | (inl e, n2) => (inl e, n2)
        | (inr srp_capacities, n2) =>
            match get_all_storage_groups env self array_id n2 with
            | (inl e, n3) => (inl e, n3)
            | (inr storage_group_capacities, n3) =>
                match get_all_volumes env self array_id n3 with
                | (inl e, n4) => (inl e, n4)
                | (inr volume_capacities, n4) =>
                    (inr (CapacitySnapshot.mk array_id (clock env n)
                            system_capacity srp_capacities
                            storage_group_capacities volume_capacities),
                     S n4)
                end
            end
        end
    end.
Proof.
  unfold get_all_capacity_data, try_except, bind at 1 2. unfold now at 1. simpl.
  destruct (system_summary_cases (S n)) as [[sc [E _]]|[e [n1 [E [C _]]]]];
    rewrite E; simpl.
  2:{ unfold is_DataCollectionError. rewrite C. reflexivity. }
  unfold bind at 1.
  destruct (get_srp_capacity_cases (S (S n))) as [(r & n2 & E2 & _)|[e [E2 C]]];
    rewrite E2; simpl.
  2:{ unfold is_DataCollectionError. rewrite C. reflexivity. }
  unfold bind at 1.
  destruct (get_all_storage_groups_cases n2) as [(r3 & n3 & E3 & _)|[e [E3 C]]];
    rewrite E3; simpl.
  2:{ unfold is_DataCollectionError. rewrite C. reflexivity. }
  unfold bind at 1.
  destruct (get_all_volumes_cases n3) as [(r4 & n4 & E4 & _)|[e [E4 C]]];
    rewrite E4; simpl.
  2:{ unfold is_DataCollectionError. rewrite C. reflexivity. }
  reflexivity.
Qed.

End WithCollector.

End CollectorProps.

(* ================================================================== *)
(** ** Properties of a collection run *)
(* ================================================================== *)

Module RunProps.

Import Py Collector ApiServer SpecWords CollectorProps.

Lemma last_message (l : list message) (m : message) :
  last (map Some (l ++ [m])) None = Some m.
Proof. rewrite map_app. simpl. apply last_last. Qed.

Section Run.
Variable env : Env.
Variable load_config : result UnisphereConfig.t.
Variable config : UnisphereConfig.t.
Variable self : VmaxCapacityCollector.
Hypothesis config_loaded : load_config = inr config.
Hypothesis connected :
  Collector.init env (UnisphereConfig.host config) (UnisphereConfig.port config)
    (Some (UnisphereConfig.array_id config)) = inr self.

(** A run whose configuration loads and whose connection opens: the
    state it leaves, by the outcome of [get_all_capacity_data]. *)
Lemma collect_capacity_data_steps (s : state) :
  collect_capacity_data env load_config s
  = let started := CollectionStarted (clock env (clock_reads s)) in
    let progress := CollectionProgress "system" "Collecting system capacity..." in
    match get_all_capacity_data env self (UnisphereConfig.array_id config)
            (S (clock_reads s)) with
    | (inr snapshot, n) =>
        mkState (Some snapshot) false (Some (clock env n)) None
          (broadcasts s
           ++ [started; progress;
               CollectionCompleted (clock env n)
                 (CapacitySnapshot.array_id snapshot)
                 (CapacitySnapshot.total_srps snapshot)
                 (CapacitySnapshot.total_storage_groups snapshot)
                 (CapacitySnapshot.total_volumes snapshot)
                 (SystemCapacity.utilization_percent
                    (CapacitySnapshot.system_capacity snapshot))])
          (S n)
    | (inl e, n) =>
        mkState (current_snapshot s) false (last_collection_time s)
          (Some (str e))
          (broadcasts s ++ [started; progress; CollectionError (str e) (clock env n)])
          (S n)
    end.
Proof.
  unfold collect_capacity_data, collect_capacity_task, collect_body,
    try_except, bind, lift, modify, broadcast, ApiServer.now, on_clock,
    Collector.now.
  rewrite config_loaded, connected. simpl.
  destruct (get_all_capacity_data env self (UnisphereConfig.array_id config)
              (S (clock_reads s))) as [[e|snapshot] n]; simpl;
    unfold set_collection_in_progress; simpl;
    rewrite <- !app_assoc; reflexivity.
Qed.

End Run.

Lemma outcome_of_last (s : state) (l : list message) (m : message) :
  broadcasts s = l ++ [m] ->
  run_outcome s
  = match m with
    | CollectionCompleted _ _ _ _ _ _ => Some Completed
    | CollectionError _ _ => Some Failed
    | _ => None
    end.
Proof. intros H. unfold run_outcome. rewrite H, last_message. reflexivity. Qed.

(** C2.  In a run where [get_system_summary] raises, the run ends
    failed: the last message broadcast is [collection_error] with the
    message of the exception, [collection_error] holds that message,
    [current_snapshot] and [last_collection_time] are what they were
    before the run, and [collection_in_progress] is cleared. *)
Theorem failed_system_collection_keeps_snapshot :
  forall (env : Env) (load_config : result UnisphereConfig.t)
         (config : UnisphereConfig.t) (self : VmaxCapacityCollector)
         (s : state) (e : exn) (n : nat),
    load_config = inr config ->
    Collector.init env (UnisphereConfig.host config)
      (UnisphereConfig.port config) (Some (UnisphereConfig.array_id config))
    = inr self ->
    get_system_summary env self (UnisphereConfig.array_id config)
      (S (S (clock_reads s))) = (inl e, n) ->
    let s' := collect_capacity_data env load_config s in
    run_outcome s' = Some Failed
    /\ collection_error s' = Some (str e)
    /\ current_snapshot s' = current_snapshot s
    /\ last_collection_time s' = last_collection_time s
    /\ collection_in_progress s' = false
    /\ last (map Some (broadcasts s')) None
       = Some (CollectionError (str e) (clock env n)).
Proof.
  intros env load_config config self s e n Hc Hi Hs s'. subst s'.
  rewrite (collect_capacity_data_steps env load_config config self Hc Hi).
  rewrite get_all_capacity_data_steps, Hs. cbv zeta.
  assert (L : forall a b c : message,
             last (map Some (broadcasts s ++ [a; b; c])) None = Some c).
  { intros a b c. change [a; b; c] with ([a; b] ++ [c]).
    rewrite app_assoc. apply last_message. }
  split; [|repeat split].
  - unfold run_outcome. simpl. rewrite L. reflexivity.
  - simpl. apply L.
Qed.

Lemma failed_system_collection_keeps_snapshot_witness :
  let s' := collect_capacity_data Fixtures.env_system_down (inr Fixtures.config)
              Fixtures.after_one_run in
  run_outcome s' = Some Failed
  /\ collection_error s'
     = Some "System summary collection failed: Connection refused"
  /\ current_snapshot s' = current_snapshot Fixtures.after_one_run
  /\ last_collection_time s' = Some "2024-05-01T10:00:00.11"
  /\ collection_in_progress s' = false
  /\ last (map Some (broadcasts s')) None
     = Some (CollectionError
               "System summary collection failed: Connection refused"
               "2024-05-01T10:00:00.14").
Proof.
  exact (failed_system_collection_keeps_snapshot Fixtures.env_system_down
           (inr Fixtures.config) Fixtures.config
           (Fixtures.collector_of Fixtures.conn_system_down)
           Fixtures.after_one_run
           (Exn DataCollectionError
              "System summary collection failed: Connection refused")
           14 eq_refl eq_refl eq_refl).
Defined.

Section Pools.
Variable env : Env.
Variable self : VmaxCapacityCollector.
Variable array_id : string.

Lemma non_failing_all l :
  Forall (fun i => has_id i = true) l ->
  Forall (fun i => pool_fails env self array_id (pool_id i) = false) l ->
  non_failing env self array_id l = l.
Proof.
  intros H1 H2. induction l as [|i l IH]; [reflexivity|].
  inversion H1; inversion H2; subst.
  rewrite non_failing_cons.
  replace (has_id i) with true by auto.
  replace (pool_fails env self array_id (pool_id i)) with false by auto.
  simpl. now rewrite IH.
Qed.

Lemma non_failing_one_out before failing after :
  Forall (fun i => has_id i = true) (before ++ failing :: after) ->
  pool_fails env self array_id (pool_id failing) = true ->
  Forall (fun i => pool_fails env self array_id (pool_id i) = false)
    (before ++ after) ->
  non_failing env self array_id (before ++ failing :: after) = before ++ after.
Proof.
  intros H1 H2 H3.
  apply Forall_app in H1. destruct H1 as [Hb Ha].
  inversion Ha as [|? ? Hf Ha']; subst.
  apply Forall_app in H3. destruct H3 as [Fb Fa].
  unfold non_failing. rewrite filter_app. simpl. rewrite H2, andb_false_r.
  fold (non_failing env self array_id before).
  fold (non_failing env self array_id after).
  now rewrite !non_failing_all.
Qed.

End Pools.

(** C3.  When the metrics of exactly one pool of the list cannot be
    fetched (every pool has an identifier and the others are collected),
    [get_srp_capacity] returns one entry per other pool, in list order,
    so one entry fewer than the list has pools; and a run whose system
    level is collected and whose storage group and volume lists are
    fetched ends completed, with those entries in its snapshot. *)
Theorem one_failing_pool_is_skipped :
  forall (env : Env) (self : VmaxCapacityCollector) (array_id : string)
         (before after : list srp_info) (failing : srp_info) (e : exn),
    get_storage_resource_pool_keys (conn self) array_id
    = inr (Some (before ++ failing :: after)) ->
    Forall (fun i => has_id i = true) (before ++ failing :: after) ->
    get_storage_resource_pool_stats (conn self) array_id (pool_id failing)
    = inl e ->
    Forall (fun i => pool_fails env self array_id (pool_id i) = false)
      (before ++ after) ->
    (forall n, exists r n',
        get_srp_capacity env self array_id n = (inr r, n')
        /\ map SrpCapacity.srp_id r = map pool_id (before ++ after)
        /\ List.length r = List.length (before ++ failing :: after) - 1)
    /\ (forall (load_config : result UnisphereConfig.t)
               (config : UnisphereConfig.t) (s : state),
          load_config = inr config ->
          UnisphereConfig.array_id config = array_id ->
          Collector.init env (UnisphereConfig.host config)
            (UnisphereConfig.port config) (Some array_id) = inr self ->
          (forall n, exists sc, get_system_summary env self array_id n
                                = (inr sc, S n)) ->
          (exists l, get_storage_group_list (conn self) array_id = inr l) ->
          (exists l, get_volume_list (conn self) array_id = inr l) ->
          let s' := collect_capacity_data env load_config s in
          run_outcome s' = Some Completed
          /\ collection_error s' = None
          /\ collection_in_progress s' = false
          /\ exists snapshot,
               current_snapshot s' = Some snapshot
               /\ map SrpCapacity.srp_id
                    (CapacitySnapshot.srp_capacities snapshot)
                  = map pool_id (before ++ after)).
Proof.
  intros env self array_id before after failing e Hk Hid He Hok.
  assert (P1 : forall n, exists r n',
             get_srp_capacity env self array_id n = (inr r, n')
             /\ map SrpCapacity.srp_id r = map pool_id (before ++ after)
             /\ List.length r = List.length (before ++ failing :: after) - 1).
  { intros n.
    destruct (get_srp_capacity_list env self array_id _ n Hk)
      as (r & n' & E & _ & Hids & _).
    rewrite (non_failing_one_out env self array_id before failing after) in Hids;
      [|exact Hid|exact (fetch_raises_pool_fails env self array_id _ e He)|exact Hok].
    exists r, n'. split; [exact E|]. split; [exact Hids|].
    rewrite <- (length_map SrpCapacity.srp_id), Hids, length_map.
    rewrite !length_app. simpl. lia. }
  split; [exact P1|].
  intros load_config config s Hc Ha Hi Hsys [gl Hg] [vl Hv] s'. subst s'.
  subst array_id.
  rewrite (collect_capacity_data_steps env load_config config self Hc Hi).
  rewrite get_all_capacity_data_steps.
  destruct (Hsys (S (S (clock_reads s)))) as [sc Es]. rewrite Es.
  destruct (P1 (S (S (S (clock_reads s))))) as (r & n2 & E2 & Hids & _).
  rewrite E2.
  destruct (get_all_storage_groups_list env self _ gl n2 Hg)
    as (r3 & n3 & E3 & _). rewrite E3.
  destruct (get_all_volumes_list env self _ vl n3 Hv)
    as (r4 & n4 & E4 & _). rewrite E4.
  cbv zeta. split; [|repeat split].
  - unfold run_outcome. simpl.
    change [?a; ?b; ?c] with ([a; b] ++ [c]).
    rewrite app_assoc, last_message. reflexivity.
  - eexists. split; [reflexivity|]. exact Hids.
Qed.

(** Five pools, the third of which cannot be fetched: four entries, and
    the run completes. *)
Lemma one_failing_pool_is_skipped_witness :
  (exists r n',
      get_srp_capacity Fixtures.env_up (Fixtures.collector_of Fixtures.conn_up)
        Fixtures.serial 0 = (inr r, n')
      /\ map SrpCapacity.srp_id r = ["SRP_1"; "SRP_2"; "SRP_4"; "SRP_5"]
      /\ List.length r = 4)
  /\ run_outcome (collect_capacity_data Fixtures.env_up (inr Fixtures.config)
                    Fixtures.fresh) = Some Completed.
Proof.
  pose proof (one_failing_pool_is_skipped Fixtures.env_up
                (Fixtures.collector_of Fixtures.conn_up) Fixtures.serial
                (map (fun s => SrpInfo (Some s)) ["SRP_1"; "SRP_2"])
                (map (fun s => SrpInfo (Some s)) ["SRP_4"; "SRP_5"])
                (SrpInfo (Some "SRP_3")) Fixtures.pool_error
                eq_refl
                ltac:(repeat constructor)
                eq_refl
                ltac:(repeat constructor)) as [H1 H2].
  split.
  - exact (H1 0).
  - refine (proj1 (H2 (inr Fixtures.config) Fixtures.config Fixtures.fresh
                     eq_refl eq_refl eq_refl _ _ _)).
    + intros n. eexists. reflexivity.
    + eexists. reflexivity.
    + eexists. reflexivity.
Defined.

(** C4 (amended).  For the three list levels, when the list of
    identifiers is fetched and is empty (for pools also when the answer
    has no list), the collector of the level returns the empty list and
    takes no clock reading; when the fetch of the list raises, the
    collector raises a [DataCollectionError].  So a collection whose
    system level is collected produces a snapshot exactly when none of the
    three list fetches raises, and a level whose list is empty is empty in
    that snapshot. *)
Theorem list_fetch_empty_or_fatal :
  forall (env : Env) (self : VmaxCapacityCollector) (array_id : string) (n : nat),
    (get_storage_resource_pool_keys (conn self) array_id = inr None
     \/ get_storage_resource_pool_keys (conn self) array_id = inr (Some []) ->
     get_srp_capacity env self array_id n = (inr [], n))
    /\ (get_storage_group_list (conn self) array_id = inr [] ->
        get_all_storage_groups env self array_id n = (inr [], n))
    /\ (get_volume_list (conn self) array_id = inr [] ->
        get_all_volumes env self array_id n = (inr [], n))
    /\ (forall e, get_storage_resource_pool_keys (conn self) array_id = inl e ->
          exists e', get_srp_capacity env self array_id n = (inl e', n)
                     /\ class e' = DataCollectionError)
    /\ (forall e, get_storage_group_list (conn self) array_id = inl e ->
          exists e', get_all_storage_groups env self array_id n = (inl e', n)
                     /\ class e' = DataCollectionError)
    /\ (forall e, get_volume_list (conn self) array_id = inl e ->
          exists e', get_all_volumes env self array_id n = (inl e', n)
                     /\ class e' = DataCollectionError)
    /\ (forall sc n1,
          get_system_summary env self array_id (S n) = (inr sc, n1) ->
          ((exists k, get_storage_resource_pool_keys (conn self) array_id = inr k)
           /\ (exists l, get_storage_group_list (conn self) array_id = inr l)
           /\ (exists l, get_volume_list (conn self) array_id = inr l)
           <-> exists snapshot n',
                get_all_capacity_data env self array_id n = (inr snapshot, n'))
          /\ (forall snapshot n',
                get_all_capacity_data env self array_id n = (inr snapshot, n') ->
                (get_storage_resource_pool_keys (conn self) array_id = inr None
                 \/ get_storage_resource_pool_keys (conn self) array_id
                    = inr (Some []) ->
                 CapacitySnapshot.srp_capacities snapshot = [])
                /\ (get_storage_group_list (conn self) array_id = inr [] ->
                    CapacitySnapshot.storage_group_capacities snapshot = [])
                /\ (get_volume_list (conn self) array_id = inr [] ->
                    CapacitySnapshot.volume_capacities snapshot = []))).
Proof.
  intros env self array_id n.
  assert (P : forall m,
             get_storage_resource_pool_keys (conn self) array_id = inr None
             \/ get_storage_resource_pool_keys (conn self) array_id = inr (Some []) ->
             get_srp_capacity env self array_id m = (inr [], m)).
  { intros m [H|H].
    - apply get_srp_capacity_absent, H.
    - unfold get_srp_capacity, try_except, bind, lift. rewrite H. reflexivity. }
  assert (G : forall m, get_storage_group_list (conn self) array_id = inr [] ->
                        get_all_storage_groups env self array_id m = (inr [], m)).
  { intros m H. unfold get_all_storage_groups, try_except, bind, lift.
    rewrite H. reflexivity. }
  assert (V : forall m, get_volume_list (conn self) array_id = inr [] ->
                        get_all_volumes env self array_id m = (inr [], m)).
  { intros m H. unfold get_all_volumes, try_except, bind, lift.
    rewrite H. reflexivity. }
  split; [apply P|]. split; [apply G|]. split; [apply V|].
  split; [|split; [|split]].
  - intros e H. rewrite (get_srp_capacity_raises env self array_id e n H).
    eexists. split; reflexivity.
  - intros e H. rewrite (get_all_storage_groups_raises env self array_id e n H).
    eexists. split; reflexivity.
  - intros e H. rewrite (get_all_volumes_raises env self array_id e n H).
    eexists. split; reflexivity.
  - intros sc n1 Hs. rewrite get_all_capacity_data_steps, Hs.
    destruct (get_storage_resource_pool_keys (conn self) array_id)
      as [e1|k] eqn:Ek.
    { rewrite (get_srp_capacity_raises env self array_id e1 n1 Ek). split.
      - split.
        + intros [[k Hk] _]. discriminate.
        + intros (x & y & H). discriminate.
      - intros x y H. discriminate. }
    assert (exists r n2, get_srp_capacity env self array_id n1 = (inr r, n2)
                         /\ (k = None \/ k = Some [] -> r = []))
      as (r & n2 & E2 & Hr).
    { destruct k as [l|].
      - destruct (get_srp_capacity_list env self array_id l n1 Ek)
          as (r & n2 & E & _).
        exists r, n2. split; [exact E|].
        intros [H|H]; [discriminate|]. inversion H; subst.
        rewrite (P n1) in E by (right; reflexivity). now inversion E.
      - exists [], n1. split; [apply P; left; reflexivity|reflexivity]. }
    rewrite E2.
    destruct (get_storage_group_list (conn self) array_id) as [e3|gl] eqn:Eg.
    { rewrite (get_all_storage_groups_raises env self array_id e3 n2 Eg). split.
      - split.
        + intros (_ & [l Hl] & _). discriminate.
        + intros (x & y & H). discriminate.
      - intros x y H. discriminate. }
    destruct (get_all_storage_groups_list env self array_id gl n2 Eg)
      as (r3 & n3 & E3 & _ & _ & Hr3). rewrite E3.
    destruct (get_volume_list (conn self) array_id) as [e4|vl] eqn:Ev.
    { rewrite (get_all_volumes_raises env self array_id e4 n3 Ev). split.
      - split.
        + intros (_ & _ & [l Hl]). discriminate.
        + intros (x & y & H). discriminate.
      - intros x y H. discriminate. }
    destruct (get_all_volumes_list env self array_id vl n3 Ev)
      as (r4 & n4 & E4 & _ & _ & Hr4). rewrite E4.
    split.
    + split.
      * intros _. eexists. eexists. reflexivity.
      * intros _. repeat split; eexists; reflexivity.
    + intros snapshot n' H. inversion H; subst. simpl.
      split; [|split].
      * intros [H1|H1]; apply Hr; inversion H1; auto.
      * intros H1. inversion H1; subst. apply Hr3. reflexivity.
      * intros H1. inversion H1; subst. apply Hr4. reflexivity.
Qed.

(** An array without pools gives a snapshot without pools; an array
    whose list of pools cannot be fetched gives no snapshot. *)
Lemma list_fetch_empty_or_fatal_witness :
  get_srp_capacity Fixtures.env_no_pool
    (Fixtures.collector_of Fixtures.conn_no_pool) Fixtures.serial 2 = (inr [], 2)
  /\ (exists snapshot n',
        get_all_capacity_data Fixtures.env_no_pool
          (Fixtures.collector_of Fixtures.conn_no_pool) Fixtures.serial 0
        = (inr snapshot, n'))
  /\ (exists e',
        get_srp_capacity Fixtures.env_pool_keys_down
          (Fixtures.collector_of Fixtures.conn_pool_keys_down) Fixtures.serial 2
        = (inl e', 2)
        /\ class e' = DataCollectionError).
Proof.
  split; [|split].
  - exact (proj1 (list_fetch_empty_or_fatal Fixtures.env_no_pool
                    (Fixtures.collector_of Fixtures.conn_no_pool)
                    Fixtures.serial 2) (or_introl eq_refl)).
  - destruct (list_fetch_empty_or_fatal Fixtures.env_no_pool
                (Fixtures.collector_of Fixtures.conn_no_pool)
                Fixtures.serial 0) as (_ & _ & _ & _ & _ & _ & H).
    destruct (H _ 2 eq_refl) as [[H1 _] _].
    apply H1. repeat split; eexists; reflexivity.
  - destruct (list_fetch_empty_or_fatal Fixtures.env_pool_keys_down
                (Fixtures.collector_of Fixtures.conn_pool_keys_down)
                Fixtures.serial 2) as (_ & _ & _ & H & _).
    exact (H _ eq_refl).
Defined.

(** C4 as it is stated fails: when the fetch of the list of pools raises,
    [get_srp_capacity] raises instead of returning an empty list, and the
    run ends failed without a snapshot. *)
Lemma pool_list_failure_is_fatal :
  get_srp_capacity Fixtures.env_pool_keys_down
    (Fixtures.collector_of Fixtures.conn_pool_keys_down) Fixtures.serial 2
  = (inl (Exn DataCollectionError
            "Failed to retrieve SRP capacity: Error GET StorageResourcePool keys: 500"),
     2)
  /\ current_snapshot
       (collect_capacity_data Fixtures.env_pool_keys_down (inr Fixtures.config)
          Fixtures.fresh) = None
  /\ run_outcome
       (collect_capacity_data Fixtures.env_pool_keys_down (inr Fixtures.config)
          Fixtures.fresh) = Some Failed
  /\ collection_error
       (collect_capacity_data Fixtures.env_pool_keys_down (inr Fixtures.config)
          Fixtures.fresh)
     = Some "Failed to retrieve SRP capacity: Error GET StorageResourcePool keys: 500".
Proof. repeat split. Qed.

(** C5 (amended).  In a snapshot returned by [get_all_capacity_data],
    [collection_timestamp] is the clock reading taken at the start of the
    collection; the timestamp of the system capacity is the next reading,
    and the timestamp of each pool, storage group and volume is a reading
    of its own taken after that one and before the collection ends.  None
    of them is a copy of [collection_timestamp]. *)
Theorem snapshot_timestamps_are_successive_readings :
  forall (env : Env) (self : VmaxCapacityCollector) (array_id : string)
         (n n' : nat) (snapshot : CapacitySnapshot.t),
    get_all_capacity_data env self array_id n = (inr snapshot, n') ->
    CapacitySnapshot.collection_timestamp snapshot = clock env n
    /\ SystemCapacity.timestamp (CapacitySnapshot.system_capacity snapshot)
       = clock env (S n)
    /\ Forall (fun c => stamped env (S (S n)) n' (SrpCapacity.timestamp c))
         (CapacitySnapshot.srp_capacities snapshot)
    /\ Forall (fun c => stamped env (S (S n)) n' (StorageGroupCapacity.timestamp c))
         (CapacitySnapshot.storage_group_capacities snapshot)
    /\ Forall (fun c => stamped env (S (S n)) n' (VolumeCapacity.timestamp c))
         (CapacitySnapshot.volume_capacities snapshot).
Proof.
  intros env self array_id n n' snapshot H.
  rewrite get_all_capacity_data_steps in H.
  destruct (system_summary_cases env self array_id (S n))
    as [[sc [E Ht]]|[e [n1 [E _]]]]; rewrite E in H; [|discriminate].
  destruct (get_srp_capacity_cases env self array_id (S (S n)))
    as [(r2 & n2 & E2 & Hn2 & Hs2)|[e [E2 _]]]; rewrite E2 in H; [|discriminate].
  destruct (get_all_storage_groups_cases env self array_id n2)
    as [(r3 & n3 & E3 & Hn3 & Hs3)|[e [E3 _]]]; rewrite E3 in H; [|discriminate].
  destruct (get_all_volumes_cases env self array_id n3)
    as [(r4 & n4 & E4 & Hn4 & Hs4)|[e [E4 _]]]; rewrite E4 in H; [|discriminate].
  inversion H; subst. simpl.
  split; [reflexivity|]. split; [exact Ht|].
  split; [|split]; (eapply Forall_impl; [|eassumption]);
    intros a Ha; (eapply stamped_weaken; [exact Ha|lia|lia]).
Qed.

Lemma snapshot_timestamps_are_successive_readings_witness :
  exists snapshot,
    get_all_capacity_data Fixtures.env_up (Fixtures.collector_of Fixtures.conn_up)
      Fixtures.serial 0 = (inr snapshot, 10)
    /\ CapacitySnapshot.collection_timestamp snapshot = "2024-05-01T10:00:00.0"
    /\ SystemCapacity.timestamp (CapacitySnapshot.system_capacity snapshot)
       = "2024-05-01T10:00:00.1".
Proof.
  eexists. split; [reflexivity|].
  destruct (snapshot_timestamps_are_successive_readings Fixtures.env_up
              (Fixtures.collector_of Fixtures.conn_up) Fixtures.serial 0 10 _
              eq_refl) as (H1 & H2 & _).
  split; [exact H1|exact H2].
Defined.

(** C5 as it is stated fails: with a clock that advances, the system
    capacity and the pools of a snapshot carry timestamps that differ from
    its [collection_timestamp]. *)
Lemma entity_timestamps_are_not_the_collection_timestamp :
  exists snapshot,
    get_all_capacity_data Fixtures.env_up (Fixtures.collector_of Fixtures.conn_up)
      Fixtures.serial 0 = (inr snapshot, 10)
    /\ CapacitySnapshot.collection_timestamp snapshot = "2024-05-01T10:00:00.0"
    /\ SystemCapacity.timestamp (CapacitySnapshot.system_capacity snapshot)
       = "2024-05-01T10:00:00.1"
    /\ map SrpCapacity.timestamp (CapacitySnapshot.srp_capacities snapshot)
       = ["2024-05-01T10:00:00.2"; "2024-05-01T10:00:00.3";
          "2024-05-01T10:00:00.4"; "2024-05-01T10:00:00.5"]
    /\ map StorageGroupCapacity.timestamp
         (CapacitySnapshot.storage_group_capacities snapshot)
       = ["2024-05-01T10:00:00.6"; "2024-05-01T10:00:00.7"]
    /\ map VolumeCapacity.timestamp (CapacitySnapshot.volume_capacities snapshot)
       = ["2024-05-01T10:00:00.8"]
    /\ String.eqb (CapacitySnapshot.collection_timestamp snapshot)
         (SystemCapacity.timestamp (CapacitySnapshot.system_capacity snapshot))
       = false.
Proof. eexists. repeat split. Qed.

End RunProps.

(* ================================================================== *)
(** ** Further properties: configuration and connection *)
(* ================================================================== *)

Module ConfigProps.

Import Py Config.

Lemma truthy_str_iff s : truthy_str s = true <-> s <> "".
Proof. destruct s; simpl; split; congruence. Qed.

(** X1.  [validate] accepts a configuration exactly when its host, user
    name, password and array id are not empty and its port is positive;
    otherwise it raises a [ValueError], and the message names the first
    of these that fails, in that order. *)
Theorem validate_accepts_iff_complete :
  forall c : UnisphereConfig.t,
    (validate c = inr tt
     <-> UnisphereConfig.host c <> "" /\ UnisphereConfig.username c <> ""
         /\ UnisphereConfig.password c <> "" /\ UnisphereConfig.array_id c <> ""
         /\ (0 < UnisphereConfig.port c)%Z)
    /\ (forall e, validate c = inl e ->
          class e = ValueError
          /\ str e
             = if negb (truthy_str (UnisphereConfig.host c))
               then "Unisphere host is required"
               else if negb (truthy_str (UnisphereConfig.username c))
               then "Username is required"
               else if negb (truthy_str (UnisphereConfig.password c))
               then "Password is required"
               else if negb (truthy_str (UnisphereConfig.array_id c))
               then "Array ID is required"
               else "Port must be a positive integer").
Proof.
  intros c. unfold validate. split.
  - rewrite <- !truthy_str_iff.
    destruct (truthy_str (UnisphereConfig.host c)),
             (truthy_str (UnisphereConfig.username c)),
             (truthy_str (UnisphereConfig.password c)),
             (truthy_str (UnisphereConfig.array_id c)); simpl;
      try (split; [discriminate|intros (?&?&?&?&?); discriminate]).
    destruct (Z.leb_spec (UnisphereConfig.port c) 0); split;
      try discriminate; try (intros (?&?&?&?&?); lia); auto.
  - intros e.
    destruct (truthy_str (UnisphereConfig.host c)),
             (truthy_str (UnisphereConfig.username c)),
             (truthy_str (UnisphereConfig.password c)),
             (truthy_str (UnisphereConfig.array_id c)); simpl;
      try (intros H; inversion H; split; reflexivity).
    destruct (UnisphereConfig.port c <=? 0)%Z; intros H; inversion H;
      split; reflexivity.
Qed.

Section FromEnv.
Variable environ : string -> option string.
Variable int_of_str : string -> option Z.
Variable lower : string -> string.

(** X2.  A configuration that [load_config_from_env] returns passes
    [validate] and holds the values of the environment, with port 8443
    when [UNISPHERE_PORT] is unset; and when [UNISPHERE_PORT] is set to a
    text that is not an int, [load_config_from_env] raises the
    [ValueError] of [int], whatever the other variables are. *)
Theorem env_config_is_validated :
  (forall c, load_config_from_env environ int_of_str lower = inr c ->
     validate c = inr tt
     /\ environ "UNISPHERE_HOST" = Some (UnisphereConfig.host c)
     /\ environ "UNISPHERE_USER" = Some (UnisphereConfig.username c)
     /\ environ "UNISPHERE_PASSWORD" = Some (UnisphereConfig.password c)
     /\ environ "VMAX_ARRAY_ID" = Some (UnisphereConfig.array_id c)
     /\ (environ "UNISPHERE_PORT" = None -> UnisphereConfig.port c = 8443%Z))
  /\ (forall v, environ "UNISPHERE_PORT" = Some v -> int_of_str v = None ->
        load_config_from_env environ int_of_str lower
        = inl (Exn ValueError
                 ("invalid literal for int() with base 10: '" ++ v ++ "'"))).
Proof.
  split.
  - intros c H. unfold load_config_from_env in H.
    destruct (match environ "UNISPHERE_PORT" with
              | Some v => Py.int int_of_str (PStr v)
              | None => inr 8443%Z
              end) as [e|port] eqn:Ep; [discriminate|].
    match type of H with
    | match validate ?k with _ => _ end = _ =>
        destruct (validate k) as [e|[]] eqn:Ev; [discriminate|];
        inversion H; subst c; clear H
    end.
    split; [exact Ev|].
    apply (proj1 (validate_accepts_iff_complete _)) in Ev. simpl in Ev.
    destruct Ev as (Hh & Hu & Hp & Ha & _). unfold environ_get in *. simpl.
    destruct (environ "UNISPHERE_HOST"); [|congruence].
    destruct (environ "UNISPHERE_USER"); [|congruence].
    destruct (environ "UNISPHERE_PASSWORD"); [|congruence].
    destruct (environ "VMAX_ARRAY_ID"); [|congruence].
    repeat split. intros E. rewrite E in Ep. now inversion Ep.
  - intros v Hv Hi. unfold load_config_from_env. rewrite Hv. simpl.
    rewrite Hi. reflexivity.
Qed.

End FromEnv.

(** An environment that sets every variable but the port, and one whose
    port is not a number. *)
Definition sample_environ (port : option string) (k : string) : option string :=
  if String.eqb k "UNISPHERE_HOST" then Some "unisphere.example.com"
  else if String.eqb k "UNISPHERE_USER" then Some "monitor"
  else if String.eqb k "UNISPHERE_PASSWORD" then Some "secret"
  else if String.eqb k "VMAX_ARRAY_ID" then Some "000197900123"
  else if String.eqb k "UNISPHERE_PORT" then port
  else None.

Lemma env_config_is_validated_witness :
  (validate (UnisphereConfig.mk "unisphere.example.com" 8443 "monitor" "secret"
               "000197900123" false) = inr tt)
  /\ load_config_from_env (sample_environ (Some "https")) (fun _ => None)
       (fun s => s)
     = inl (Exn ValueError "invalid literal for int() with base 10: 'https'").
Proof.
  split.
  - exact (proj1 (proj1 (env_config_is_validated (sample_environ None)
                           (fun _ => None) (fun s => s)) _ eq_refl)).
  - exact (proj2 (env_config_is_validated (sample_environ (Some "https"))
                    (fun _ => None) (fun s => s)) "https" eq_refl eq_refl).
Defined.

End ConfigProps.

Module InitProps.

Import Py Collector.

Lemma str_in_iff x l : str_in x l = true <-> In x l.
Proof.
  unfold str_in. rewrite existsb_exists. split.
  - intros [y [H E]]. apply String.eqb_eq in E. now subst.
  - intros H. exists x. split; [exact H|apply String.eqb_refl].
Qed.

(** The exception of the client that makes [__init__] fail, if any. *)
Definition client_failure (env : Env) : option exn :=
  match connect env with
  | inl e => Some e
  | inr c => match get_array_list c with inl e => Some e | inr _ => None end
  end.

(** The handlers of [__init__], on the exception [e0] of the client. *)
Lemma init_handler_cases host port e0 e :
  match class e0 with
  | RequestsConnectionError =>
      inl (Exn ConnectionError
             ("Cannot connect to Unisphere at " ++ host ++ ":"
              ++ str_of_int port ++ ". "
              ++ "Verify network connectivity and that Unisphere is running."))
  | HTTPError status_code =>
      if (status_code =? 401)%Z
      then inl (Exn AuthenticationError
                  "Invalid credentials. Verify username and password.")
      else inl (Exn ConnectionError ("HTTP error: " ++ str e0))
  | _ => inl (Exn ConnectionError ("Initialization failed: " ++ str e0))
  end = (inl e : result VmaxCapacityCollector) ->
  (class e = ConnectionError \/ class e = AuthenticationError)
  /\ (class e = AuthenticationError <-> class e0 = HTTPError 401).
Proof.
  destruct (class e0) eqn:C;
    try (destruct (Z.eqb_spec status_code 401) as [->|N]);
    intros H; inversion H; simpl; (split; [auto|]);
    split; try discriminate; try reflexivity; try congruence.
Qed.

(** X3.  [__init__] raises nothing but [ConnectionError] and
    [AuthenticationError]: it raises [AuthenticationError] exactly when
    the client raised an HTTP error of status 401, and an array id that
    Unisphere does not list ends as a [ConnectionError] (the [ValueError]
    raised for it is caught by the method's own handler). *)
Theorem init_raises_connection_or_authentication :
  forall (env : Env) (host : string) (port : Z) (array_id : option string),
    (forall e, init env host port array_id = inl e ->
       (class e = ConnectionError \/ class e = AuthenticationError)
       /\ (class e = AuthenticationError
           <-> exists e0, client_failure env = Some e0
                          /\ class e0 = HTTPError 401))
    /\ (forall c arrays a,
          connect env = inr c -> get_array_list c = inr arrays ->
          array_id = Some a -> a <> "" -> ~ In a arrays ->
          init env host port array_id
          = inl (Exn ConnectionError
                   ("Initialization failed: Specified array '" ++ a
                    ++ "' not found. Available: " ++ repr_list arrays))).
Proof.
  intros env host port array_id. split.
  - intros e. unfold init, client_failure.
    destruct (connect env) as [e0|c].
    + intros H. destruct (init_handler_cases host port e0 e H) as [A B].
      split; [exact A|]. rewrite B. split.
      * intros C. exists e0. auto.
      * intros [x [Hx Cx]]. inversion Hx; subst. exact Cx.
    + destruct (get_array_list c) as [e0|arrays].
      * intros H. destruct (init_handler_cases host port e0 e H) as [A B].
        split; [exact A|]. rewrite B. split.
        -- intros C. exists e0. auto.
        -- intros [x [Hx Cx]]. inversion Hx; subst. exact Cx.
      * destruct array_id as [[|ch a]|]; [destruct arrays| |destruct arrays];
          try discriminate.
        destruct (str_in (String ch a) arrays); [discriminate|].
        simpl. intros H. inversion H. simpl.
        split; [auto|]. split; [discriminate|].
        intros [x [Hx _]]. discriminate.
  - intros c arrays a Hc Ha -> Hne Hin. unfold init. rewrite Hc, Ha.
    destruct a as [|ch a]; [congruence|].
    destruct (str_in (String ch a) arrays) eqn:E.
    + apply str_in_iff in E. contradiction.
    + reflexivity.
Qed.

Lemma init_raises_connection_or_authentication_witness :
  init (Fixtures.env_of Fixtures.conn_up) "unisphere.example.com" 8443
    (Some "000197900999")
  = inl (Exn ConnectionError
           "Initialization failed: Specified array '000197900999' not found. Available: ['000197900123']").
Proof.
  refine (proj2 (init_raises_connection_or_authentication
                   (Fixtures.env_of Fixtures.conn_up) "unisphere.example.com"
                   8443 (Some "000197900999"))
            Fixtures.conn_up ["000197900123"] "000197900999"
            eq_refl eq_refl eq_refl _ _).
  - discriminate.
  - intros [H|[]]. discriminate.
Defined.

(** X4.  The collector that [__init__] returns holds the connection that
    was opened; a given array id is kept and is one that Unisphere
    lists, and without one the first listed array is taken (none when
    Unisphere lists no array). *)
Theorem init_picks_a_listed_array :
  forall (env : Env) (host : string) (port : Z) (array_id : option string)
         (self : VmaxCapacityCollector),
    init env host port array_id = inr self ->
    exists arrays,
      connect env = inr (conn self)
      /\ get_array_list (conn self) = inr arrays
      /\ match array_id with
         | Some (String ch a) =>
             Collector.array_id self = array_id /\ In (String ch a) arrays
         | _ =>
             Collector.array_id self
             = match arrays with a :: _ => Some a | [] => array_id end
         end.
Proof.
  intros env host port array_id self. unfold init.
  destruct (connect env) as [e0|c].
  { destruct (class e0); try discriminate.
    destruct (status_code =? 401)%Z; discriminate. }
  destruct (get_array_list c) as [e0|arrays] eqn:Ea.
  { destruct (class e0); try discriminate.
    destruct (status_code =? 401)%Z; discriminate. }
  destruct array_id as [[|ch a]|].
  - destruct arrays; intros H; inversion H; subst; simpl;
      eexists; (split; [reflexivity|]); (split; [exact Ea|reflexivity]).
  - destruct (str_in (String ch a) arrays) eqn:E; [|discriminate].
    intros H; inversion H; subst; simpl.
    exists arrays. split; [reflexivity|]. split; [exact Ea|].
    split; [reflexivity|]. now apply str_in_iff.
  - destruct arrays; intros H; inversion H; subst; simpl;
      eexists; (split; [reflexivity|]); (split; [exact Ea|reflexivity]).
Qed.

Lemma init_picks_a_listed_array_witness :
  exists arrays,
    get_array_list Fixtures.conn_up = inr arrays
    /\ Collector.array_id (Fixtures.collector_of Fixtures.conn_up)
       = Some "000197900123"
    /\ In "000197900123" arrays.
Proof.
  destruct (init_picks_a_listed_array Fixtures.env_up "unisphere.example.com"
              8443 (Some "000197900123")
              (Fixtures.collector_of Fixtures.conn_up) eq_refl)
    as (arrays & _ & H1 & H2 & H3).
  exists arrays. auto.
Defined.

End InitProps.

(* ================================================================== *)
(** ** Further properties: the collectors *)
(* ================================================================== *)

Module CollectorFacts.

Import Py Collector SpecWords CollectorProps.

Local Open Scope float_scope.

Lemma Subseq_length {A : Type} (r l : list A) :
  Subseq r l -> (List.length r <= List.length l)%nat.
Proof. induction 1; simpl; lia. Qed.

Lemma Subseq_filter {A : Type} (f : A -> bool) (l : list A) :
  Subseq (filter f l) l.
Proof.
  induction l as [|x l IH]; simpl; [constructor|].
  destruct (f x); constructor; exact IH.
Qed.

Lemma Subseq_map {A B : Type} (f : A -> B) (r l : list A) :
  Subseq r l -> Subseq (map f r) (map f l).
Proof. induction 1; simpl; constructor; assumption. Qed.

(** A pool whose derived fields are those of its raw fields. *)
Definition srp_consistent (c : SrpCapacity.t) : Prop :=
  if 0 <? SrpCapacity.total_managed_space_gb c
  then SrpCapacity.free_capacity_gb c
       = SrpCapacity.total_managed_space_gb c - SrpCapacity.used_capacity_gb c
       /\ SrpCapacity.utilization_percent c
          = SrpCapacity.used_capacity_gb c / SrpCapacity.total_managed_space_gb c * 100
       /\ SrpCapacity.subscription_percent c
          = SrpCapacity.subscribed_capacity_gb c
            / SrpCapacity.total_managed_space_gb c * 100
  else SrpCapacity.free_capacity_gb c = 0
       /\ SrpCapacity.utilization_percent c = 0
       /\ SrpCapacity.subscription_percent c = 0.

(** A system whose derived fields are those of its raw fields. *)
Definition system_consistent (c : SystemCapacity.t) : Prop :=
  if 0 <? SystemCapacity.max_effective_capacity_gb c
  then SystemCapacity.free_capacity_gb c
       = SystemCapacity.max_effective_capacity_gb c
         - SystemCapacity.effective_used_capacity_gb c
       /\ SystemCapacity.utilization_percent c
          = SystemCapacity.effective_used_capacity_gb c
            / SystemCapacity.max_effective_capacity_gb c * 100
  else SystemCapacity.free_capacity_gb c = 0
       /\ SystemCapacity.utilization_percent c = 0.

Lemma system_construct_facts a t u m s tu :
  SystemCapacity.array_id (SystemCapacity.construct a t u m s tu) = a
  /\ SystemCapacity.timestamp (SystemCapacity.construct a t u m s tu) = t
  /\ system_consistent (SystemCapacity.construct a t u m s tu).
Proof.
  unfold system_consistent, SystemCapacity.construct, SystemCapacity.init,
    SystemCapacity.post_init. simpl.
  destruct (0 <? m) eqn:E; simpl; rewrite E; repeat split.
Qed.

Definition group_normal (c : StorageGroupCapacity.t) : Prop :=
  (StorageGroupCapacity.capacity_gb c <? 0) = false.

Definition volume_normal (c : VolumeCapacity.t) : Prop :=
  (VolumeCapacity.capacity_gb c <? 0) = false
  /\ (0 <=? VolumeCapacity.allocated_percent c) = true
  /\ (VolumeCapacity.allocated_percent c <=? 100) = true.

Lemma srp_construct_facts a i t u s m :
  SrpCapacity.array_id (SrpCapacity.construct a i t u s m) = a
  /\ SrpCapacity.srp_id (SrpCapacity.construct a i t u s m) = i
  /\ srp_consistent (SrpCapacity.construct a i t u s m).
Proof.
  unfold srp_consistent, SrpCapacity.construct, SrpCapacity.init,
    SrpCapacity.post_init. simpl.
  destruct (0 <? m) eqn:E; simpl; rewrite E; repeat split.
Qed.

Lemma group_init_facts a i t c n sl sr co :
  StorageGroupCapacity.array_id (StorageGroupCapacity.init a i t c n sl sr co) = a
  /\ StorageGroupCapacity.storage_group_id
       (StorageGroupCapacity.init a i t c n sl sr co) = i
  /\ group_normal (StorageGroupCapacity.init a i t c n sl sr co).
Proof.
  unfold group_normal, StorageGroupCapacity.init, StorageGroupCapacity.post_init.
  simpl. destruct (c <? 0) eqn:E; simpl; repeat split. exact E.
Qed.

Lemma volume_init_facts a i vi t c p g w e :
  VolumeCapacity.array_id (VolumeCapacity.init a i vi t c p g w e) = a
  /\ VolumeCapacity.volume_id (VolumeCapacity.init a i vi t c p g w e) = i
  /\ volume_normal (VolumeCapacity.init a i vi t c p g w e).
Proof.
  unfold volume_normal, VolumeCapacity.init, VolumeCapacity.post_init. simpl.
  destruct (c <? 0) eqn:E; simpl;
    destruct (0 <=? p) eqn:E1; simpl;
    try destruct (p <=? 100) eqn:E2; simpl; repeat split; auto.
Qed.

Section WithCollector.
Variable env : Env.
Variable self : VmaxCapacityCollector.
Variable array_id : string.

Ltac run :=
  unfold get_system_summary, get_srp_capacity, get_all_storage_groups,
    get_all_volumes, srp_item, sg_item, volume_item, to_float, to_int,
    try_except, attempt, bind, lift, raise, ret, now in *.

Ltac split_match :=
  match goal with
  | |- context [match ?x with _ => _ end] =>
      lazymatch x with
      | context [match _ with _ => _ end] => fail
      | _ => idtac
      end;
      match type of x with
      | result _ => destruct x as [?e|?a] eqn:?E
      | option _ => destruct x as [?a|] eqn:?E
      | stats_response => destruct x as [|?r] eqn:?E
      | bool => destruct x eqn:?E
      | list _ => destruct x as [|?a ?l] eqn:?E
      end
  end.

(** X5.  Whatever goes wrong in [get_system_summary] comes out as a
    [DataCollectionError], after at most one clock reading.  An exception
    of the client is wrapped with a prefix chosen by its class; an empty
    list of array keys, and a response that is [None] or has no
    ['result'], are reported under "System summary collection failed",
    because the error the method raises for them is caught by its own
    last handler. *)
Theorem system_summary_failures :
  forall n : nat,
    (forall e n', get_system_summary env self array_id n = (inl e, n') ->
       class e = DataCollectionError /\ (n <= n' <= S n)%nat)
    /\ (forall e0, get_array_keys (conn self) = inl e0 ->
          get_system_summary env self array_id n
          = (inl (Exn DataCollectionError
                    ((match class e0 with
                      | VolumeBackendAPIException =>
                          "Failed to retrieve system summary: "
                      | KeyError => "API response missing required field: "
                      | _ => "System summary collection failed: "
                      end) ++ str e0)), n))
    /\ (get_array_keys (conn self) = inr [] ->
        get_system_summary env self array_id n
        = (inl (Exn DataCollectionError
                  "System summary collection failed: No array keys found"), n))
    /\ (forall k keys,
          get_array_keys (conn self) = inr (k :: keys) ->
          get_array_stats (conn self) array_id = inr StatsNone
          \/ get_array_stats (conn self) array_id = inr (StatsDict None) ->
          get_system_summary env self array_id n
          = (inl (Exn DataCollectionError
                    "System summary collection failed: Invalid response format from performance API"),
             n)).
Proof.
  intros n. split; [|split; [|split]].
  - intros e n' H.
    destruct (system_summary_cases env self array_id n)
      as [[sc [E _]]|[e1 [n1 [E [C Hn]]]]]; rewrite E in H; inversion H; subst.
    auto.
  - intros e0 H. run. rewrite H. simpl. unfold wrap_errors.
    destruct (class e0); reflexivity.
  - intros H. run. rewrite H. reflexivity.
  - intros k keys H [H1|H1]; run; rewrite H; simpl; rewrite H1; reflexivity.
Qed.

(** X6.  A response without rows, or whose first row has none of the four
    metrics, is not an error: [get_system_summary] returns a system whose
    capacities, free capacity and utilization are all [0]. *)
Theorem missing_system_metrics_are_zero :
  forall (n : nat) (k : string) (keys : list string) (rows : list pydict),
    get_array_keys (conn self) = inr (k :: keys) ->
    get_array_stats (conn self) array_id = inr (StatsDict (Some rows)) ->
    first_row rows = [] ->
    get_system_summary env self array_id n
    = (inr (SystemCapacity.mk array_id (clock env n) 0 0 0 0 0 0), S n).
Proof.
  intros n k keys rows Hk Hs Hr. run. rewrite Hk. simpl. rewrite Hs. simpl.
  rewrite Hr. reflexivity.
Qed.

(** X25.  A system that [get_system_summary] returns was stamped with
    the one clock reading the call took, carries the array id that was
    asked for, and has derived fields computed from its raw fields: free
    capacity and utilization from the used and maximum capacities, or
    both [0] when the maximum is not positive. *)
Theorem system_summary_is_consistent :
  forall (n n' : nat) (sc : SystemCapacity.t),
    get_system_summary env self array_id n = (inr sc, n') ->
    n' = S n
    /\ SystemCapacity.array_id sc = array_id
    /\ SystemCapacity.timestamp sc = clock env n
    /\ system_consistent sc.
Proof.
  intros n n' sc. run.
  repeat (split_match; simpl); try discriminate.
  intros H; inversion H; subst.
  split; [reflexivity|]. apply system_construct_facts.
Qed.

(** X26.  The pool loop treats two odd answers differently: a pool whose
    metrics answer is a dict without ['result'], or with an empty
    ['result'], is collected with all its capacities at [0]; a pool whose
    answer is [None] is a failing pool, and is skipped. *)
Theorem pool_without_result_is_zero_and_none_is_skipped :
  forall (srp_id : string) (n : nat),
    (get_storage_resource_pool_stats (conn self) array_id srp_id
     = inr (StatsDict None)
     \/ get_storage_resource_pool_stats (conn self) array_id srp_id
        = inr (StatsDict (Some [])) ->
     srp_item env self array_id srp_id n
     = (inr (SrpCapacity.mk array_id srp_id (clock env n) 0 0 0 0 0 0), S n))
    /\ (get_storage_resource_pool_stats (conn self) array_id srp_id
        = inr StatsNone ->
        pool_fails env self array_id srp_id = true
        /\ exists e, srp_item env self array_id srp_id n = (inl e, n)
                     /\ class e = AttributeError).
Proof.
  intros srp_id n. split.
  - intros [H|H]; run; rewrite H; reflexivity.
  - intros H. unfold pool_fails. run. rewrite H. simpl.
    split; [reflexivity|]. eexists. split; reflexivity.
Qed.

(** *** What the loops collect *)

Lemma srp_loop_facts l : forall acc n,
  exists r n',
    srp_loop env self array_id l acc n = (inr (acc ++ r), n')
    /\ Subseq (map SrpCapacity.srp_id r) (map pool_id l)
    /\ Forall (fun c => SrpCapacity.array_id c = array_id
                        /\ SrpCapacity.srp_id c <> ""
                        /\ srp_consistent c) r.
Proof.
  induction l as [|i l IH]; intros acc n.
  - exists [], n. simpl. rewrite app_nil_r. repeat split; constructor.
  - simpl. unfold pool_id at 1.
    destruct (storageResourcePoolId i) as [[|ch s]|] eqn:Ei.
    + destruct (IH acc n) as (r & n' & E & Hs & Hf).
      exists r, n'. split; [exact E|]. split; [constructor; exact Hs|exact Hf].
    + unfold bind, attempt.
      destruct (srp_item env self array_id (String ch s) n) as [[e|c] n1] eqn:E1.
      * destruct (IH acc n1) as (r & n' & E & Hs & Hf).
        exists r, n'. split; [exact E|]. split; [constructor; exact Hs|exact Hf].
      * destruct (IH (acc ++ [c]) n1) as (r & n' & E & Hs & Hf).
        assert (F : SrpCapacity.array_id c = array_id
                    /\ SrpCapacity.srp_id c = String ch s /\ srp_consistent c).
        { revert E1. run. repeat (split_match; simpl); try discriminate;
            intros H; inversion H; subst; apply srp_construct_facts. }
        destruct F as (F1 & F2 & F3).
        exists (c :: r), n'. rewrite E, <- app_assoc. simpl.
        split; [reflexivity|]. rewrite F2. split; [constructor; exact Hs|].
        constructor; [|exact Hf]. rewrite F2. repeat split; auto. discriminate.
    + destruct (IH acc n) as (r & n' & E & Hs & Hf).
      exists r, n'. split; [exact E|]. split; [constructor; exact Hs|exact Hf].
Qed.

Lemma sg_loop_facts l : forall acc n,
  exists r n',
    sg_loop env self array_id l acc n = (inr (acc ++ r), n')
    /\ Subseq (map StorageGroupCapacity.storage_group_id r) l
    /\ Forall (fun c => StorageGroupCapacity.array_id c = array_id
                        /\ group_normal c) r.
Proof.
  induction l as [|i l IH]; intros acc n.
  - exists [], n. simpl. rewrite app_nil_r. repeat split; constructor.
  - simpl. unfold bind, attempt.
    destruct (sg_item env self array_id i n) as [[e|[c|]] n1] eqn:E1.
    + destruct (IH acc n1) as (r & n' & E & Hs & Hf).
      exists r, n'. split; [exact E|]. split; [constructor; exact Hs|exact Hf].
    + destruct (IH (acc ++ [c]) n1) as (r & n' & E & Hs & Hf).
      assert (F : StorageGroupCapacity.array_id c = array_id
                  /\ StorageGroupCapacity.storage_group_id c = i
                  /\ group_normal c).
      { revert E1. run. repeat (split_match; simpl); try discriminate;
          intros H; inversion H; subst; apply group_init_facts. }
      destruct F as (F1 & F2 & F3).
      exists (c :: r), n'. rewrite E, <- app_assoc. simpl.
      split; [reflexivity|]. rewrite F2. split; [constructor; exact Hs|].
      constructor; auto.
    + destruct (IH acc n1) as (r & n' & E & Hs & Hf).
      exists r, n'. split; [exact E|]. split; [constructor; exact Hs|exact Hf].
Qed.

Lemma volume_loop_facts l : forall acc n,
  exists r n',
    volume_loop env self array_id l acc n = (inr (acc ++ r), n')
    /\ Subseq (map VolumeCapacity.volume_id r) l
    /\ Forall (fun c => VolumeCapacity.array_id c = array_id
                        /\ volume_normal c) r.
Proof.
  induction l as [|i l IH]; intros acc n.
  - exists [], n. simpl. rewrite app_nil_r. repeat split; constructor.
  - simpl. unfold bind, attempt.
    destruct (volume_item env self array_id i n) as [[e|[c|]] n1] eqn:E1.
    + destruct (IH acc n1) as (r & n' & E & Hs & Hf).
      exists r, n'. split; [exact E|]. split; [constructor; exact Hs|exact Hf].
    + destruct (IH (acc ++ [c]) n1) as (r & n' & E & Hs & Hf).
      assert (F : VolumeCapacity.array_id c = array_id
                  /\ VolumeCapacity.volume_id c = i
                  /\ volume_normal c).
      { revert E1. run. repeat (split_match; simpl); try discriminate;
          intros H; inversion H; subst; apply volume_init_facts. }
      destruct F as (F1 & F2 & F3).
      exists (c :: r), n'. rewrite E, <- app_assoc. simpl.
      split; [reflexivity|]. rewrite F2. split; [constructor; exact Hs|].
      constructor; auto.
    + destruct (IH acc n1) as (r & n' & E & Hs & Hf).
      exists r, n'. split; [exact E|]. split; [constructor; exact Hs|exact Hf].
Qed.

End WithCollector.

Lemma missing_system_metrics_are_zero_witness :
  get_system_summary (Fixtures.env_of MoreFixtures.conn_no_rows)
    (Fixtures.collector_of MoreFixtures.conn_no_rows) Fixtures.serial 4%nat
  = (inr (SystemCapacity.mk Fixtures.serial "2024-05-01T10:00:00.4" 0 0 0 0 0 0),
     5%nat).
Proof.
  exact (missing_system_metrics_are_zero
           (Fixtures.env_of MoreFixtures.conn_no_rows)
           (Fixtures.collector_of MoreFixtures.conn_no_rows) Fixtures.serial
           4%nat Fixtures.serial [] [] eq_refl eq_refl eq_refl).
Defined.

Lemma system_summary_is_consistent_witness :
  exists sc,
    get_system_summary Fixtures.env_up (Fixtures.collector_of Fixtures.conn_up)
      Fixtures.serial 1%nat = (inr sc, 2%nat)
    /\ SystemCapacity.timestamp sc = "2024-05-01T10:00:00.1"
    /\ system_consistent sc.
Proof.
  eexists. split; [reflexivity|].
  destruct (system_summary_is_consistent Fixtures.env_up
              (Fixtures.collector_of Fixtures.conn_up) Fixtures.serial 1%nat 2%nat _
              eq_refl) as (_ & _ & H1 & H2).
  split; [exact H1|exact H2].
Defined.

Lemma pool_without_result_is_zero_and_none_is_skipped_witness :
  srp_item (Fixtures.env_of MoreFixtures.conn_no_rows)
    (Fixtures.collector_of MoreFixtures.conn_no_rows) Fixtures.serial "SRP_1" 4%nat
  = (inr (SrpCapacity.mk Fixtures.serial "SRP_1" "2024-05-01T10:00:00.4"
            0 0 0 0 0 0), 5%nat).
Proof.
  exact (proj1 (pool_without_result_is_zero_and_none_is_skipped
                  (Fixtures.env_of MoreFixtures.conn_no_rows)
                  (Fixtures.collector_of MoreFixtures.conn_no_rows)
                  Fixtures.serial "SRP_1" 4%nat) (or_introl eq_refl)).
Defined.

Local Close Scope float_scope.

Lemma collected_pools_facts env self array_id srp_list n :
  get_storage_resource_pool_keys (conn self) array_id = inr (Some srp_list) ->
  exists r n',
    get_srp_capacity env self array_id n = (inr r, n')
    /\ Forall (fun c => SrpCapacity.array_id c = array_id /\ srp_consistent c) r.
Proof.
  intros H. unfold get_srp_capacity, try_except, bind, lift. rewrite H.
  destruct (srp_loop_facts env self array_id srp_list [] n)
    as (r & n' & E & _ & Hf).
  exists r, n'. rewrite E. split; [reflexivity|].
  eapply Forall_impl; [|exact Hf]. intros c (A & _ & B). auto.
Qed.

Lemma collected_groups_facts env self array_id sg_list n :
  get_storage_group_list (conn self) array_id = inr sg_list ->
  exists r n',
    get_all_storage_groups env self array_id n = (inr r, n')
    /\ Forall (fun c => StorageGroupCapacity.array_id c = array_id
                        /\ group_normal c) r.
Proof.
  intros H. unfold get_all_storage_groups, try_except, bind, lift. rewrite H.
  destruct sg_list as [|i l].
  - simpl. exists [], n. split; constructor.
  - cbn [truthy_list negb].
    destruct (sg_loop_facts env self array_id (i :: l) [] n)
      as (r & n' & E & _ & Hf).
    exists r, n'. rewrite E. auto.
Qed.

Lemma collected_volumes_facts env self array_id volume_list n :
  get_volume_list (conn self) array_id = inr volume_list ->
  exists r n',
    get_all_volumes env self array_id n = (inr r, n')
    /\ Forall (fun c => VolumeCapacity.array_id c = array_id /\ volume_normal c) r.
Proof.
  intros H. unfold get_all_volumes, try_except, bind, lift. rewrite H.
  destruct volume_list as [|i l].
  - simpl. exists [], n. split; constructor.
  - cbn [truthy_list negb].
    destruct (volume_loop_facts env self array_id (i :: l) [] n)
      as (r & n' & E & _ & Hf).
    exists r, n'. rewrite E. auto.
Qed.

(** X7.  Once the list of pools is fetched, [get_srp_capacity] returns:
    its entries are pools of the list, in list order and at most one per
    listed pool; each has a non-empty identifier, the array id that was
    asked for, and derived fields computed from its raw fields (or [0]
    when the pool has no managed space). *)
Theorem collected_pools_come_from_the_list :
  forall (env : Env) (self : VmaxCapacityCollector) (array_id : string)
         (srp_list : list srp_info) (n : nat),
    get_storage_resource_pool_keys (conn self) array_id = inr (Some srp_list) ->
    exists r n',
      get_srp_capacity env self array_id n = (inr r, n')
      /\ Subseq (map SrpCapacity.srp_id r) (map pool_id srp_list)
      /\ (List.length r <= List.length srp_list)%nat
      /\ Forall (fun c => SrpCapacity.array_id c = array_id
                          /\ SrpCapacity.srp_id c <> ""
                          /\ srp_consistent c) r.
Proof.
  intros env self array_id srp_list n H.
  unfold get_srp_capacity, try_except, bind, lift. rewrite H.
  destruct (srp_loop_facts env self array_id srp_list [] n)
    as (r & n' & E & Hs & Hf).
  exists r, n'. rewrite E. repeat split; auto.
  apply Subseq_length in Hs. now rewrite !length_map in Hs.
Qed.

Lemma collected_pools_come_from_the_list_witness :
  exists r n',
    get_srp_capacity Fixtures.env_up (Fixtures.collector_of Fixtures.conn_up)
      Fixtures.serial 0 = (inr r, n')
    /\ Subseq (map SrpCapacity.srp_id r)
         ["SRP_1"; "SRP_2"; "SRP_3"; "SRP_4"; "SRP_5"]
    /\ Forall srp_consistent r.
Proof.
  destruct (collected_pools_come_from_the_list Fixtures.env_up
              (Fixtures.collector_of Fixtures.conn_up) Fixtures.serial
              Fixtures.five_pools 0 eq_refl) as (r & n' & E & Hs & _ & Hf).
  exists r, n'. split; [exact E|]. split; [exact Hs|].
  eapply Forall_impl; [|exact Hf]. intros c (_ & _ & H). exact H.
Defined.

(** X8.  Once the list of storage groups is fetched,
    [get_all_storage_groups] returns: its entries are groups of the list,
    in list order and at most one per listed group, each with the array
    id that was asked for and a capacity that is not negative. *)
Theorem collected_groups_come_from_the_list :
  forall (env : Env) (self : VmaxCapacityCollector) (array_id : string)
         (sg_list : list string) (n : nat),
    get_storage_group_list (conn self) array_id = inr sg_list ->
    exists r n',
      get_all_storage_groups env self array_id n = (inr r, n')
      /\ Subseq (map StorageGroupCapacity.storage_group_id r) sg_list
      /\ (List.length r <= List.length sg_list)%nat
      /\ Forall (fun c => StorageGroupCapacity.array_id c = array_id
                          /\ group_normal c) r.
Proof.
  intros env self array_id sg_list n H.
  unfold get_all_storage_groups, try_except, bind, lift. rewrite H.
  destruct sg_list as [|i l].
  - simpl. exists [], n. repeat split; constructor.
  - cbn [truthy_list negb].
    destruct (sg_loop_facts env self array_id (i :: l) [] n)
      as (r & n' & E & Hs & Hf).
    exists r, n'. rewrite E. repeat split; auto.
    apply Subseq_length in Hs. now rewrite length_map in Hs.
Qed.

Lemma collected_groups_come_from_the_list_witness :
  exists r n',
    get_all_storage_groups Fixtures.env_up
      (Fixtures.collector_of Fixtures.conn_up) Fixtures.serial 0 = (inr r, n')
    /\ Subseq (map StorageGroupCapacity.storage_group_id r) ["SG_APP1"; "SG_APP2"]
    /\ Forall group_normal r.
Proof.
  destruct (collected_groups_come_from_the_list Fixtures.env_up
              (Fixtures.collector_of Fixtures.conn_up) Fixtures.serial
              ["SG_APP1"; "SG_APP2"] 0 eq_refl) as (r & n' & E & Hs & _ & Hf).
  exists r, n'. split; [exact E|]. split; [exact Hs|].
  eapply Forall_impl; [|exact Hf]. intros c (_ & H). exact H.
Defined.

(** X9.  Once the list of volumes is fetched, [get_all_volumes] returns:
    its entries are volumes of the list, in list order and at most one
    per listed volume, each with the array id that was asked for, a
    capacity that is not negative and an allocated percentage within
    [0, 100]. *)
Theorem collected_volumes_come_from_the_list :
  forall (env : Env) (self : VmaxCapacityCollector) (array_id : string)
         (volume_list : list string) (n : nat),
    get_volume_list (conn self) array_id = inr volume_list ->
    exists r n',
      get_all_volumes env self array_id n = (inr r, n')
      /\ Subseq (map VolumeCapacity.volume_id r) volume_list
      /\ (List.length r <= List.length volume_list)%nat
      /\ Forall (fun c => VolumeCapacity.array_id c = array_id
                          /\ volume_normal c) r.
Proof.
  intros env self array_id volume_list n H.
  unfold get_all_volumes, try_except, bind, lift. rewrite H.
  destruct volume_list as [|i l].
  - simpl. exists [], n. repeat split; constructor.
  - cbn [truthy_list negb].
    destruct (volume_loop_facts env self array_id (i :: l) [] n)
      as (r & n' & E & Hs & Hf).
    exists r, n'. rewrite E. repeat split; auto.
    apply Subseq_length in Hs. now rewrite length_map in Hs.
Qed.

Lemma collected_volumes_come_from_the_list_witness :
  exists r n',
    get_all_volumes Fixtures.env_up
      (Fixtures.collector_of Fixtures.conn_up) Fixtures.serial 0 = (inr r, n')
    /\ Subseq (map VolumeCapacity.volume_id r) ["00A1F"]
    /\ Forall volume_normal r.
Proof.
  destruct (collected_volumes_come_from_the_list Fixtures.env_up
              (Fixtures.collector_of Fixtures.conn_up) Fixtures.serial
              ["00A1F"] 0 eq_refl) as (r & n' & E & Hs & _ & Hf).
  exists r, n'. split; [exact E|]. split; [exact Hs|].
  eapply Forall_impl; [|exact Hf]. intros c (_ & H). exact H.
Defined.

Lemma snapshot_array_id env self array_id n n' snapshot :
  get_all_capacity_data env self array_id n = (inr snapshot, n') ->
  CapacitySnapshot.array_id snapshot = array_id.
Proof.
  intros H. rewrite get_all_capacity_data_steps in H.
  destruct (get_system_summary env self array_id (S n)) as [[e|sc] n1];
    [discriminate|].
  destruct (get_srp_capacity env self array_id n1) as [[e|r2] n2];
    [discriminate|].
  destruct (get_all_storage_groups env self array_id n2) as [[e|r3] n3];
    [discriminate|].
  destruct (get_all_volumes env self array_id n3) as [[e|r4] n4];
    [discriminate|].
  now inversion H.
Qed.

(** X10.  [get_all_capacity_data] raises nothing but
    [DataCollectionError]. *)
Theorem collection_raises_data_collection_error :
  forall (env : Env) (self : VmaxCapacityCollector) (array_id : string)
         (n n' : nat) (e : exn),
    get_all_capacity_data env self array_id n = (inl e, n') ->
    class e = DataCollectionError.
Proof.
  intros env self array_id n n' e H.
  rewrite get_all_capacity_data_steps in H.
  destruct (system_summary_cases env self array_id (S n))
    as [[sc [E _]]|[e1 [n1 [E [C _]]]]]; rewrite E in H;
    [|inversion H; subst; exact C].
  destruct (get_srp_capacity_cases env self array_id (S (S n)))
    as [(r2 & n2 & E2 & _)|[e2 [E2 C]]]; rewrite E2 in H;
    [|inversion H; subst; exact C].
  destruct (get_all_storage_groups_cases env self array_id n2)
    as [(r3 & n3 & E3 & _)|[e3 [E3 C]]]; rewrite E3 in H;
    [|inversion H; subst; exact C].
  destruct (get_all_volumes_cases env self array_id n3)
    as [(r4 & n4 & E4 & _)|[e4 [E4 C]]]; rewrite E4 in H;
    [discriminate|inversion H; subst; exact C].
Qed.

Lemma collection_raises_data_collection_error_witness :
  exists e,
    get_all_capacity_data Fixtures.env_system_down
      (Fixtures.collector_of Fixtures.conn_system_down) Fixtures.serial 0
    = (inl e, 1%nat)
    /\ class e = DataCollectionError.
Proof.
  eexists. split; [reflexivity|].
  exact (collection_raises_data_collection_error Fixtures.env_system_down
           (Fixtures.collector_of Fixtures.conn_system_down) Fixtures.serial
           0 1 _ eq_refl).
Defined.

(** X11.  In a snapshot that [get_all_capacity_data] returns, the
    snapshot, its system capacity and every pool, storage group and
    volume carry the array id that was asked for; every pool has derived
    fields computed from its raw fields, no storage group and no volume
    has a negative capacity, and every volume has an allocated percentage
    within [0, 100]. *)
Theorem snapshot_entities_are_normalized :
  forall (env : Env) (self : VmaxCapacityCollector) (array_id : string)
         (n n' : nat) (snapshot : CapacitySnapshot.t),
    get_all_capacity_data env self array_id n = (inr snapshot, n') ->
    CapacitySnapshot.array_id snapshot = array_id
    /\ SystemCapacity.array_id (CapacitySnapshot.system_capacity snapshot)
       = array_id
    /\ Forall (fun c => SrpCapacity.array_id c = array_id /\ srp_consistent c)
         (CapacitySnapshot.srp_capacities snapshot)
    /\ Forall (fun c => StorageGroupCapacity.array_id c = array_id
                        /\ group_normal c)
         (CapacitySnapshot.storage_group_capacities snapshot)
    /\ Forall (fun c => VolumeCapacity.array_id c = array_id /\ volume_normal c)
         (CapacitySnapshot.volume_capacities snapshot).
Proof.
  intros env self array_id n n' snapshot H.
  rewrite get_all_capacity_data_steps in H.
  destruct (get_system_summary env self array_id (S n)) as [[e|sc] n1] eqn:E1;
    [discriminate|].
  destruct (get_srp_capacity env self array_id n1) as [[e|r2] n2] eqn:E2;
    [discriminate|].
  destruct (get_all_storage_groups env self array_id n2) as [[e|r3] n3] eqn:E3;
    [discriminate|].
  destruct (get_all_volumes env self array_id n3) as [[e|r4] n4] eqn:E4;
    [discriminate|].
  inversion H; subst; clear H. simpl.
  split; [reflexivity|]. split; [|split; [|split]].
  - revert E1. unfold get_system_summary, try_except, bind, lift, raise, ret,
      now, to_float.
    repeat (match goal with
            | |- context [match ?x with _ => _ end] =>
                lazymatch x with
                | context [match _ with _ => _ end] => fail
                | _ => destruct x eqn:?
                end
            end; simpl); try discriminate.
    intros H; inversion H; subst.
    unfold SystemCapacity.construct, SystemCapacity.init, SystemCapacity.post_init.
    simpl. destruct (PrimFloat.ltb _ _); reflexivity.
  - destruct (get_storage_resource_pool_keys (conn self) array_id)
      as [e|[l|]] eqn:K.
    + rewrite (get_srp_capacity_raises env self array_id e n1 K) in E2.
      discriminate.
    + destruct (collected_pools_facts env self array_id l n1 K)
        as (r & m & E & Hf).
      rewrite E in E2. inversion E2; subst. exact Hf.
    + rewrite (get_srp_capacity_absent env self array_id n1 K) in E2.
      inversion E2. constructor.
  - destruct (get_storage_group_list (conn self) array_id) as [e|l] eqn:K.
    + rewrite (get_all_storage_groups_raises env self array_id e n2 K) in E3.
      discriminate.
    + destruct (collected_groups_facts env self array_id l n2 K)
        as (r & m & E & Hf).
      rewrite E in E3. inversion E3; subst. exact Hf.
  - destruct (get_volume_list (conn self) array_id) as [e|l] eqn:K.
    + rewrite (get_all_volumes_raises env self array_id e n3 K) in E4.
      discriminate.
    + destruct (collected_volumes_facts env self array_id l n3 K)
        as (r & m & E & Hf).
      rewrite E in E4. inversion E4; subst. exact Hf.
Qed.

Lemma snapshot_entities_are_normalized_witness :
  exists snapshot,
    get_all_capacity_data Fixtures.env_up (Fixtures.collector_of Fixtures.conn_up)
      Fixtures.serial 0 = (inr snapshot, 10%nat)
    /\ CapacitySnapshot.array_id snapshot = Fixtures.serial
    /\ Forall (fun c => VolumeCapacity.array_id c = Fixtures.serial
                        /\ volume_normal c)
         (CapacitySnapshot.volume_capacities snapshot).
Proof.
  eexists. split; [reflexivity|].
  destruct (snapshot_entities_are_normalized Fixtures.env_up
              (Fixtures.collector_of Fixtures.conn_up) Fixtures.serial 0 10 _
              eq_refl) as (H1 & _ & _ & _ & H5).
  split; [exact H1|exact H5].
Defined.

End CollectorFacts.

(* ================================================================== *)
(** ** Further properties: runs, status and trigger *)
(* ================================================================== *)

Module ServerFacts.

Import Py Collector ApiServer Endpoints RunProps.

Section Run.
Variable env : Env.

Lemma collect_without_config (e : exn) (s : state) :
  collect_capacity_data env (inl e) s
  = mkState (current_snapshot s) false (last_collection_time s) (Some (str e))
      (broadcasts s
       ++ [CollectionStarted (clock env (clock_reads s));
           CollectionError (str e) (clock env (S (clock_reads s)))])
      (S (S (clock_reads s))).
Proof.
  unfold collect_capacity_data, collect_capacity_task, collect_body,
    try_except, bind, lift, modify, broadcast, ApiServer.now, on_clock,
    Collector.now. simpl.
  unfold set_collection_in_progress. simpl.
  rewrite <- !app_assoc. reflexivity.
Qed.

Lemma collect_without_connection (config : UnisphereConfig.t) (e : exn)
    (s : state) :
  Collector.init env (UnisphereConfig.host config) (UnisphereConfig.port config)
    (Some (UnisphereConfig.array_id config)) = inl e ->
  collect_capacity_data env (inr config) s
  = mkState (current_snapshot s) false (last_collection_time s) (Some (str e))
      (broadcasts s
       ++ [CollectionStarted (clock env (clock_reads s));
           CollectionError (str e) (clock env (S (clock_reads s)))])
      (S (S (clock_reads s))).
Proof.
  intros H.
  unfold collect_capacity_data, collect_capacity_task, collect_body,
    try_except, bind, lift, modify, broadcast, ApiServer.now, on_clock,
    Collector.now. simpl. rewrite H. simpl.
  unfold set_collection_in_progress. simpl.
  rewrite <- !app_assoc. reflexivity.
Qed.

Lemma last_of_three (l : list message) (a b c : message) :
  last (map Some (l ++ [a; b; c])) None = Some c.
Proof.
  change [a; b; c] with ([a; b] ++ [c]). rewrite app_assoc. apply last_message.
Qed.

Lemma last_of_two (l : list message) (a b : message) :
  last (map Some (l ++ [a; b])) None = Some b.
Proof.
  change [a; b] with ([a] ++ [b]). rewrite app_assoc. apply last_message.
Qed.

(** The two ways a run ends. *)
Lemma run_cases :
  forall (load_config : result UnisphereConfig.t) (s : state),
    let s' := collect_capacity_data env load_config s in
    collection_in_progress s' = false
    /\ (exists rest,
          broadcasts s'
          = broadcasts s ++ CollectionStarted (clock env (clock_reads s)) :: rest)
    /\ ((run_outcome s' = Some Completed
         /\ collection_error s' = None
         /\ (exists snapshot config,
               load_config = inr config
               /\ current_snapshot s' = Some snapshot
               /\ CapacitySnapshot.array_id snapshot
                  = UnisphereConfig.array_id config)
         /\ exists t, last_collection_time s' = Some t)
        \/ (run_outcome s' = Some Failed
            /\ (exists msg, collection_error s' = Some msg)
            /\ current_snapshot s' = current_snapshot s
            /\ last_collection_time s' = last_collection_time s)).
Proof.
  intros load_config s s'. subst s'.
  destruct load_config as [e|config].
  { rewrite collect_without_config. simpl.
    split; [reflexivity|]. split; [eexists; reflexivity|].
    right. unfold run_outcome. simpl. rewrite last_of_two.
    repeat split. eexists; reflexivity. }
  destruct (Collector.init env (UnisphereConfig.host config)
              (UnisphereConfig.port config)
              (Some (UnisphereConfig.array_id config))) as [e|self] eqn:Ei.
  { rewrite (collect_without_connection config e s Ei). simpl.
    split; [reflexivity|]. split; [eexists; reflexivity|].
    right. unfold run_outcome. simpl. rewrite last_of_two.
    repeat split. eexists; reflexivity. }
  rewrite (collect_capacity_data_steps env (inr config) config self eq_refl Ei).
  cbv zeta.
  destruct (get_all_capacity_data env self (UnisphereConfig.array_id config)
              (S (clock_reads s))) as [[e|snapshot] n] eqn:Eg; simpl.
  - split; [reflexivity|]. split; [eexists; reflexivity|].
    right. unfold run_outcome. simpl. rewrite last_of_three.
    repeat split. eexists; reflexivity.
  - split; [reflexivity|]. split; [eexists; reflexivity|].
    left. unfold run_outcome. simpl. rewrite last_of_three.
    repeat split.
    + exists snapshot, config. repeat split.
      apply (CollectorFacts.snapshot_array_id env self _ _ _ _ Eg).
    + eexists; reflexivity.
Qed.

(** X12.  Every run of [collect_capacity_data], whatever happens in it,
    clears [collection_in_progress], broadcasts [collection_started]
    first, and ends in one of two ways: completed, with no error, a new
    snapshot of the configured array and a new collection time; or
    failed, with an error message, and with the snapshot and the
    collection time left as they were. *)
Theorem every_run_completes_or_fails :
  forall (load_config : result UnisphereConfig.t) (s : state),
    let s' := collect_capacity_data env load_config s in
    collection_in_progress s' = false
    /\ (exists rest,
          broadcasts s'
          = broadcasts s ++ CollectionStarted (clock env (clock_reads s)) :: rest)
    /\ ((run_outcome s' = Some Completed
         /\ collection_error s' = None
         /\ (exists snapshot config,
               load_config = inr config
               /\ current_snapshot s' = Some snapshot
               /\ CapacitySnapshot.array_id snapshot
                  = UnisphereConfig.array_id config)
         /\ exists t, last_collection_time s' = Some t)
        \/ (run_outcome s' = Some Failed
            /\ (exists msg, collection_error s' = Some msg)
            /\ current_snapshot s' = current_snapshot s
            /\ last_collection_time s' = last_collection_time s)).
Proof. exact run_cases. Qed.

(** X13.  A run that cannot load its configuration, or cannot open its
    connection, fails before any collection: [collection_error] is the
    message of that exception, the only messages broadcast are
    [collection_started] and [collection_error], and the clock is read
    twice. *)
Theorem run_fails_before_collection :
  forall (load_config : result UnisphereConfig.t) (s : state) (e : exn),
    load_config = inl e
    \/ (exists config,
          load_config = inr config
          /\ Collector.init env (UnisphereConfig.host config)
               (UnisphereConfig.port config)
               (Some (UnisphereConfig.array_id config)) = inl e) ->
    let s' := collect_capacity_data env load_config s in
    collection_error s' = Some (str e)
    /\ current_snapshot s' = current_snapshot s
    /\ broadcasts s'
       = broadcasts s
         ++ [CollectionStarted (clock env (clock_reads s));
             CollectionError (str e) (clock env (S (clock_reads s)))]
    /\ clock_reads s' = S (S (clock_reads s)).
Proof.
  intros load_config s e [->|[config [-> Hi]]] s'; subst s'.
  - rewrite collect_without_config. repeat split.
  - rewrite (collect_without_connection config e s Hi). repeat split.
Qed.

(** X27.  When a run ends completed, the summary it broadcasts agrees
    with what the server then serves: the [collection_completed] message
    carries the new [last_collection_time], and the array id, the three
    counts and the system utilization of the new [current_snapshot]. *)
Theorem completed_summary_matches_the_snapshot :
  forall (load_config : result UnisphereConfig.t) (s : state),
    run_outcome (collect_capacity_data env load_config s) = Some Completed ->
    exists snapshot t,
      current_snapshot (collect_capacity_data env load_config s) = Some snapshot
      /\ last_collection_time (collect_capacity_data env load_config s) = Some t
      /\ last (map Some (broadcasts (collect_capacity_data env load_config s)))
           None
         = Some (CollectionCompleted t (CapacitySnapshot.array_id snapshot)
                   (List.length (CapacitySnapshot.srp_capacities snapshot))
                   (List.length
                      (CapacitySnapshot.storage_group_capacities snapshot))
                   (List.length (CapacitySnapshot.volume_capacities snapshot))
                   (SystemCapacity.utilization_percent
                      (CapacitySnapshot.system_capacity snapshot))).
Proof.
  intros load_config s.
  destruct load_config as [e|config].
  { rewrite collect_without_config. unfold run_outcome. simpl.
    rewrite last_of_two. discriminate. }
  destruct (Collector.init env (UnisphereConfig.host config)
              (UnisphereConfig.port config)
              (Some (UnisphereConfig.array_id config))) as [e|self] eqn:Ei.
  { rewrite (collect_without_connection config e s Ei). unfold run_outcome.
    simpl. rewrite last_of_two. discriminate. }
  rewrite (collect_capacity_data_steps env (inr config) config self eq_refl Ei).
  cbv zeta.
  destruct (get_all_capacity_data env self (UnisphereConfig.array_id config)
              (S (clock_reads s))) as [[e|snapshot] n]; unfold run_outcome; simpl;
    rewrite last_of_three; [discriminate|].
  intros _. exists snapshot. eexists. repeat split.
Qed.

End Run.

Lemma completed_summary_matches_the_snapshot_witness :
  exists snapshot,
    current_snapshot Fixtures.after_one_run = Some snapshot
    /\ last (map Some (broadcasts Fixtures.after_one_run)) None
       = Some (CollectionCompleted "2024-05-01T10:00:00.11" Fixtures.serial
                 4 2 1 75).
Proof.
  destruct (completed_summary_matches_the_snapshot Fixtures.env_up
              (inr Fixtures.config) Fixtures.fresh eq_refl)
    as (snapshot & t & H1 & H2 & H3).
  exists snapshot. split; [exact H1|].
  change (collect_capacity_data Fixtures.env_up (inr Fixtures.config)
            Fixtures.fresh) with Fixtures.after_one_run in *.
  reflexivity.
Defined.

Lemma run_fails_before_collection_witness :
  collection_error
    (collect_capacity_data Fixtures.env_up
       (inl (Exn FileNotFoundError "Configuration file not found: config.json"))
       Fixtures.after_one_run)
  = Some "Configuration file not found: config.json"
  /\ current_snapshot
       (collect_capacity_data Fixtures.env_up
          (inl (Exn FileNotFoundError "Configuration file not found: config.json"))
          Fixtures.after_one_run)
     = current_snapshot Fixtures.after_one_run.
Proof.
  destruct (run_fails_before_collection Fixtures.env_up
              (inl (Exn FileNotFoundError
                      "Configuration file not found: config.json"))
              Fixtures.after_one_run _ (or_introl eq_refl)) as (H1 & H2 & _).
  split; [exact H1|exact H2].
Defined.

(** X14.  Once the server has a snapshot it keeps having one: after any
    sequence of further runs, failed or not, [get_status] still reports
    [has_data]. *)
Theorem has_data_is_never_lost :
  forall (runs : list (Env * result UnisphereConfig.t)) (s : state),
    has_data (get_status s) = true ->
    has_data (get_status (run_all runs s)) = true.
Proof.
  induction runs as [|[env lc] runs IH]; intros s H; [exact H|].
  unfold run_all. cbn [fold_left fst snd]. apply IH.
  unfold get_status in *. cbn [has_data] in *.
  destruct (run_cases env lc s)
    as (_ & _ & [(_ & _ & (snap & cfg & _ & E & _) & _)|(_ & _ & E & _)]);
    cbv zeta in E; rewrite E.
  - reflexivity.
  - exact H.
Qed.

Lemma has_data_is_never_lost_witness :
  has_data
    (get_status
       (run_all [(Fixtures.env_system_down, inr Fixtures.config);
                 (Fixtures.env_pool_keys_down, inr Fixtures.config)]
          Fixtures.after_one_run)) = true.
Proof.
  exact (has_data_is_never_lost
           [(Fixtures.env_system_down, inr Fixtures.config);
            (Fixtures.env_pool_keys_down, inr Fixtures.config)]
           Fixtures.after_one_run eq_refl).
Defined.

(** X15.  A request that [trigger_collection] accepts leaves the server
    idle once its task has run, so the next request is accepted without
    [force_refresh]; a request that is rejected changes nothing. *)
Theorem accepted_request_leaves_the_server_idle :
  forall (env : Env) (load_config : result UnisphereConfig.t)
         (force_refresh : bool) (s : state),
    (collection_in_progress s = false \/ force_refresh = true ->
     let s' := snd (post_api_collect env load_config force_refresh s) in
     collection_in_progress s' = false
     /\ exists t s'',
          trigger_collection env false s' = (Body (Started t), true, s''))
    /\ (collection_in_progress s = true /\ force_refresh = false ->
        post_api_collect env load_config force_refresh s
        = (HTTPException 409 "Collection already in progress", s)).
Proof.
  intros env load_config force_refresh s. split.
  - intros H s'. subst s'. unfold post_api_collect, trigger_collection.
    replace (collection_in_progress s && negb force_refresh) with false
      by (destruct H as [-> | ->]; [reflexivity|now rewrite andb_false_r]).
    cbv beta iota delta [snd].
    destruct (run_cases env load_config
                (set_clock_reads (S (clock_reads s)) s)) as (Hp & _).
    cbv zeta in Hp. split; [exact Hp|].
    rewrite Hp. cbn [andb]. eexists. eexists. reflexivity.
  - intros [H1 H2]. unfold post_api_collect, trigger_collection.
    rewrite H1, H2. reflexivity.
Qed.

Lemma accepted_request_leaves_the_server_idle_witness :
  collection_in_progress
    (snd (post_api_collect Fixtures.env_up (inr Fixtures.config) false
            Fixtures.fresh)) = false.
Proof.
  exact (proj1 (proj1 (accepted_request_leaves_the_server_idle Fixtures.env_up
                         (inr Fixtures.config) false Fixtures.fresh)
                  (or_introl eq_refl))).
Defined.

End ServerFacts.

(* ================================================================== *)
(** ** Further properties: the query endpoints *)
(* ================================================================== *)

Module EndpointFacts.

Import Py ApiServer Endpoints SpecWords.

Section Lists.
Context {A : Type}.

Lemma firstn_plus (a b : nat) (l : list A) :
  firstn (a + b) l = firstn a l ++ firstn b (skipn a l).
Proof.
  revert l. induction a as [|a IH]; intros l; simpl; [reflexivity|].
  destruct l as [|x l]; simpl.
  - now rewrite firstn_nil.
  - now rewrite IH.
Qed.

Lemma In_firstn_skipn (a b : nat) (l : list A) (x : A) :
  In x (firstn a (skipn b l)) -> In x l.
Proof.
  intros H. rewrite <- (firstn_skipn b l). apply in_or_app. right.
  rewrite <- (firstn_skipn a (skipn b l)). apply in_or_app. left. exact H.
Qed.

Lemma In_slice (l : list A) (a b : Z) (x : A) : In x (slice l a b) -> In x l.
Proof. unfold slice. apply In_firstn_skipn. Qed.

Lemma length_slice (l : list A) (a b : Z) :
  (List.length (slice l a b) <= List.length l)%nat.
Proof.
  unfold slice. cbv zeta. rewrite length_firstn, length_skipn.
  etransitivity; [apply Nat.le_min_r|apply Nat.le_sub_l].
Qed.

(** [l[:k]]: the first [k] elements, and all but the last [-k] when [k]
    is negative. *)
Lemma slice_prefix (l : list A) (k : Z) :
  slice l 0 k
  = firstn (if (k <? 0)%Z then List.length l - Z.to_nat (- k) else Z.to_nat k) l.
Proof.
  unfold slice, slice_index. simpl (0 <? 0)%Z. cbv iota zeta.
  assert (E : Z.min 0 (Z.of_nat (List.length l)) = 0%Z) by lia.
  rewrite E. simpl skipn. rewrite Z.sub_0_r.
  destruct (Z.ltb_spec k 0).
  - f_equal. lia.
  - rewrite <- (PyProps.firstn_min_length (Z.to_nat k)). f_equal. lia.
Qed.

Lemma sorted_split (R : A -> A -> Prop) (l1 l2 : list A) :
  StronglySorted R (l1 ++ l2) ->
  forall a b, In a l1 -> In b l2 -> R a b.
Proof.
  induction l1 as [|x l1 IH]; intros H a b Ha Hb; [destruct Ha|].
  simpl in H. inversion H as [|? ? Hs Hf]; subst.
  destruct Ha as [->|Ha].
  - rewrite Forall_forall in Hf. apply Hf, in_or_app. now right.
  - now apply IH.
Qed.

Lemma sorted_prefix (R : A -> A -> Prop) (l1 l2 : list A) :
  StronglySorted R (l1 ++ l2) -> StronglySorted R l1.
Proof.
  induction l1 as [|x l1 IH]; intros H; [constructor|].
  simpl in H. inversion H as [|? ? Hs Hf]; subst.
  constructor; [now apply IH|].
  apply Forall_app in Hf. tauto.
Qed.

End Lists.

Lemma label_is_true wanted x : label_is wanted x = true -> x = Some wanted.
Proof.
  destruct x as [l|]; simpl; [|discriminate].
  intros H. apply String.eqb_eq in H. now subst.
Qed.

Lemma filtered_groups_spec snapshot service_level srp_name sg :
  In sg (filtered_groups snapshot service_level srp_name) ->
  In sg (CapacitySnapshot.storage_group_capacities snapshot)
  /\ (forall w, service_level = Some w -> w <> "" ->
                StorageGroupCapacity.service_level sg = Some w)
  /\ (forall w, srp_name = Some w -> w <> "" ->
                StorageGroupCapacity.srp_name sg = Some w).
Proof.
  unfold filtered_groups. intros H.
  assert (H1 : In sg
                 match service_level with
                 | Some wanted =>
                     if truthy_str wanted
                     then filter (fun sg => label_is wanted
                                    (StorageGroupCapacity.service_level sg))
                            (CapacitySnapshot.storage_group_capacities snapshot)
                     else CapacitySnapshot.storage_group_capacities snapshot
                 | None => CapacitySnapshot.storage_group_capacities snapshot
                 end
               /\ (forall w, srp_name = Some w -> w <> "" ->
                             StorageGroupCapacity.srp_name sg = Some w)).
  { destruct srp_name as [[|c w]|]; simpl in H.
    - split; [exact H|]. intros w E N. inversion E; subst. congruence.
    - apply filter_In in H. destruct H as [H L]. split; [exact H|].
      intros w' E _. inversion E; subst. now apply label_is_true.
    - split; [exact H|]. discriminate. }
  destruct H1 as [H1 H2].
  destruct service_level as [[|c w]|]; simpl in H1.
  - repeat split; auto. intros w E N. inversion E; subst. congruence.
  - apply filter_In in H1. destruct H1 as [H1 L]. repeat split; auto.
    intros w' E _. inversion E; subst. now apply label_is_true.
  - repeat split; auto. discriminate.
Qed.

(** X16.  With a snapshot and a limit that is absent or not negative,
    [get_storage_groups] answers the storage groups that match the
    requested service level and pool name (an absent or empty filter
    matches all), sorted by capacity, and cut to the first [limit] of
    them when [limit] is not [0]: every group it answers is a group of
    the snapshot that carries the requested labels. *)
Theorem storage_groups_are_filtered_then_limited :
  forall (s : state) (snapshot : CapacitySnapshot.t)
         (service_level srp_name : option string) (limit : option Z),
    current_snapshot s = Some snapshot ->
    (forall l, limit = Some l -> (0 <= l)%Z) ->
    exists groups,
      get_storage_groups s service_level srp_name limit = Body groups
      /\ groups
         = match limit with
           | Some l =>
               if (l =? 0)%Z
               then sorted_desc StorageGroupCapacity.capacity_gb
                      (filtered_groups snapshot service_level srp_name)
               else firstn (Z.to_nat l)
                      (sorted_desc StorageGroupCapacity.capacity_gb
                         (filtered_groups snapshot service_level srp_name))
           | None =>
               sorted_desc StorageGroupCapacity.capacity_gb
                 (filtered_groups snapshot service_level srp_name)
           end
      /\ Forall (fun sg =>
                   In sg (CapacitySnapshot.storage_group_capacities snapshot)
                   /\ (forall w, service_level = Some w -> w <> "" ->
                                 StorageGroupCapacity.service_level sg = Some w)
                   /\ (forall w, srp_name = Some w -> w <> "" ->
                                 StorageGroupCapacity.srp_name sg = Some w))
           groups.
Proof.
  intros s snapshot service_level srp_name limit Hs Hl.
  unfold get_storage_groups. rewrite Hs.
  set (sorted := sorted_desc StorageGroupCapacity.capacity_gb
                   (filtered_groups snapshot service_level srp_name)).
  assert (F : forall sg, In sg sorted ->
                In sg (CapacitySnapshot.storage_group_capacities snapshot)
                /\ (forall w, service_level = Some w -> w <> "" ->
                              StorageGroupCapacity.service_level sg = Some w)
                /\ (forall w, srp_name = Some w -> w <> "" ->
                              StorageGroupCapacity.srp_name sg = Some w)).
  { intros sg H. apply filtered_groups_spec.
    eapply Permutation_in; [apply PyProps.sorted_desc_perm|exact H]. }
  destruct limit as [l|].
  - destruct (Z.eqb_spec l 0) as [->|N]; simpl.
    + eexists. split; [reflexivity|]. split; [reflexivity|].
      apply Forall_forall. exact F.
    + eexists. split; [reflexivity|]. split.
      * rewrite slice_prefix. specialize (Hl l eq_refl).
        destruct (Z.ltb_spec l 0); [lia|reflexivity].
      * apply Forall_forall. intros sg H. apply F. eapply In_slice. exact H.
  - eexists. split; [reflexivity|]. split; [reflexivity|].
    apply Forall_forall. exact F.
Qed.

Lemma storage_groups_are_filtered_then_limited_witness :
  get_storage_groups MoreFixtures.groups_state (Some "Diamond") None (Some 1%Z)
  = Body [Fixtures.group "SG_A" (Some "Diamond") 100].
Proof.
  destruct (storage_groups_are_filtered_then_limited MoreFixtures.groups_state
              MoreFixtures.groups_snapshot (Some "Diamond") None (Some 1%Z)
              eq_refl) as (groups & H1 & H2 & _).
  - intros l E. inversion E. lia.
  - rewrite H1, H2. reflexivity.
Defined.

(** X17.  With a snapshot whose capacities are not NaN and a limit that
    is not negative, [get_top_consumers] answers the [limit] largest
    storage groups (all of them when there are fewer), in descending
    order of capacity: no group it leaves out is larger than a group it
    answers. *)
Theorem top_consumers_are_the_largest :
  forall (s : state) (snapshot : CapacitySnapshot.t) (limit : Z),
    current_snapshot s = Some snapshot ->
    (0 <= limit)%Z ->
    no_nan StorageGroupCapacity.capacity_gb
      (CapacitySnapshot.storage_group_capacities snapshot) ->
    exists top rest,
      get_top_consumers s limit = Body top
      /\ Permutation (top ++ rest)
           (CapacitySnapshot.storage_group_capacities snapshot)
      /\ List.length top
         = Nat.min (Z.to_nat limit)
             (List.length (CapacitySnapshot.storage_group_capacities snapshot))
      /\ StronglySorted (desc StorageGroupCapacity.capacity_gb) top
      /\ (forall a b, In a top -> In b rest ->
            (StorageGroupCapacity.capacity_gb b
             <=? StorageGroupCapacity.capacity_gb a)%float = true).
Proof.
  intros s snapshot limit Hs Hl Hn.
  unfold get_top_consumers. rewrite Hs.
  set (groups := CapacitySnapshot.storage_group_capacities snapshot) in *.
  set (sorted := sorted_desc StorageGroupCapacity.capacity_gb groups).
  exists (firstn (Z.to_nat limit) sorted), (skipn (Z.to_nat limit) sorted).
  assert (S : StronglySorted (desc StorageGroupCapacity.capacity_gb)
                (firstn (Z.to_nat limit) sorted ++ skipn (Z.to_nat limit) sorted)).
  { rewrite firstn_skipn. apply PyProps.sorted_desc_sorted. exact Hn. }
  split; [|split; [|split; [|split]]].
  - rewrite slice_prefix. destruct (Z.ltb_spec limit 0); [lia|reflexivity].
  - rewrite firstn_skipn. apply PyProps.sorted_desc_perm.
  - rewrite length_firstn. unfold sorted.
    now rewrite PyProps.sorted_desc_length.
  - eapply sorted_prefix. exact S.
  - intros a b Ha Hb. exact (sorted_split _ _ _ S a b Ha Hb).
Qed.

Lemma top_consumers_are_the_largest_witness :
  exists top rest,
    get_top_consumers MoreFixtures.groups_state 2 = Body top
    /\ List.length top = 2%nat
    /\ (forall a b, In a top -> In b rest ->
          (StorageGroupCapacity.capacity_gb b
           <=? StorageGroupCapacity.capacity_gb a)%float = true).
Proof.
  destruct (top_consumers_are_the_largest MoreFixtures.groups_state
              MoreFixtures.groups_snapshot 2 eq_refl ltac:(lia)
              ltac:(repeat constructor))
    as (top & rest & H1 & _ & H3 & _ & H5).
  exists top, rest. split; [exact H1|]. split; [exact H3|exact H5].
Defined.

(** X18.  A negative limit is not refused: [get_top_consumers] and
    [get_storage_groups] then answer all the sorted storage groups but
    the last [-limit] of them (none when there are not that many). *)
Theorem negative_limit_drops_the_last :
  forall (s : state) (snapshot : CapacitySnapshot.t) (limit : Z),
    current_snapshot s = Some snapshot ->
    (limit < 0)%Z ->
    let sorted := sorted_desc StorageGroupCapacity.capacity_gb
                    (CapacitySnapshot.storage_group_capacities snapshot) in
    get_top_consumers s limit
    = Body (firstn (List.length sorted - Z.to_nat (- limit)) sorted)
    /\ get_storage_groups s None None (Some limit)
       = Body (firstn (List.length sorted - Z.to_nat (- limit)) sorted).
Proof.
  intros s snapshot limit Hs Hl sorted.
  unfold get_top_consumers, get_storage_groups. rewrite Hs.
  unfold filtered_groups. fold sorted.
  destruct (Z.eqb_spec limit 0) as [?|_]; [lia|]. simpl.
  rewrite slice_prefix.
  destruct (Z.ltb_spec limit 0); [|lia]. split; reflexivity.
Qed.

Lemma negative_limit_drops_the_last_witness :
  get_top_consumers MoreFixtures.groups_state (-1)
  = Body [Fixtures.group "SG_A" (Some "Diamond") 100;
          Fixtures.group "SG_E" (Some "Gold") 70;
          Fixtures.group "SG_B" (Some "Diamond") 50].
Proof.
  exact (proj1 (negative_limit_drops_the_last MoreFixtures.groups_state
                  MoreFixtures.groups_snapshot (-1) eq_refl ltac:(lia))).
Defined.

(** X19.  Consecutive pages of [get_volumes] fit together: for an offset
    that is not negative, the page of [limit1] volumes at [offset]
    followed by the page of [limit2] volumes at [offset + limit1] is the
    page of [limit1 + limit2] volumes at [offset], and the three report
    the same total. *)
Theorem consecutive_volume_pages_concatenate :
  forall (s : state) (snapshot : CapacitySnapshot.t)
         (storage_group : option string) (offset limit1 limit2 : Z),
    current_snapshot s = Some snapshot ->
    (0 <= offset)%Z -> (0 < limit1)%Z -> (0 < limit2)%Z ->
    exists p1 p2 p,
      get_volumes s storage_group (Some limit1) (Some offset) = Body p1
      /\ get_volumes s storage_group (Some limit2) (Some (offset + limit1)%Z)
         = Body p2
      /\ get_volumes s storage_group (Some (limit1 + limit2)%Z) (Some offset)
         = Body p
      /\ items p = items p1 ++ items p2
      /\ total p1 = total p /\ total p2 = total p.
Proof.
  intros s snapshot storage_group offset limit1 limit2 Hs Ho H1 H2.
  unfold get_volumes. rewrite Hs. unfold truthy_opt_int.
  destruct (Z.eqb_spec limit1 0) as [?|_]; [lia|].
  destruct (Z.eqb_spec limit2 0) as [?|_]; [lia|].
  destruct (Z.eqb_spec (limit1 + limit2) 0) as [?|_]; [lia|]. simpl.
  eexists. eexists. eexists.
  split; [reflexivity|]. split; [reflexivity|]. split; [reflexivity|].
  simpl. split; [|split; reflexivity].
  rewrite !PyProps.slice_window by lia.
  replace (Z.to_nat (limit1 + limit2)) with (Z.to_nat limit1 + Z.to_nat limit2)%nat
    by lia.
  rewrite firstn_plus, skipn_skipn.
  do 3 f_equal. lia.
Qed.

Lemma consecutive_volume_pages_concatenate_witness :
  exists p1 p2 p,
    get_volumes (Fixtures.state_of Fixtures.twenty_five) None (Some 3%Z)
      (Some 10%Z) = Body p1
    /\ get_volumes (Fixtures.state_of Fixtures.twenty_five) None (Some 2%Z)
         (Some 13%Z) = Body p2
    /\ get_volumes (Fixtures.state_of Fixtures.twenty_five) None (Some 5%Z)
         (Some 10%Z) = Body p
    /\ items p = items p1 ++ items p2.
Proof.
  destruct (consecutive_volume_pages_concatenate
              (Fixtures.state_of Fixtures.twenty_five)
              (Fixtures.snapshot_of Fixtures.twenty_five) None 10 3 2
              eq_refl ltac:(lia) ltac:(lia) ltac:(lia))
    as (p1 & p2 & p & H1 & H2 & H3 & H4 & _).
  exists p1, p2, p. auto.
Defined.

(** X20.  When [get_volumes] is asked for a storage group, every volume
    of the page is a volume of the snapshot that belongs to that group,
    and the page never holds more volumes than the total it reports;
    with an offset at or beyond the total the page is empty. *)
Theorem volume_pages_hold_only_members :
  forall (s : state) (snapshot : CapacitySnapshot.t) (storage_group : string)
         (limit offset : option Z) (page : volumes_page),
    current_snapshot s = Some snapshot ->
    storage_group <> "" ->
    get_volumes s (Some storage_group) limit offset = Body page ->
    Forall (fun v => In v (CapacitySnapshot.volume_capacities snapshot)
                     /\ In storage_group (VolumeCapacity.storage_groups v))
      (items page)
    /\ (List.length (items page) <= total page)%nat
    /\ (forall l o, limit = Some l -> offset = Some o -> (0 < l)%Z ->
          (Z.of_nat (total page) <= o)%Z -> items page = []).
Proof.
  intros s snapshot storage_group limit offset page Hs Hg H.
  unfold get_volumes in H. rewrite Hs in H.
  set (sorted := sorted_volumes snapshot (Some storage_group)) in *.
  assert (F : forall v, In v sorted ->
                In v (CapacitySnapshot.volume_capacities snapshot)
                /\ In storage_group (VolumeCapacity.storage_groups v)).
  { intros v Hv. unfold sorted, sorted_volumes in Hv.
    apply (Permutation_in _ (PyProps.sorted_desc_perm _ _)) in Hv.
    unfold filtered_volumes in Hv.
    destruct storage_group as [|c g]; [congruence|]. simpl in Hv.
    apply filter_In in Hv. destruct Hv as [Hv Hm]. split; [exact Hv|].
    now apply InitProps.str_in_iff. }
  destruct (truthy_opt_int limit) eqn:T.
  - destruct limit as [l|]; [|discriminate].
    destruct offset as [o|]; [|discriminate].
    inversion H; subst; clear H. simpl.
    split; [|split].
    + apply Forall_forall. intros v Hv. apply F. eapply In_slice. exact Hv.
    + apply length_slice.
    + intros l' o' E1 E2 Hl Ho. inversion E1; inversion E2; subst.
      unfold slice, slice_index.
      destruct (Z.ltb_spec o' 0); [lia|].
      destruct (Z.ltb_spec (o' + l') 0); [lia|].
      rewrite !Z.min_r by lia. rewrite Z.sub_diag. reflexivity.
  - inversion H; subst; clear H. simpl.
    split; [|split].
    + apply Forall_forall. exact F.
    + apply Nat.le_refl.
    + intros l o E _ Hl _. subst limit. simpl in T.
      destruct (Z.eqb_spec l 0); [lia|discriminate].
Qed.

Lemma volume_pages_hold_only_members_witness :
  exists page,
    get_volumes (Fixtures.state_of Fixtures.four) (Some "SG_APP1") (Some 2%Z)
      (Some 4%Z) = Body page
    /\ items page = [] /\ total page = 4%nat.
Proof.
  eexists. split; [reflexivity|].
  destruct (volume_pages_hold_only_members (Fixtures.state_of Fixtures.four)
              (Fixtures.snapshot_of Fixtures.four) "SG_APP1" (Some 2%Z)
              (Some 4%Z) _ eq_refl ltac:(discriminate) eq_refl)
    as (_ & _ & H).
  split; [|reflexivity].
  apply (H 2%Z 4%Z eq_refl eq_refl); simpl; lia.
Defined.

End EndpointFacts.

(* ================================================================== *)
(** ** Further properties: breakdown totals, broadcast, constructors *)
(* ================================================================== *)

Module BreakdownTotals.

Import ApiServer.

Section Weights.

(** A quantity of an entry that [add_group] increases by a quantity of
    the group, and that a new entry has at [0]. *)
Variable weight : sl_entry -> Z.
Variable share : StorageGroupCapacity.t -> Z.
Hypothesis weight_add : forall sg e, weight (add_group sg e) = (weight e + share sg)%Z.
Hypothesis weight_new : forall k, weight (mkEntry k 0 0 0) = 0%Z.

Definition total_weight (d : breakdown_dict) : Z :=
  fold_right (fun p a => (weight (snd p) + a)%Z) 0%Z d.

Lemma total_weight_app d d' :
  total_weight (d ++ d') = (total_weight d + total_weight d')%Z.
Proof. induction d as [|p d IH]; simpl; [reflexivity|]. rewrite IH. lia. Qed.

Lemma total_weight_update d k sg :
  dict_contains d k = true ->
  total_weight (dict_update d k (add_group sg)) = (total_weight d + share sg)%Z.
Proof.
  induction d as [|[k1 e1] d IH]; simpl; [discriminate|].
  destruct (String.eqb k1 k); simpl.
  - intros _. rewrite weight_add. lia.
  - intros H. rewrite IH by exact H. lia.
Qed.

Lemma dict_contains_app d k e : dict_contains (d ++ [(k, e)]) k = true.
Proof.
  induction d as [|[k1 e1] d IH]; simpl.
  - now rewrite String.eqb_refl.
  - rewrite IH. apply orb_true_r.
Qed.

Lemma total_weight_step d sg :
  total_weight (breakdown_step d sg) = (total_weight d + share sg)%Z.
Proof.
  unfold breakdown_step.
  destruct (dict_contains d (slo_of sg)) eqn:E.
  - apply total_weight_update. exact E.
  - rewrite total_weight_update by apply dict_contains_app.
    rewrite total_weight_app. simpl. rewrite weight_new. lia.
Qed.

Lemma total_weight_fold sgs : forall d,
  total_weight (fold_left breakdown_step sgs d)
  = (total_weight d + fold_right (fun sg a => share sg + a) 0 sgs)%Z.
Proof.
  induction sgs as [|sg sgs IH]; intros d; simpl; [lia|].
  rewrite IH, total_weight_step. lia.
Qed.

End Weights.

Definition sum_of {A : Type} (f : A -> Z) (l : list A) : Z :=
  fold_right (fun x a => (f x + a)%Z) 0%Z l.

(** X21.  The breakdown loses and repeats nothing: the counts of its
    entries add up to the number of storage groups, and their
    [num_volumes] add up to the sum of the [num_volumes] of the storage
    groups. *)
Theorem breakdown_accounts_for_every_group :
  forall sgs : list StorageGroupCapacity.t,
    sum_of count (service_level_breakdown sgs) = Z.of_nat (List.length sgs)
    /\ sum_of num_volumes (service_level_breakdown sgs)
       = sum_of StorageGroupCapacity.num_volumes sgs.
Proof.
  intros sgs. unfold service_level_breakdown.
  assert (M : forall (w : sl_entry -> Z) (d : breakdown_dict),
             sum_of w (map snd d) = total_weight w d).
  { intros w d. induction d as [|p d IH]; simpl; [reflexivity|]. now rewrite IH. }
  split; rewrite M.
  - rewrite (total_weight_fold count (fun _ => 1%Z)) by reflexivity.
    cbn [total_weight fold_right]. rewrite Z.add_0_l.
    induction sgs as [|sg sgs IH]; [reflexivity|].
    cbn [fold_right List.length]. rewrite IH, Nat2Z.inj_succ. lia.
  - rewrite (total_weight_fold num_volumes StorageGroupCapacity.num_volumes)
      by reflexivity.
    reflexivity.
Qed.

End BreakdownTotals.

Module BroadcastProps.

Import Py ConnectionManager.

Section Broadcast.
Context {Message : Type}.
Variable send_json : WebSocket -> Message -> result unit.
Variable message : Message.

(** The send to a connection succeeds. *)
Definition alive (c : WebSocket) : bool :=
  match send_json c message with inr _ => true | inl _ => false end.

Lemma send_all_spec l :
  send_all send_json l message = (filter alive l, filter (fun c => negb (alive c)) l).
Proof.
  induction l as [|c l IH]; simpl; [reflexivity|].
  rewrite IH. destruct (alive c) eqn:E; unfold alive in E;
    destruct (send_json c message); try discriminate; reflexivity.
Qed.

Lemma list_remove_first x pre l :
  ~ In x pre -> list_remove x (pre ++ x :: l) = inr (pre ++ l).
Proof.
  induction pre as [|y pre IH]; simpl; intros H.
  - now rewrite Nat.eqb_refl.
  - destruct (Nat.eqb_spec y x) as [->|N]; [tauto|].
    rewrite IH by tauto. reflexivity.
Qed.

Lemma list_remove_absent x l :
  ~ In x l -> list_remove x l = inl (Exn ValueError "list.remove(x): x not in list").
Proof.
  induction l as [|y l IH]; simpl; intros H; [reflexivity|].
  destruct (Nat.eqb_spec y x) as [->|N]; [tauto|].
  rewrite IH by tauto. reflexivity.
Qed.

Lemma disconnect_all_spec l : forall pre,
  Forall (fun c => alive c = true) pre ->
  disconnect_all (filter (fun c => negb (alive c)) l) (pre ++ l)
  = inr (pre ++ filter alive l).
Proof.
  induction l as [|c l IH]; intros pre Hp; simpl; [reflexivity|].
  destruct (alive c) eqn:E; simpl.
  - replace (pre ++ c :: l) with ((pre ++ [c]) ++ l) by now rewrite <- app_assoc.
    rewrite IH.
    + now rewrite <- app_assoc.
    + apply Forall_app. split; [exact Hp|]. repeat constructor. exact E.
  - unfold disconnect. rewrite list_remove_first.
    + apply IH. exact Hp.
    + intros H. rewrite Forall_forall in Hp. apply Hp in H. congruence.
Qed.

(** X22.  [broadcast] sends the message to every registered connection,
    a failed send not keeping it from the next ones, and never raises:
    the connections that got the message, and the connections that stay
    registered afterwards, are exactly those whose send succeeded, in
    their order of registration. *)
Theorem broadcast_keeps_the_live_connections :
  forall active_connections : list WebSocket,
    broadcast send_json active_connections message
    = (filter alive active_connections, inr (filter alive active_connections)).
Proof.
  intros l. unfold broadcast. rewrite send_all_spec.
  f_equal. exact (disconnect_all_spec l [] (Forall_nil _)).
Qed.

(** X23.  A connection that [broadcast] has dropped is no longer
    registered: the [disconnect] that the endpoint of that connection
    runs when it closes then raises [ValueError], the error of removing
    from a list an element that is not in it. *)
Theorem disconnect_after_drop_raises :
  forall (active_connections : list WebSocket) (websocket : WebSocket) (e : exn),
    In websocket active_connections ->
    send_json websocket message = inl e ->
    exists remaining,
      snd (broadcast send_json active_connections message) = inr remaining
      /\ ~ In websocket remaining
      /\ disconnect websocket remaining
         = inl (Exn ValueError "list.remove(x): x not in list").
Proof.
  intros l ws e Hin Hs.
  exists (filter alive l).
  assert (N : ~ In ws (filter alive l)).
  { intros H. apply filter_In in H. destruct H as [_ H].
    unfold alive in H. rewrite Hs in H. discriminate. }
  split; [|split].
  - unfold broadcast. rewrite send_all_spec. simpl.
    exact (disconnect_all_spec l [] (Forall_nil _)).
  - exact N.
  - apply list_remove_absent. exact N.
Qed.

End Broadcast.

(** Three clients, the second of which is gone. *)
Definition second_is_gone (c : WebSocket) (_ : string) : result unit :=
  if Nat.eqb c 2 then inl (Exn OtherException "WebSocket is not connected")
  else inr tt.

Lemma disconnect_after_drop_raises_witness :
  exists remaining,
    snd (broadcast second_is_gone [1; 2; 3] "collection_started")
    = inr remaining
    /\ remaining = [1; 3]
    /\ disconnect 2 remaining
       = inl (Exn ValueError "list.remove(x): x not in list").
Proof.
  destruct (disconnect_after_drop_raises second_is_gone "collection_started"
              [1; 2; 3] 2 _ (or_intror (or_introl eq_refl)) eq_refl)
    as (remaining & H1 & _ & H3).
  exists remaining. split; [exact H1|]. split; [|exact H3].
  simpl in H1. now inversion H1.
Defined.

End BroadcastProps.

Module ConstructorProps.

Local Open Scope float_scope.

(** X24.  Whatever values they are given, the constructors of
    [StorageGroupCapacity] and [VolumeCapacity] store a capacity that is
    not negative and an allocated percentage within [0, 100]; and values
    that already are so are stored unchanged. *)
Theorem constructors_normalize :
  forall (array_id id identifier timestamp : string) (capacity percent : float)
         (num_volumes : Z) (service_level srp_name wwn emulation : option string)
         (compression : bool) (groups : list string),
    let sg := StorageGroupCapacity.init array_id id timestamp capacity
                num_volumes service_level srp_name compression in
    let v := VolumeCapacity.init array_id id identifier timestamp capacity
               percent groups wwn emulation in
    (StorageGroupCapacity.capacity_gb sg <? 0) = false
    /\ (VolumeCapacity.capacity_gb v <? 0) = false
    /\ (0 <=? VolumeCapacity.allocated_percent v) = true
    /\ (VolumeCapacity.allocated_percent v <=? 100) = true
    /\ ((capacity <? 0) = false ->
        StorageGroupCapacity.capacity_gb sg = capacity
        /\ VolumeCapacity.capacity_gb v = capacity)
    /\ ((0 <=? percent) = true -> (percent <=? 100) = true ->
        VolumeCapacity.allocated_percent v = percent).
Proof.
  intros. subst sg v.
  destruct (CollectorFacts.group_init_facts array_id id timestamp capacity
              num_volumes service_level srp_name compression) as (_ & _ & G).
  destruct (CollectorFacts.volume_init_facts array_id id identifier timestamp
              capacity percent groups wwn emulation) as (_ & _ & V1 & V2 & V3).
  split; [exact G|]. split; [exact V1|]. split; [exact V2|]. split; [exact V3|].
  split.
  - intros H. unfold StorageGroupCapacity.init, StorageGroupCapacity.post_init,
      VolumeCapacity.init, VolumeCapacity.post_init. simpl. rewrite H. simpl.
    split; [reflexivity|]. destruct (negb _); reflexivity.
  - intros H1 H2. unfold VolumeCapacity.init, VolumeCapacity.post_init. simpl.
    destruct (capacity <? 0); simpl; rewrite H1, H2; reflexivity.
Qed.

End ConstructorProps.

